(** * Zerodha-clone backend: holdings, positions, orders and watchlists

  A shallow embedding of the Express route handlers and the Mongoose
  schemas of the backend, with the properties of the valuation code,
  the order life cycle and the watchlist operations.

  Conventions.
  - A JavaScript number is a binary64 float ([PrimFloat.float]); the
    arithmetic of the handlers is the IEEE arithmetic of [PrimFloat].
  - A document (and an object literal handed to a model constructor) is
    a finite map from property names to values; an absent key reads as
    [undefined].
  - A collection is a finite map from [_id] to documents.  Handlers take
    the collection and return the response together with the collection
    they leave behind.
  - [toFixed(2)] only renders a number in a response; responses carry
    the number that is rendered.
  - The clock ([new Date()]) and fresh [_id]s are arguments; an [_id]
    and a user id are strings, each standing for a well-formed ObjectId.
  - A request body is a record of its fields, numeric fields being JSON
    numbers; a field that is not sent is [None]. *)

From Stdlib Require Import ZArith String Ascii List PrimFloat FloatOps SpecFloat FloatAxioms.
From stdpp Require Import gmap strings list fin_maps.

Open Scope string_scope.
Open Scope list_scope.
Set Warnings "-inexact-float".

(** ** JavaScript values *)

Module Js.

Inductive val :=
  | VNum (x : float)
  | VStr (s : string)
  | VBool (b : bool)
  | VDate (t : Z).

Abbreviation obj := (gmap string val).

(** [ToNumber] of a value that is a number or [undefined]. *)
Definition to_number (v : option float) : float :=
  match v with Some x => x | None => nan end.

(** A numeric property: the number it holds, [undefined] when it is not
    set.  The routes and the schemas only ever store numbers in the
    properties read this way. *)
Definition num (o : obj) (k : string) : option float :=
  match o !! k with Some (VNum x) => Some x | _ => None end.

Definition str (o : obj) (k : string) : option string :=
  match o !! k with Some (VStr s) => Some s | _ => None end.

(** [!x] on a number or [undefined]: true for undefined, 0, -0 and NaN. *)
Definition falsy_num (v : option float) : bool :=
  match v with
  | None => true
  | Some x => (x =? 0)%float || is_nan x
  end.

(** [!s] on a string or [undefined]. *)
Definition falsy_str (v : option string) : bool :=
  match v with
  | None => true
  | Some s => bool_decide (s = "")
  end.

(** [a >= b] on numbers. *)
Definition ge (a b : float) : bool := (b <=? a)%float.

(** [a < b] on numbers. *)
Definition lt (a b : float) : bool := (a <? b)%float.

(** A template literal hole [${s}]. *)
Definition show (v : option string) : string :=
  match v with Some s => s | None => "undefined" end.

(** [Number.isInteger]. *)
Definition isInteger (x : float) : bool :=
  match Prim2SF x with
  | S754_zero _ => true
  | S754_finite _ m e => (0 <=? e)%Z || (Z.pos m mod 2 ^ (- e) =? 0)%Z
  | _ => false
  end.

Definition is_space (c : ascii) : bool :=
  match c with
  | " "%char | "009"%char | "010"%char | "011"%char | "012"%char | "013"%char => true
  | _ => false
  end.

Fixpoint trimStart (s : string) : string :=
  match s with
  | String c s' => if is_space c then trimStart s' else s
  | EmptyString => EmptyString
  end.

Fixpoint trimEnd (s : string) : string :=
  match s with
  | String c s' =>
      match trimEnd s' with
      | EmptyString => if is_space c then EmptyString else String c EmptyString
      | t => String c t
      end
  | EmptyString => EmptyString
  end.

Definition trim (s : string) : string := trimEnd (trimStart s).

End Js.

(** ** express-validator checks on request fields *)

Module Validator.
Import Js.

(** [isInt()] on a JSON number: an integer written without exponent. *)
Definition isInt (v : option float) : bool :=
  match v with
  | Some x => isInteger x && (abs x <? 1e21)%float
  | None => false
  end.

(** [isInt({ min })]. *)
Definition isIntMin (lo : float) (v : option float) : bool :=
  isInt v && match v with Some x => (lo <=? x)%float | None => false end.

(** [isFloat({ min })] on a JSON number. *)
Definition isFloatMin (lo : float) (v : option float) : bool :=
  match v with
  | Some x => is_finite x && (lo <=? x)%float
  | None => false
  end.

(** [trim().notEmpty()]. *)
Definition notEmptyTrimmed (v : option string) : bool :=
  match v with
  | Some s => negb (bool_decide (trim s = ""))
  | None => false
  end.

(** [isIn([...])]. *)
Definition isIn (l : list string) (v : option string) : bool :=
  match v with
  | Some s => bool_decide (s ∈ l)
  | None => false
  end.

(** One entry of a validation chain: the message is reported when the
    check fails. *)
Definition check (ok : bool) (msg : string) : list string :=
  if ok then [] else [msg].

End Validator.

(** ** The Mongoose layer: schemas, construction, validation *)

Module Mongoose.
Import Js.

(** A declared schema path with the options the schemas of this
    backend use. *)
Record Path := {
  path : string;
  required : option (obj → bool);
  requiredMsg : string;
  defaultValue : option (obj → option val);
  enumValues : option (list string);
  minValue : option float;
  validator : option (float → bool);
}.

Definition Schema := list Path.

Definition declared (s : Schema) (k : string) : bool :=
  bool_decide (k ∈ path <$> s).

(** Strict mode (the default, which no schema here switches off): a
    property of the constructor argument that is not a declared path is
    dropped. *)
Definition strict (s : Schema) (o : obj) : obj :=
  filter (λ kv, declared s kv.1 = true) o.

(** Defaults fill the paths left unset, in declaration order; a default
    function sees the document built so far as [this]. *)
Fixpoint applyDefaults (ps : list Path) (d : obj) : obj :=
  match ps with
  | [] => d
  | p :: ps' =>
      let d' :=
        match d !! path p, defaultValue p with
        | None, Some f =>
            match f d with Some v => <[path p := v]> d | None => d end
        | _, _ => d
        end in
      applyDefaults ps' d'
  end.

(** [new Model(o)]. *)
Definition construct (s : Schema) (o : obj) : obj :=
  applyDefaults s (strict s o).

Definition unset (d : obj) (k : string) : bool :=
  match d !! k with
  | None => true
  | Some (VStr s) => bool_decide (s = "")
  | Some _ => false
  end.

Definition validatePath (d : obj) (p : Path) : list string :=
  (match d !! path p with
   | Some (VNum x) =>
       if is_nan x then [path p +:+ ": Cast to Number failed for value NaN"] else []
   | _ => []
   end)
  ++ (match required p with
   | Some r => if r d && unset d (path p) then [requiredMsg p] else []
   | None => []
   end)
  ++ (match enumValues p, d !! path p with
      | Some vs, Some (VStr s) =>
          if bool_decide (s ∈ vs) then [] else [path p +:+ ": not a valid enum value"]
      | _, _ => []
      end)
  ++ (match minValue p, d !! path p with
      | Some lo, Some (VNum x) =>
          if lt x lo then [path p +:+ ": below the minimum"] else []
      | _, _ => []
      end)
  ++ (match validator p, d !! path p with
      | Some f, Some (VNum x) =>
          if f x then [] else [path p +:+ ": validator failed"]
      | _, _ => []
      end).

(** [doc.validate()]: the messages of the failing paths.  A path cannot
    hold NaN: the cast of a NaN, assigned or computed by a default,
    fails, and the failure is reported with the validation errors. *)
Definition validate (s : Schema) (d : obj) : list string :=
  flat_map (validatePath d) s.

(** [findOne({ _id, userId })]. *)
Definition findOne (st : gmap string obj) (id uid : string) : option obj :=
  match st !! id with
  | Some d => if bool_decide (str d "userId" = Some uid) then Some d else None
  | None => None
  end.

(** [doc.save()]: validation runs first, then the schema's pre-save
    hook; a failure of either rejects the save and nothing is written.
    What is written are the declared paths of the in-memory document:
    a property a route sets on the document object without the schema
    declaring it stays on that object only. *)
Definition persisted (s : Schema) (old mem : obj) : obj :=
  strict s mem ∪ filter (λ kv, declared s kv.1 = false) old.

Definition save (s : Schema) (pre : obj → string + obj)
    (st : gmap string obj) (id : string) (mem : obj)
    : string + gmap string obj :=
  match validate s mem with
  | e :: _ => inl e
  | [] =>
      match pre mem with
      | inl e => inl e
      | inr mem' => inr (<[id := persisted s (default ∅ (st !! id)) mem']> st)
      end
  end.

Definition always : option (obj → bool) := Some (λ _, true).

Definition plain (k : string) : Path :=
  {| path := k; required := None; requiredMsg := ""; defaultValue := None;
     enumValues := None; minValue := None; validator := None |}.

Definition const (v : val) : option (obj → option val) := Some (λ _, Some v).

End Mongoose.

(** ** Holdings: schema and routes *)

Module Holdings.
Import Js Validator Mongoose.

(** [HoldingsSchema], path by path. *)
Definition HoldingsSchema (now : Z) : Schema := [
  {| path := "userId"; required := always; requiredMsg := "User ID is required";
     defaultValue := None; enumValues := None; minValue := None; validator := None |};
  {| path := "symbol"; required := always; requiredMsg := "Stock symbol is required";
     defaultValue := None; enumValues := None; minValue := None; validator := None |};
  {| path := "exchange"; required := always; requiredMsg := "Exchange is required";
     defaultValue := const (VStr "NSE"); enumValues := Some ["NSE"; "BSE"];
     minValue := None; validator := None |};
  {| path := "quantity"; required := always; requiredMsg := "Quantity is required";
     defaultValue := None; enumValues := None; minValue := Some 0%float;
     validator := Some isInteger |};
  {| path := "averageBuyPrice"; required := always;
     requiredMsg := "Average buy price is required";
     defaultValue := None; enumValues := None; minValue := Some 0%float;
     validator := None |};
  {| path := "currentMarketPrice"; required := always;
     requiredMsg := "Current market price is required";
     defaultValue := None; enumValues := None; minValue := Some 0%float;
     validator := None |};
  {| path := "investedAmount"; required := None; requiredMsg := "";
     defaultValue := Some (λ this, Some (VNum
       (to_number (num this "quantity") * to_number (num this "averageBuyPrice"))%float));
     enumValues := None; minValue := None; validator := None |};
  {| path := "currentValue"; required := None; requiredMsg := "";
     defaultValue := Some (λ this, Some (VNum
       (to_number (num this "quantity") * to_number (num this "currentMarketPrice"))%float));
     enumValues := None; minValue := None; validator := None |};
  {| path := "profitLoss"; required := None; requiredMsg := "";
     defaultValue := Some (λ this, Some (VNum
       (to_number (num this "currentValue") - to_number (num this "investedAmount"))%float));
     enumValues := None; minValue := None; validator := None |};
  {| path := "profitLossPercentage"; required := None; requiredMsg := "";
     defaultValue := Some (λ this, Some (VNum
       (((to_number (num this "currentValue") - to_number (num this "investedAmount"))
         / to_number (num this "investedAmount")) * 100)%float));
     enumValues := None; minValue := None; validator := None |};
  {| path := "dayChange.value"; required := None; requiredMsg := "";
     defaultValue := const (VNum 0%float); enumValues := None; minValue := None;
     validator := None |};
  {| path := "dayChange.percentage"; required := None; requiredMsg := "";
     defaultValue := const (VNum 0%float); enumValues := None; minValue := None;
     validator := None |};
  {| path := "lastTradedPrice"; required := None; requiredMsg := "";
     defaultValue := None; enumValues := None; minValue := Some 0%float;
     validator := None |};
  {| path := "collateralQuantity"; required := None; requiredMsg := "";
     defaultValue := const (VNum 0%float); enumValues := None; minValue := None;
     validator := Some isInteger |};
  {| path := "collateralValue"; required := None; requiredMsg := "";
     defaultValue := Some (λ this, Some (VNum
       (to_number (num this "collateralQuantity")
        * to_number (num this "currentMarketPrice"))%float));
     enumValues := None; minValue := None; validator := None |};
  {| path := "pledgedQuantity"; required := None; requiredMsg := "";
     defaultValue := const (VNum 0%float); enumValues := None; minValue := None;
     validator := Some isInteger |};
  {| path := "t1Quantity"; required := None; requiredMsg := "";
     defaultValue := const (VNum 0%float); enumValues := None; minValue := None;
     validator := Some isInteger |};
  {| path := "authorizedQuantity"; required := None; requiredMsg := "";
     defaultValue := const (VNum 0%float); enumValues := None; minValue := None;
     validator := Some isInteger |};
  plain "isin"; plain "industry"; plain "sector"; plain "companyName";
  {| path := "lastUpdated"; required := None; requiredMsg := "";
     defaultValue := const (VDate now); enumValues := None; minValue := None;
     validator := None |};
  plain "createdAt"; plain "updatedAt"
].

(** [HoldingsSchema.pre('save')]: stamps [lastUpdated] and goes on. *)
Definition preSave (now : Z) (this : obj) : string + obj :=
  inr (<["lastUpdated" := VDate now]> this).

(** The body of an add or update request. *)
Record Body := {
  name : option string;
  qty : option float;
  avg : option float;
  price : option float;
}.

Definition holdingValidation (b : Body) : list string :=
  check (notEmptyTrimmed (name b)) "Stock name is required"
  ++ check (isIntMin 1 (qty b)) "Quantity must be at least 1"
  ++ check (isFloatMin 0.01 (avg b)) "Average price must be greater than 0"
  ++ check (isFloatMin 0.01 (price b)) "Current price must be greater than 0".

(** One update of a bulk request. *)
Record Update := {
  holdingId : option string;
  newPrice : option float;
}.

(** An [updateOne] of the batch handed to [bulkWrite]. *)
Record UpdateOne := {
  filterId : string;
  filterUserId : string;
  setPrice : float;
  setNet : float;
  setDay : float;
  setLastUpdated : Z;
}.

Record Metrics := {
  totalInvestment : float;
  currentValue : float;
  todaysPnL : float;
  totalPnL : float;
  totalPnLPercentage : float;
}.

Inductive Response :=
  | ValidationErrors (errors : list string)
  | HoldingExists
  | HoldingAdded (id name : string) (q a p net day : float)
  | HoldingNotFound
  | HoldingUpdated (id : string) (nm : option string) (q a p net day : float)
  | InvalidRequest
  | HoldingsUpdated (errors : option (list string))
  | HoldingsList (holdings : list obj) (metrics : Metrics)
  | Failed (error : string).

Definition statusCode (r : Response) : Z :=
  match r with
  | ValidationErrors _ | HoldingExists | InvalidRequest => 400
  | HoldingAdded _ _ _ _ _ _ _ => 201
  | HoldingNotFound => 404
  | HoldingUpdated _ _ _ _ _ _ _ | HoldingsUpdated _ | HoldingsList _ _ => 200
  | Failed _ => 500
  end.

(** [HoldingsModel.findOne({ userId, name })], as a truth value. *)
Definition existsByName (st : gmap string obj) (uid nm : string) : bool :=
  existsb (λ kv, bool_decide (str kv.2 "userId" = Some uid)
                 && bool_decide (str kv.2 "name" = Some nm))
          (map_to_list st).

(** The object literal handed to [new HoldingsModel] by [POST /add]. *)
Definition addPayload (uid nm : string) (q a p : float) (now : Z) : obj :=
  let net := ((p - a) * q)%float in
  let day := (((p - a) / a) * 100)%float in
  <["userId" := VStr uid]> (<["name" := VStr nm]> (<["qty" := VNum q]>
  (<["avg" := VNum a]> (<["price" := VNum p]> (<["net" := VNum net]>
  (<["day" := VNum day]> (<["lastUpdated" := VDate now]> ∅))))))).

(** [POST /add]. *)
Definition add (st : gmap string obj) (uid : string) (b : Body)
    (newId : string) (now : Z) : Response * gmap string obj :=
  match holdingValidation b with
  | (_ :: _) as errors => (ValidationErrors errors, st)
  | [] =>
      let nm := trim (default "" (name b)) in
      let q := to_number (qty b) in
      let a := to_number (avg b) in
      let p := to_number (price b) in
      let net := ((p - a) * q)%float in
      let day := (((p - a) / a) * 100)%float in
      if existsByName st uid nm then (HoldingExists, st)
      else
        let newHolding := construct (HoldingsSchema now) (addPayload uid nm q a p now) in
        match save (HoldingsSchema now) (preSave now) st newId newHolding with
        | inl _ => (Failed "Failed to add holding", st)
        | inr st' => (HoldingAdded newId nm q a p net day, st')
        end
  end.

(** The assignments of [PUT /:holdingId] on the document it found. *)
Definition assignUpdate (holding : obj) (q a p : float) (now : Z) : obj :=
  <["lastUpdated" := VDate now]> (
  <["day" := VNum (((p - a) / a) * 100)%float]> (
  <["net" := VNum ((p - a) * q)%float]> (
  <["price" := VNum p]> (<["avg" := VNum a]> (<["qty" := VNum q]> holding))))).

(** [PUT /:holdingId]. *)
Definition update (st : gmap string obj) (uid id : string) (b : Body) (now : Z)
    : Response * gmap string obj :=
  match holdingValidation b with
  | (_ :: _) as errors => (ValidationErrors errors, st)
  | [] =>
      match findOne st id uid with
      | None => (HoldingNotFound, st)
      | Some holding =>
          let holding' :=
            assignUpdate holding (to_number (qty b)) (to_number (avg b))
                         (to_number (price b)) now in
          match save (HoldingsSchema now) (preSave now) st id holding' with
          | inl _ => (Failed "Failed to update holding", st)
          | inr st' =>
              (HoldingUpdated id (str holding' "name")
                 (to_number (num holding' "qty")) (to_number (num holding' "avg"))
                 (to_number (num holding' "price")) (to_number (num holding' "net"))
                 (to_number (num holding' "day")), st')
          end
      end
  end.

(** The loop of [POST /bulk-update]: [bulkOps] and [errors] grow by
    [push] as the updates are visited in order. *)
Fixpoint bulkLoop (st : gmap string obj) (uid : string) (now : Z)
    (updates : list Update) (bulkOps : list UpdateOne) (errors : list string)
    : list UpdateOne * list string :=
  match updates with
  | [] => (bulkOps, errors)
  | upd :: rest =>
      if falsy_str (holdingId upd) || falsy_num (newPrice upd) then
        bulkLoop st uid now rest bulkOps
          (errors ++ ["Invalid update data for holding: " +:+ show (holdingId upd)])
      else
        let id := show (holdingId upd) in
        let p := to_number (newPrice upd) in
        match findOne st id uid with
        | None =>
            bulkLoop st uid now rest bulkOps (errors ++ ["Holding not found: " +:+ id])
        | Some holding =>
            let a := to_number (num holding "avg") in
            let q := to_number (num holding "qty") in
            let net := ((p - a) * q)%float in
            let day := (((p - a) / a) * 100)%float in
            bulkLoop st uid now rest
              (bulkOps ++ [{| filterId := id; filterUserId := uid; setPrice := p;
                              setNet := net; setDay := day; setLastUpdated := now |}])
              errors
        end
  end.

(** [POST /bulk-update]: the response, and the batch [bulkWrite] is
    called with ([None] when it is not called).  [updates] is [None]
    when the body does not carry an array. *)
Definition bulkUpdate (st : gmap string obj) (uid : string)
    (updates : option (list Update)) (now : Z)
    : Response * option (list UpdateOne) :=
  match updates with
  | None => (InvalidRequest, None)
  | Some us =>
      let '(bulkOps, errors) := bulkLoop st uid now us [] [] in
      (HoldingsUpdated (if bool_decide (0 < length errors)%nat then Some errors else None),
       if bool_decide (0 < length bulkOps)%nat then Some bulkOps else None)
  end.

(** The portfolio metrics of [GET /], over the holdings the query
    returned. *)
Definition portfolioMetrics (holdings : list obj) : Metrics :=
  let totalInvestment :=
    fold_left (λ sum h, (sum + to_number (num h "avg") * to_number (num h "qty"))%float)
              holdings 0%float in
  let currentValue :=
    fold_left (λ sum h, (sum + to_number (num h "price") * to_number (num h "qty"))%float)
              holdings 0%float in
  let todaysPnL :=
    fold_left (λ sum h, (sum + to_number (num h "net"))%float) holdings 0%float in
  let totalPnL := (currentValue - totalInvestment)%float in
  {| totalInvestment := totalInvestment;
     currentValue := currentValue;
     todaysPnL := todaysPnL;
     totalPnL := totalPnL;
     totalPnLPercentage := ((totalPnL / totalInvestment) * 100)%float |}.

(** [GET /]. *)
Definition getAll (holdings : list obj) : Response :=
  HoldingsList holdings (portfolioMetrics holdings).

End Holdings.

(** ** Positions: the metrics and bulk-update routes *)

Module Positions.
Import Js Validator Mongoose.

Record Update := {
  positionId : option string;
  newPrice : option float;
}.

Record UpdateOne := {
  filterId : string;
  filterUserId : string;
  setPrice : float;
  setNet : float;
  setDay : float;
  setIsLoss : bool;
  setLastUpdated : Z;
}.

Record Metrics := {
  totalInvestment : float;
  currentValue : float;
  dayPnL : float;
  totalPnL : float;
  totalPnLPercentage : float;
}.

Inductive Response :=
  | InvalidRequest
  | PositionsUpdated (errors : option (list string))
  | PositionsList (positions : list obj) (metrics : Metrics)
  | Failed (error : string).

(** The day's metrics of [GET /], over the positions the query returned. *)
Definition dayMetrics (positions : list obj) : Metrics :=
  let totalInvestment :=
    fold_left (λ sum p, (sum + to_number (num p "avg") * abs (to_number (num p "qty")))%float)
              positions 0%float in
  let currentValue :=
    fold_left (λ sum p, (sum + to_number (num p "price") * abs (to_number (num p "qty")))%float)
              positions 0%float in
  let dayPnL :=
    fold_left (λ sum p, (sum + to_number (num p "net"))%float) positions 0%float in
  let totalPnL := (currentValue - totalInvestment)%float in
  {| totalInvestment := totalInvestment;
     currentValue := currentValue;
     dayPnL := dayPnL;
     totalPnL := totalPnL;
     totalPnLPercentage := ((totalPnL / totalInvestment) * 100)%float |}.

(** [GET /]. *)
Definition getAll (positions : list obj) : Response :=
  PositionsList positions (dayMetrics positions).

(** The loop of [POST /bulk-update]. *)
Fixpoint bulkLoop (st : gmap string obj) (uid : string) (now : Z)
    (updates : list Update) (bulkOps : list UpdateOne) (errors : list string)
    : list UpdateOne * list string :=
  match updates with
  | [] => (bulkOps, errors)
  | upd :: rest =>
      if falsy_str (positionId upd) || falsy_num (newPrice upd) then
        bulkLoop st uid now rest bulkOps
          (errors ++ ["Invalid update data for position: " +:+ show (positionId upd)])
      else
        let id := show (positionId upd) in
        let p := to_number (newPrice upd) in
        match findOne st id uid with
        | None =>
            bulkLoop st uid now rest bulkOps (errors ++ ["Position not found: " +:+ id])
        | Some position =>
            let a := to_number (num position "avg") in
            let q := to_number (num position "qty") in
            let net := ((p - a) * q)%float in
            let day := (((p - a) / a) * 100)%float in
            bulkLoop st uid now rest
              (bulkOps ++ [{| filterId := id; filterUserId := uid; setPrice := p;
                              setNet := net; setDay := day; setIsLoss := lt net 0;
                              setLastUpdated := now |}])
              errors
        end
  end.

(** [POST /bulk-update]. *)
Definition bulkUpdate (st : gmap string obj) (uid : string)
    (updates : option (list Update)) (now : Z)
    : Response * option (list UpdateOne) :=
  match updates with
  | None => (InvalidRequest, None)
  | Some us =>
      let '(bulkOps, errors) := bulkLoop st uid now us [] [] in
      (PositionsUpdated (if bool_decide (0 < length errors)%nat then Some errors else None),
       if bool_decide (0 < length bulkOps)%nat then Some bulkOps else None)
  end.

End Positions.

(** ** Orders: schema and routes *)

Module Orders.
Import Js Validator Mongoose.

Definition orderTypeIs (this : obj) (l : list string) : bool :=
  match str this "orderType" with
  | Some t => bool_decide (t ∈ l)
  | None => false
  end.

(** [OrdersSchema], path by path. *)
Definition OrdersSchema : Schema := [
  {| path := "userId"; required := always; requiredMsg := "User ID is required";
     defaultValue := None; enumValues := None; minValue := None; validator := None |};
  {| path := "symbol"; required := always; requiredMsg := "Stock symbol is required";
     defaultValue := None; enumValues := None; minValue := None; validator := None |};
  {| path := "orderType"; required := always; requiredMsg := "Order type is required";
     defaultValue := const (VStr "MARKET");
     enumValues := Some ["MARKET"; "LIMIT"; "SL"; "SL-M"];
     minValue := None; validator := None |};
  {| path := "transactionType"; required := always;
     requiredMsg := "Transaction type is required";
     defaultValue := None; enumValues := Some ["BUY"; "SELL"];
     minValue := None; validator := None |};
  {| path := "product"; required := always; requiredMsg := "Product type is required";
     defaultValue := const (VStr "CNC"); enumValues := Some ["CNC"; "MIS"; "NRML"];
     minValue := None; validator := None |};
  {| path := "quantity"; required := always; requiredMsg := "Quantity is required";
     defaultValue := None; enumValues := None; minValue := Some 1%float;
     validator := None |};
  {| path := "price";
     required := Some (λ this, orderTypeIs this ["LIMIT"; "SL"]);
     requiredMsg := "Path `price` is required.";
     defaultValue := None; enumValues := None; minValue := Some 0%float;
     validator := None |};
  {| path := "triggerPrice";
     required := Some (λ this, orderTypeIs this ["SL"; "SL-M"]);
     requiredMsg := "Path `triggerPrice` is required.";
     defaultValue := None; enumValues := None; minValue := Some 0%float;
     validator := None |};
  {| path := "status"; required := None; requiredMsg := "";
     defaultValue := const (VStr "PENDING");
     enumValues := Some ["PENDING"; "EXECUTED"; "CANCELLED"; "REJECTED"];
     minValue := None; validator := None |};
  {| path := "validity"; required := None; requiredMsg := "";
     defaultValue := const (VStr "DAY"); enumValues := Some ["DAY"; "IOC"];
     minValue := None; validator := None |};
  {| path := "exchange"; required := always; requiredMsg := "Exchange is required";
     defaultValue := const (VStr "NSE"); enumValues := Some ["NSE"; "BSE"];
     minValue := None; validator := None |};
  {| path := "averagePrice"; required := None; requiredMsg := "";
     defaultValue := const (VNum 0%float); enumValues := None; minValue := None;
     validator := None |};
  {| path := "filledQuantity"; required := None; requiredMsg := "";
     defaultValue := const (VNum 0%float); enumValues := None; minValue := None;
     validator := None |};
  {| path := "remainingQuantity"; required := None; requiredMsg := "";
     defaultValue := Some (λ this, VNum <$> num this "quantity");
     enumValues := None; minValue := None; validator := None |};
  {| path := "orderValue"; required := None; requiredMsg := "";
     defaultValue := Some (λ this, Some (VNum
       (to_number (num this "price") * to_number (num this "quantity"))%float));
     enumValues := None; minValue := None; validator := None |};
  plain "rejectionReason"; plain "tags"; plain "notes"; plain "parentOrderId";
  plain "createdAt"; plain "updatedAt"
].

(** [OrdersSchema.pre('save')].  The hook calls [next(error)] and falls
    through to the later checks and the final [next()]; the first call
    of [next] is the one that counts. *)
Definition preSave (this : obj) : string + obj :=
  if orderTypeIs this ["LIMIT"; "SL"] && falsy_num (num this "price") then
    inl "Price is required for LIMIT and SL orders"
  else if orderTypeIs this ["SL"; "SL-M"] && falsy_num (num this "triggerPrice") then
    inl "Trigger price is required for SL and SL-M orders"
  else if orderTypeIs this ["SL"]
          && ge (to_number (num this "triggerPrice")) (to_number (num this "price")) then
    inl "For SL orders, trigger price must be less than limit price"
  else inr this.

(** [OrdersSchema.methods.isModifiable]. *)
Definition isModifiable (this : obj) : bool :=
  bool_decide (str this "status" = Some "PENDING").


(** The body of a place or modify request. *)
Record Body := {
  name : option string;
  qty : option float;
  price : option float;
  mode : option string;
  orderType : option string;
  validity : option string;
  triggerPrice : option float;
}.

Definition orderValidation (b : Body) : list string :=
  check (notEmptyTrimmed (name b)) "Stock name is required"
  ++ check (isIntMin 1 (qty b)) "Quantity must be at least 1"
  ++ check (isFloatMin 0.01 (price b)) "Price must be greater than 0"
  ++ check (isIn ["BUY"; "SELL"] (mode b)) "Mode must be either BUY or SELL"
  ++ check (isIn ["MARKET"; "LIMIT"] (orderType b))
           "Order type must be either MARKET or LIMIT"
  ++ check (isIn ["DAY"; "IOC"] (validity b)) "Validity must be either DAY or IOC".

Inductive Response :=
  | ValidationErrors (errors : list string)
  | PriceRequired
  | OrderPlaced (id nm : string) (q p : float) (md ot : string) (status : option string)
  | OrderNotFound
  | InvalidOperation (message : string)
  | OrderCancelled (id : string) (nm : option string) (status : option string)
  | OrderModified (id : string) (nm : option string) (q p : option float)
                  (status : option string)
  | Failed (error : string).

Definition statusCode (r : Response) : Z :=
  match r with
  | ValidationErrors _ | PriceRequired | InvalidOperation _ => 400
  | OrderPlaced _ _ _ _ _ _ _ => 201
  | OrderNotFound => 404
  | OrderCancelled _ _ _ | OrderModified _ _ _ _ _ => 200
  | Failed _ => 500
  end.

(** Setting a property to a value that may be [undefined]. *)
Definition assignNum (k : string) (v : option float) (o : obj) : obj :=
  match v with
  | Some x => <[k := VNum x]> o
  | None => delete k o
  end.

(** The object literal handed to [new OrdersModel] by [POST /new]. *)
Definition newPayload (uid nm : string) (q p : float) (md ot vl : string)
    (tp : option float) (now : Z) : obj :=
  <["userId" := VStr uid]> (<["name" := VStr nm]> (<["qty" := VNum q]>
  (<["price" := VNum p]> (<["mode" := VStr md]> (<["orderType" := VStr ot]>
  (<["validity" := VStr vl]> (assignNum "triggerPrice" tp
  (<["status" := VStr "PENDING"]> (<["orderDate" := VDate now]>
  (<["lastModified" := VDate now]> ∅)))))))))).

(** [POST /new]. *)
Definition placeOrder (st : gmap string obj) (uid : string) (b : Body)
    (newId : string) (now : Z) : Response * gmap string obj :=
  match orderValidation b with
  | (_ :: _) as errors => (ValidationErrors errors, st)
  | [] =>
      let nm := trim (default "" (name b)) in
      let q := to_number (qty b) in
      let p := to_number (price b) in
      let md := show (mode b) in
      let ot := show (orderType b) in
      let vl := show (validity b) in
      if bool_decide (orderType b = Some "LIMIT") && falsy_num (price b) then
        (PriceRequired, st)
      else
        let newOrder :=
          construct OrdersSchema (newPayload uid nm q p md ot vl (triggerPrice b) now) in
        match save OrdersSchema preSave st newId newOrder with
        | inl _ => (Failed "Failed to place order", st)
        | inr st' => (OrderPlaced newId nm q p md ot (str newOrder "status"), st')
        end
  end.

(** [new OrdersModel(o).save()]: creating an order from its fields. *)
Definition createOrder (st : gmap string obj) (newId : string) (o : obj)
    : string + gmap string obj :=
  save OrdersSchema preSave st newId (construct OrdersSchema o).

(** [["PENDING", "OPEN"].includes(order.status)]. *)
Definition openStatus (order : obj) : bool :=
  match str order "status" with
  | Some s => bool_decide (s ∈ ["PENDING"; "OPEN"])
  | None => false
  end.

(** [POST /:orderId/cancel]. *)
Definition cancel (st : gmap string obj) (uid id : string) (now : Z)
    : Response * gmap string obj :=
  match findOne st id uid with
  | None => (OrderNotFound, st)
  | Some order =>
      if negb (openStatus order) then
        (InvalidOperation
           ("Cannot cancel order in " +:+ show (str order "status") +:+ " status"), st)
      else
        let order' :=
          <["lastModified" := VDate now]> (<["status" := VStr "CANCELLED"]> order) in
        match save OrdersSchema preSave st id order' with
        | inl _ => (Failed "Failed to cancel order", st)
        | inr st' => (OrderCancelled id (str order' "name") (str order' "status"), st')
        end
  end.

(** The assignments of [PUT /:orderId] on the order it found. *)
Definition assignModify (order : obj) (b : Body) (now : Z) : obj :=
  <["lastModified" := VDate now]> (
  assignNum "triggerPrice" (triggerPrice b) (
  <["validity" := VStr (show (validity b))]> (
  assignNum "price" (price b) (
  assignNum "qty" (qty b) order)))).

(** [PUT /:orderId]. *)
Definition modify (st : gmap string obj) (uid id : string) (b : Body) (now : Z)
    : Response * gmap string obj :=
  match orderValidation b with
  | (_ :: _) as errors => (ValidationErrors errors, st)
  | [] =>
      match findOne st id uid with
      | None => (OrderNotFound, st)
      | Some order =>
          if negb (openStatus order) then
            (InvalidOperation
               ("Cannot modify order in " +:+ show (str order "status") +:+ " status"), st)
          else
            let order' := assignModify order b now in
            match save OrdersSchema preSave st id order' with
            | inl _ => (Failed "Failed to modify order", st)
            | inr st' =>
                (OrderModified id (str order' "name") (num order' "qty")
                   (num order' "price") (str order' "status"), st')
            end
      end
  end.

(** A request against the orders collection, and a run of requests. *)
Inductive Request :=
  | Cancel (uid id : string) (now : Z)
  | Modify (uid id : string) (b : Body) (now : Z).

Definition step (st : gmap string obj) (r : Request) : gmap string obj :=
  match r with
  | Cancel uid id now => snd (cancel st uid id now)
  | Modify uid id b now => snd (modify st uid id b now)
  end.

Definition run (st : gmap string obj) (rs : list Request) : gmap string obj :=
  fold_left step rs st.

End Orders.

(** ** Watchlists: schema, pre-save hook and routes *)

Module Watchlists.
Import Js Validator.

Record Stock := {
  symbol : string;
  exchange : string;
  stockName : option string;
}.

(** A watchlist document.  [items] is the array the schema declares;
    [stocks] and [lastUpdated] are the properties the routes read and
    assign, which the schema does not declare ([None]: undefined). *)
Record Watchlist := {
  userId : string;
  name : string;
  isDefault : bool;
  items : list Stock;
  stocks : option (list Stock);
  lastUpdated : option Z;
}.

Definition setIsDefault (b : bool) (w : Watchlist) : Watchlist :=
  {| userId := userId w; name := name w; isDefault := b; items := items w;
     stocks := stocks w; lastUpdated := lastUpdated w |}.

Definition setItems (l : list Stock) (w : Watchlist) : Watchlist :=
  {| userId := userId w; name := name w; isDefault := isDefault w; items := l;
     stocks := stocks w; lastUpdated := lastUpdated w |}.

(** [watchlist.stocks = l; watchlist.lastUpdated = new Date()]. *)
Definition assignStocks (l : list Stock) (now : Z) (w : Watchlist) : Watchlist :=
  {| userId := userId w; name := name w; isDefault := isDefault w; items := items w;
     stocks := Some l; lastUpdated := Some now |}.

(** [WatchlistSchema.methods.removeItem], on the [items] array. *)
Definition removeItem (this : Watchlist) (sym : string) (exch : option string)
    : Watchlist :=
  let exch := default "NSE" exch in
  setItems
    (filter (λ item, ¬ (symbol item = sym ∧ exchange item = exch)) (items this))
    this.


(** [updateMany({ userId, _id: { $ne: id } }, { $set: { isDefault: false } })]. *)
Definition clearOtherDefaults (st : gmap string Watchlist) (uid id : string)
    : gmap string Watchlist :=
  map_imap (λ k w,
    Some (if bool_decide (userId w = uid) && negb (bool_decide (k = id))
          then setIsDefault false w else w)) st.

(** [WatchlistSchema.pre('save')]. *)
Definition preSave (st : gmap string Watchlist) (id : string) (this : Watchlist)
    : gmap string Watchlist :=
  if isDefault this then clearOtherDefaults st (userId this) id else st.

(** The validators of the [name] path (required, trimmed, at most 50
    characters). *)
Definition validate (this : Watchlist) : list string :=
  check (negb (bool_decide (trim (name this) = ""))) "Watchlist name is required"
  ++ check (bool_decide (String.length (trim (name this)) ≤ 50)%nat)
           "Watchlist name cannot exceed 50 characters".

(** The unique index on [(userId, name)]. *)
Definition duplicateName (st : gmap string Watchlist) (id : string) (this : Watchlist)
    : bool :=
  existsb (λ kv, negb (bool_decide (kv.1 = id))
                 && bool_decide (userId kv.2 = userId this)
                 && bool_decide (name kv.2 = trim (name this)))
          (map_to_list st).

(** What a save writes: the declared paths of the document in memory. *)
Definition persisted (old : option Watchlist) (this : Watchlist) : Watchlist :=
  {| userId := userId this; name := trim (name this); isDefault := isDefault this;
     items := items this;
     stocks := old ≫= stocks; lastUpdated := old ≫= lastUpdated |}.

(** [watchlist.save()]: validation, the pre-save hook, the write.  The
    hook's [updateMany] has been carried out when the write is refused. *)
Definition save (st : gmap string Watchlist) (id : string) (this : Watchlist)
    : option string * gmap string Watchlist :=
  match validate this with
  | e :: _ => (Some e, st)
  | [] =>
      let st1 := preSave st id this in
      if duplicateName st1 id this then (Some "E11000 duplicate key", st1)
      else (None, <[id := persisted (st1 !! id) this]> st1)
  end.

Definition saves (st : gmap string Watchlist) (l : list (string * Watchlist))
    : gmap string Watchlist :=
  fold_left (λ st iw, snd (save st iw.1 iw.2)) l st.

Inductive Response :=
  | ValidationErrors (errors : list string)
  | MissingParameter
  | WatchlistNotFound
  | StockNotFound
  | StockExists
  | InvalidStocks
  | InvalidStock (message : string)
  | DefaultExists
  | StockAdded (id nm : string) (stocks : list Stock)
  | StockRemoved (id nm : string) (stocks : list Stock)
  | Reordered (id nm : string) (stocks : list Stock)
  | Initialized (id nm : string) (items : list Stock)
  | Failed (error : string).

Definition statusCode (r : Response) : Z :=
  match r with
  | ValidationErrors _ | MissingParameter | StockExists | InvalidStocks
  | InvalidStock _ | DefaultExists => 400
  | WatchlistNotFound | StockNotFound => 404
  | StockAdded _ _ _ | Initialized _ _ _ => 201
  | StockRemoved _ _ _ | Reordered _ _ _ => 200
  | Failed _ => 500
  end.

(** [findOne({ _id, userId })]. *)
Definition findOne (st : gmap string Watchlist) (id uid : string) : option Watchlist :=
  match st !! id with
  | Some w => if bool_decide (userId w = uid) then Some w else None
  | None => None
  end.

(** [findOne({ userId, name })]. *)
Definition findByName (st : gmap string Watchlist) (uid nm : string)
    : option (string * Watchlist) :=
  snd <$> list_find (λ kv, userId kv.2 = uid ∧ name kv.2 = nm) (map_to_list st).

(** [findOne({ userId, isDefault: true })], as a truth value. *)
Definition hasDefault (st : gmap string Watchlist) (uid : string) : bool :=
  existsb (λ kv, bool_decide (userId kv.2 = uid) && isDefault kv.2) (map_to_list st).

(** The key [`${s.symbol}:${s.exchange}`] of a stock. *)
Definition key (s : Stock) : string := symbol s +:+ ":" +:+ exchange s.

(** [POST /:watchlistId/add]. *)
Definition addStock (st : gmap string Watchlist) (uid id : string)
    (nm sym exch : option string) (now : Z) : Response * gmap string Watchlist :=
  match (check (notEmptyTrimmed nm) "Stock name is required"
         ++ check (notEmptyTrimmed sym) "Stock symbol is required"
         ++ check (isIn ["NSE"; "BSE"] exch) "Exchange must be either NSE or BSE")%list with
  | (_ :: _) as errors => (ValidationErrors errors, st)
  | [] =>
      let stock := {| symbol := trim (show sym); exchange := show exch;
                      stockName := Some (trim (show nm)) |} in
      match findOne st id uid with
      | None => (WatchlistNotFound, st)
      | Some watchlist =>
          match stocks watchlist with
          | None => (Failed "Failed to add stock", st)
          | Some cur =>
              if existsb (λ s, bool_decide (symbol s = symbol stock
                                            ∧ exchange s = exchange stock)) cur
              then (StockExists, st)
              else
                let watchlist' := assignStocks (cur ++ [stock]) now watchlist in
                match save st id watchlist' with
                | (Some _, st1) => (Failed "Failed to add stock", st1)
                | (None, st') =>
                    (StockAdded id (name watchlist') (cur ++ [stock]), st')
                end
          end
      end
  end.

(** [DELETE /:watchlistId/remove/:symbol]. *)
Definition removeStock (st : gmap string Watchlist) (uid id sym : string) (now : Z)
    : Response * gmap string Watchlist :=
  match findOne st id uid with
  | None => (WatchlistNotFound, st)
  | Some watchlist =>
      match stocks watchlist with
      | None => (Failed "Failed to remove stock", st)
      | Some cur =>
          match list_find (λ s, symbol s = sym) cur with
          | None => (StockNotFound, st)
          | Some (stockIndex, _) =>
              let watchlist' := assignStocks (delete stockIndex cur) now watchlist in
              match save st id watchlist' with
              | (Some _, st1) => (Failed "Failed to remove stock", st1)
              | (None, st') =>
                  (StockRemoved id (name watchlist') (delete stockIndex cur), st')
              end
          end
      end
  end.

(** [DELETE /default/stocks/:symbol?exchange=]. *)
Definition removeDefaultStock (st : gmap string Watchlist) (uid sym : string)
    (exch : option string) (now : Z) : Response * gmap string Watchlist :=
  if falsy_str exch then (MissingParameter, st)
  else
    match findByName st uid "Default" with
    | None => (WatchlistNotFound, st)
    | Some (id, watchlist) =>
        match stocks watchlist with
        | None => (Failed "Failed to remove stock", st)
        | Some cur =>
            let initialLength := length cur in
            let kept :=
              filter (λ s, ¬ (symbol s = sym ∧ exchange s = show exch)) cur in
            if bool_decide (length kept = initialLength) then (StockNotFound, st)
            else
              let watchlist' := assignStocks kept now watchlist in
              match save st id watchlist' with
              | (Some _, st1) => (Failed "Failed to remove stock", st1)
              | (None, st') => (StockRemoved id (name watchlist') kept, st')
              end
        end
    end.

(** [PUT /:watchlistId/reorder]; [newOrder] is [None] when the body
    carries no array. *)
Definition reorder (st : gmap string Watchlist) (uid id : string)
    (newOrder : option (list Stock)) (now : Z) : Response * gmap string Watchlist :=
  match newOrder with
  | None => (ValidationErrors ["Stocks must be an array"], st)
  | Some new =>
      match findOne st id uid with
      | None => (WatchlistNotFound, st)
      | Some watchlist =>
          match stocks watchlist with
          | None => (Failed "Failed to reorder watchlist", st)
          | Some cur =>
              let currentStocks : gset string := list_to_set (key <$> cur) in
              let newStocks : gset string := list_to_set (key <$> new) in
              if negb (bool_decide (size currentStocks = size newStocks)) then
                (InvalidStocks, st)
              else
                match list_find (λ stock, key stock ∉ currentStocks) new with
                | Some (_, stock) =>
                    (InvalidStock ("Stock " +:+ key stock +:+ " is not in the watchlist"), st)
                | None =>
                    let watchlist' := assignStocks new now watchlist in
                    match save st id watchlist' with
                    | (Some _, st1) => (Failed "Failed to reorder watchlist", st1)
                    | (None, st') => (Reordered id (name watchlist') new, st')
                    end
                end
          end
      end
  end.

(** The five stocks of a freshly initialised default watchlist. *)
Definition defaultStocks : list Stock := [
  {| symbol := "INFY"; exchange := "NSE"; stockName := None |};
  {| symbol := "TCS"; exchange := "NSE"; stockName := None |};
  {| symbol := "WIPRO"; exchange := "NSE"; stockName := None |};
  {| symbol := "RELIANCE"; exchange := "NSE"; stockName := None |};
  {| symbol := "HDFCBANK"; exchange := "NSE"; stockName := None |}
].

(** [POST /initialize]. *)
Definition initialize (st : gmap string Watchlist) (uid newId : string)
    : Response * gmap string Watchlist :=
  if hasDefault st uid then (DefaultExists, st)
  else
    let defaultWatchlist :=
      {| userId := uid; name := "Default Watchlist"; isDefault := true;
         items := defaultStocks; stocks := None; lastUpdated := None |} in
    match save st newId defaultWatchlist with
    | (Some _, st1) => (Failed "Failed to initialize watchlist", st1)
    | (None, st') => (Initialized newId (name defaultWatchlist) defaultStocks, st')
    end.

End Watchlists.

(** * The vocabulary of the statements, and sample data *)

Module Loop.



End Loop.

Module HoldingsTerms.
Import Js Validator Mongoose Holdings.

(** What the loop of the bulk update does with one update, taken alone. *)
Definition visit (st : gmap string obj) (uid : string) (now : Z) (upd : Update)
    : string + UpdateOne :=
  if falsy_str (holdingId upd) || falsy_num (newPrice upd) then
    inl ("Invalid update data for holding: " +:+ show (holdingId upd))
  else
    match findOne st (show (holdingId upd)) uid with
    | None => inl ("Holding not found: " +:+ show (holdingId upd))
    | Some holding =>
        let p := to_number (newPrice upd) in
        let a := to_number (num holding "avg") in
        let q := to_number (num holding "qty") in
        inr {| filterId := show (holdingId upd); filterUserId := uid; setPrice := p;
               setNet := ((p - a) * q)%float;
               setDay := (((p - a) / a) * 100)%float;
               setLastUpdated := now |}
    end.

(** An update fails when its id or price is missing (falsy), or when no
    holding with that id belongs to the caller. *)
Definition failing (st : gmap string obj) (uid : string) (upd : Update) : bool :=
  falsy_str (holdingId upd) || falsy_num (newPrice upd)
  || bool_decide (findOne st (show (holdingId upd)) uid = None).

(** A valid update is applied by an [updateOne] that targets its holding
    with its price and the metrics recomputed from it. *)
Definition applied (st : gmap string obj) (uid : string) (u : Update)
    (op : UpdateOne) : Prop :=
  ∃ holding,
    findOne st (show (holdingId u)) uid = Some holding
    ∧ filterId op = show (holdingId u) ∧ filterUserId op = uid
    ∧ setPrice op = to_number (newPrice u)
    ∧ setNet op = ((setPrice op - to_number (num holding "avg"))
                   * to_number (num holding "qty"))%float
    ∧ setDay op = (((setPrice op - to_number (num holding "avg"))
                    / to_number (num holding "avg")) * 100)%float.

(** A failing update is reported by an entry that names its id. *)
Definition reported (u : Update) (e : string) : Prop :=
  e = "Invalid update data for holding: " +:+ show (holdingId u)
  ∨ e = "Holding not found: " +:+ show (holdingId u).

(** The holding of the worked example: 10 shares bought at 100, last
    priced at 120. *)
Definition infy : obj :=
  <["userId" := VStr "u1"]> (<["symbol" := VStr "INFY"]> (<["exchange" := VStr "NSE"]>
  (<["quantity" := VNum 10]> (<["averageBuyPrice" := VNum 100]>
  (<["currentMarketPrice" := VNum 120]> (<["name" := VStr "INFY"]>
  (<["qty" := VNum 10]> (<["avg" := VNum 100]> (<["price" := VNum 120]>
  (<["net" := VNum 200]> (<["day" := VNum 20]> ∅))))))))))).

(** A request for that holding at a given price. *)
Definition priced (p : float) : Body :=
  {| name := Some "INFY"; qty := Some 10%float; avg := Some 100%float;
     price := Some p |}.

End HoldingsTerms.

Module PositionsTerms.
Import Js Validator Mongoose Positions.

(** What the loop of the bulk update does with one update, taken alone. *)
Definition visit (st : gmap string obj) (uid : string) (now : Z) (upd : Update)
    : string + UpdateOne :=
  if falsy_str (positionId upd) || falsy_num (newPrice upd) then
    inl ("Invalid update data for position: " +:+ show (positionId upd))
  else
    match findOne st (show (positionId upd)) uid with
    | None => inl ("Position not found: " +:+ show (positionId upd))
    | Some position =>
        let p := to_number (newPrice upd) in
        let a := to_number (num position "avg") in
        let q := to_number (num position "qty") in
        inr {| filterId := show (positionId upd); filterUserId := uid; setPrice := p;
               setNet := ((p - a) * q)%float;
               setDay := (((p - a) / a) * 100)%float;
               setIsLoss := lt ((p - a) * q)%float 0;
               setLastUpdated := now |}
    end.

(** An update fails when its id or price is missing (falsy), or when no
    position with that id belongs to the caller. *)
Definition failing (st : gmap string obj) (uid : string) (upd : Update) : bool :=
  falsy_str (positionId upd) || falsy_num (newPrice upd)
  || bool_decide (findOne st (show (positionId upd)) uid = None).

(** A valid update is applied by an [updateOne] that targets its
    position with its price and the metrics recomputed from it. *)
Definition applied (st : gmap string obj) (uid : string) (u : Update)
    (op : UpdateOne) : Prop :=
  ∃ position,
    findOne st (show (positionId u)) uid = Some position
    ∧ filterId op = show (positionId u) ∧ filterUserId op = uid
    ∧ setPrice op = to_number (newPrice u)
    ∧ setNet op = ((setPrice op - to_number (num position "avg"))
                   * to_number (num position "qty"))%float
    ∧ setDay op = (((setPrice op - to_number (num position "avg"))
                    / to_number (num position "avg")) * 100)%float
    ∧ setIsLoss op = lt (setNet op) 0.

(** A failing update is reported by an entry that names its id. *)
Definition reported (u : Update) (e : string) : Prop :=
  e = "Invalid update data for position: " +:+ show (positionId u)
  ∨ e = "Position not found: " +:+ show (positionId u).

End PositionsTerms.

Module PortfolioTerms.
Import Js Mongoose.

(** A position as the routes read it. *)
Definition position (uid : string) (q a p : float) : obj :=
  <["userId" := VStr uid]> (<["qty" := VNum q]> (<["avg" := VNum a]>
  (<["price" := VNum p]> (<["net" := VNum ((p - a) * q)%float]> ∅)))).

(** Two positions of one user, one of another. *)
Definition threePositions : gmap string obj :=
  <["p1" := position "u1" 10 100 120]> (<["p2" := position "u1" (-5) 10 12]>
  (<["p3" := position "u2" 1 50 50]> ∅)).


End PortfolioTerms.

Module OrdersTerms.
Import Js Validator Mongoose Orders.

(** The document [cancel] saves. *)
Definition cancelled (order : obj) (now : Z) : obj :=
  <["lastModified" := VDate now]> (<["status" := VStr "CANCELLED"]> order).

(** A LIMIT buy that was executed. *)
Definition executedOrder : obj :=
  <["userId" := VStr "u1"]> (<["symbol" := VStr "INFY"]>
  (<["orderType" := VStr "LIMIT"]> (<["transactionType" := VStr "BUY"]>
  (<["product" := VStr "CNC"]> (<["quantity" := VNum 10]> (<["price" := VNum 100]>
  (<["status" := VStr "EXECUTED"]> (<["validity" := VStr "DAY"]>
  (<["exchange" := VStr "NSE"]> ∅))))))))).

(** The pending MARKET sell. *)
Definition pendingOrder : obj :=
  <["userId" := VStr "u1"]> (<["symbol" := VStr "TCS"]>
  (<["orderType" := VStr "MARKET"]> (<["transactionType" := VStr "SELL"]>
  (<["product" := VStr "CNC"]> (<["quantity" := VNum 5]> (<["price" := VNum 3200]>
  (<["status" := VStr "PENDING"]> (<["validity" := VStr "DAY"]>
  (<["exchange" := VStr "NSE"]> ∅))))))))).

(** The two orders, of one caller. *)
Definition twoOrders : gmap string obj :=
  <["o1" := executedOrder]> (<["o2" := pendingOrder]> ∅).

(** A well-formed LIMIT request at a given price. *)
Definition limitAt (p : float) : Body :=
  {| name := Some "INFY"; qty := Some 10%float; price := Some p;
     mode := Some "BUY"; orderType := Some "LIMIT"; validity := Some "DAY";
     triggerPrice := None |}.

(** A request field that is not given. *)
Definition absent {A} (v : option A) : bool :=
  match v with None => true | Some _ => false end.

(** The three cases in which the specification has creation fail:
    LIMIT or SL without a price, SL or SL-M without a trigger price, SL
    with a trigger price that is not below the price. *)
Definition claimedInvalid (b : Body) : bool :=
  (isIn ["LIMIT"; "SL"] (orderType b) && absent (price b))
  || (isIn ["SL"; "SL-M"] (orderType b) && absent (triggerPrice b))
  || (isIn ["SL"] (orderType b)
      && ge (to_number (triggerPrice b)) (to_number (price b))).

(** A MARKET request that gives no price. *)
Definition marketNoPrice : Body :=
  {| name := Some "INFY"; qty := Some 10%float; price := None;
     mode := Some "BUY"; orderType := Some "MARKET"; validity := Some "DAY";
     triggerPrice := None |}.

(** An SL request with its trigger price below its price. *)
Definition stopLoss : Body :=
  {| name := Some "INFY"; qty := Some 10%float; price := Some 100%float;
     mode := Some "SELL"; orderType := Some "SL"; validity := Some "DAY";
     triggerPrice := Some 90%float |}.

(** The fields of an order under the names [OrdersSchema] declares, as
    handed to [new OrdersModel]. *)
Definition orderFields (uid sym tt ot : string) (q : float) (p tp : option float)
    : obj :=
  assignNum "price" p (assignNum "triggerPrice" tp
  (<["userId" := VStr uid]> (<["symbol" := VStr sym]>
  (<["transactionType" := VStr tt]> (<["orderType" := VStr ot]>
  (<["quantity" := VNum q]> ∅)))))).


End OrdersTerms.

Module WatchlistsTerms.
Import Js Validator Watchlists.

(** At most one watchlist of a user is the default one. *)
Definition singleDefault (st : gmap string Watchlist) : Prop :=
  ∀ i j wi wj,
    st !! i = Some wi → st !! j = Some wj →
    userId wi = userId wj → isDefault wi = true → isDefault wj = true →
    i = j.

(** An empty watchlist of a user, default or not. *)
Definition named (uid nm : string) (dflt : bool) : Watchlist :=
  {| userId := uid; name := nm; isDefault := dflt; items := []; stocks := None;
     lastUpdated := None |}.

(** Three stocks on NSE, and INFY on BSE. *)
Definition infy : Stock := {| symbol := "INFY"; exchange := "NSE"; stockName := None |}.
Definition tcs : Stock := {| symbol := "TCS"; exchange := "NSE"; stockName := None |}.
Definition wipro : Stock := {| symbol := "WIPRO"; exchange := "NSE"; stockName := None |}.

(** A watchlist whose [stocks] property holds the given list. *)
Definition holding (l : list Stock) : Watchlist :=
  {| userId := "u1"; name := "Tech"; isDefault := false; items := [];
     stocks := Some l; lastUpdated := None |}.

(** The collection that holds this one watchlist. *)
Definition listed (l : list Stock) : gmap string Watchlist := {["w1" := holding l]}.

End WatchlistsTerms.


(** * Further routes, hooks and schema methods *)

(** ** Strings and arrays of the JavaScript library *)

Module JsString.
Import Js.

(** A Boolean property read as a condition. *)
Definition flag (this : obj) (k : string) : bool :=
  match this !! k with Some (VBool b) => b | _ => false end.

(** [toUpperCase] and [toLowerCase], on the letters of ASCII. *)
Definition upperChar (c : ascii) : ascii :=
  let n := nat_of_ascii c in
  if (97 <=? n)%nat && (n <=? 122)%nat then ascii_of_nat (n - 32) else c.

Definition lowerChar (c : ascii) : ascii :=
  let n := nat_of_ascii c in
  if (65 <=? n)%nat && (n <=? 90)%nat then ascii_of_nat (n + 32) else c.

Fixpoint toUpperCase (s : string) : string :=
  match s with
  | String c s' => String (upperChar c) (toUpperCase s')
  | EmptyString => EmptyString
  end.

Fixpoint toLowerCase (s : string) : string :=
  match s with
  | String c s' => String (lowerChar c) (toLowerCase s')
  | EmptyString => EmptyString
  end.

(** [s.split(sep)] for a separator of one character. *)
Fixpoint split (sep : ascii) (s : string) : list string :=
  match s with
  | EmptyString => [EmptyString]
  | String c s' =>
      if Ascii.eqb c sep then EmptyString :: split sep s'
      else
        match split sep s' with
        | w :: ws => String c w :: ws
        | [] => [String c EmptyString]
        end
  end.

(** The characters of a string. *)
Definition chars (s : string) : list ascii := list_ascii_of_string s.

End JsString.

(** ** The authentication middleware *)

Module Auth.
Import Js JsString.

(** What [jwt.verify] hands to its callback: an error, by name, or the
    decoded payload. *)
Inductive Verified :=
  | VerifyError (name : string)
  | Decoded (user : obj).

(** What the middleware does: answer itself, or set [req.user] and call
    [next()]. *)
Inductive Outcome :=
  | AuthenticationRequired
  | TokenExpired
  | InvalidToken
  | Next (user : obj).

Definition statusCode (o : Outcome) : option Z :=
  match o with
  | AuthenticationRequired | TokenExpired => Some 401%Z
  | InvalidToken => Some 403%Z
  | Next _ => None
  end.

(** [authHeader && authHeader.split(' ')[1]]. *)
Definition tokenOf (authHeader : option string) : option string :=
  match authHeader with
  | None => None
  | Some h => if bool_decide (h = "") then Some "" else split " " h !! 1%nat
  end.

(** [authenticateToken]; [verify] stands for [jwt.verify] with the
    server's secret. *)
Definition authenticateToken (verify : string → Verified)
    (authHeader : option string) : Outcome :=
  let token := tokenOf authHeader in
  if falsy_str token then AuthenticationRequired
  else
    match verify (show token) with
    | VerifyError name =>
        if bool_decide (name = "TokenExpiredError") then TokenExpired
        else InvalidToken
    | Decoded user => Next user
    end.

(** The payload [POST /users/login] and [POST /users/refresh-token]
    sign into the access token. *)
Definition accessPayload (user : obj) : obj :=
  match user !! "_id", user !! "email", user !! "role" with
  | id, email, role =>
      let set k (v : option val) (o : obj) :=
        match v with Some x => <[k := x]> o | None => o end in
      set "userId" id (set "email" email (set "role" role ∅))
  end.

(** What [jwt.verify] decodes from a token that [jwt.sign] issued with
    [expiresIn]: the payload with the issue and expiry times. *)
Definition issued (payload : obj) (iat exp : float) : obj :=
  <["iat" := VNum iat]> (<["exp" := VNum exp]> payload).

(** [req.user.id], as the handlers of the routers read it. *)
Definition callerId (user : obj) : option val := user !! "id".

End Auth.

(** ** The Express router: which handler answers a request *)

Module Express.
Import JsString.

Inductive Method := GET | POST | PUT | DELETE.

Definition sameMethod (a b : Method) : bool :=
  match a, b with
  | GET, GET | POST, POST | PUT, PUT | DELETE, DELETE => true
  | _, _ => false
  end.

(** A path pattern, segment by segment: a literal or a [:parameter]. *)
Inductive Segment :=
  | Lit (s : string)
  | Param (name : string).

(** A literal matches without regard to case; a parameter matches any
    segment that is not empty. *)
Definition segmentMatches (p : Segment) (s : string) : bool :=
  match p with
  | Lit l => bool_decide (toLowerCase l = toLowerCase s)
  | Param _ => negb (bool_decide (s = ""))
  end.

(** A request path is the list of its segments (the text between the
    slashes, a closing slash left out). *)
Fixpoint matches (pattern : list Segment) (path : list string) : bool :=
  match pattern, path with
  | [], [] => true
  | p :: pattern', s :: path' => segmentMatches p s && matches pattern' path'
  | _, _ => false
  end.

(** The routes of a router are tried in the order of their registration;
    the first whose method and pattern match is the one whose handler
    is run (no handler of this backend passes the request on, so no
    later route is tried). *)
Definition dispatch {H} (routes : list (Method * list Segment * H))
    (m : Method) (path : list string) : option H :=
  snd <$> find (λ r, sameMethod r.1.1 m && matches r.1.2 path) routes.

End Express.

(** ** Positions: schema, hook, methods *)

Module PositionsDoc.
Import Js Validator Mongoose.

Definition number (k : string) (dflt : option float) (lo : option float)
    (chk : option (float → bool)) : Path :=
  {| path := k; required := None; requiredMsg := "";
     defaultValue := match dflt with Some x => const (VNum x) | None => None end;
     enumValues := None; minValue := lo; validator := chk |}.

(** [PositionsSchema], path by path. *)
Definition PositionsSchema (now : Z) : Schema := [
  {| path := "userId"; required := always; requiredMsg := "User ID is required";
     defaultValue := None; enumValues := None; minValue := None; validator := None |};
  {| path := "symbol"; required := always; requiredMsg := "Stock symbol is required";
     defaultValue := None; enumValues := None; minValue := None; validator := None |};
  {| path := "exchange"; required := always; requiredMsg := "Exchange is required";
     defaultValue := const (VStr "NSE"); enumValues := Some ["NSE"; "BSE"];
     minValue := None; validator := None |};
  {| path := "product"; required := always; requiredMsg := "Product type is required";
     defaultValue := None; enumValues := Some ["MIS"; "NRML"; "CNC"];
     minValue := None; validator := None |};
  {| path := "quantity"; required := always; requiredMsg := "Quantity is required";
     defaultValue := None; enumValues := None; minValue := None;
     validator := Some isInteger |};
  {| path := "averagePrice"; required := always;
     requiredMsg := "Average price is required";
     defaultValue := None; enumValues := None; minValue := Some 0%float;
     validator := None |};
  {| path := "lastTradedPrice"; required := always;
     requiredMsg := "Last traded price is required";
     defaultValue := None; enumValues := None; minValue := Some 0%float;
     validator := None |};
  number "buyQuantity" (Some 0%float) None (Some isInteger);
  number "buyValue" (Some 0%float) (Some 0%float) None;
  number "buyAveragePrice" (Some 0%float) (Some 0%float) None;
  number "sellQuantity" (Some 0%float) None (Some isInteger);
  number "sellValue" (Some 0%float) (Some 0%float) None;
  number "sellAveragePrice" (Some 0%float) (Some 0%float) None;
  number "multiplier" (Some 1%float) (Some 1%float) None;
  number "profitLoss" (Some 0%float) None None;
  number "realizedProfitLoss" (Some 0%float) None None;
  number "unrealizedProfitLoss" (Some 0%float) None None;
  number "dayChange.value" (Some 0%float) None None;
  number "dayChange.percentage" (Some 0%float) None None;
  {| path := "overnight"; required := None; requiredMsg := "";
     defaultValue := const (VBool false); enumValues := None; minValue := None;
     validator := None |};
  number "closePrice" None (Some 0%float) None;
  number "openPrice" None (Some 0%float) None;
  number "highPrice" None (Some 0%float) None;
  number "lowPrice" None (Some 0%float) None;
  {| path := "lastUpdateTime"; required := None; requiredMsg := "";
     defaultValue := const (VDate now); enumValues := None; minValue := None;
     validator := None |};
  plain "createdAt"; plain "updatedAt"
].

(** The virtual [netQuantity]. *)
Definition netQuantity (this : obj) : float :=
  (to_number (num this "buyQuantity") - to_number (num this "sellQuantity"))%float.

(** The virtual [averageBuySellPrice]. *)
Definition averageBuySellPrice (this : obj) : float :=
  if (netQuantity this =? 0)%float then 0%float
  else if (0 <? netQuantity this)%float then to_number (num this "buyAveragePrice")
  else to_number (num this "sellAveragePrice").

(** [PositionsSchema.methods.calculateUnrealizedProfitLoss]. *)
Definition calculateUnrealizedProfitLoss (this : obj) : float :=
  let netQty := netQuantity this in
  if (netQty =? 0)%float then 0%float
  else
    let avgPrice := averageBuySellPrice this in
    (netQty * (to_number (num this "lastTradedPrice") - avgPrice)
     * to_number (num this "multiplier"))%float.

(** [PositionsSchema.methods.calculateProfitLoss]. *)
Definition calculateProfitLoss (this : obj) : float :=
  (to_number (num this "realizedProfitLoss") + calculateUnrealizedProfitLoss this)%float.

(** [PositionsSchema.pre('save')]. *)
Definition preSave (now : Z) (this : obj) : string + obj :=
  let this1 := <["profitLoss" := VNum (calculateProfitLoss this)]> this in
  let this2 :=
    <["unrealizedProfitLoss" := VNum (calculateUnrealizedProfitLoss this1)]> this1 in
  inr (<["lastUpdateTime" := VDate now]> this2).

(** [PositionsSchema.methods.updateMarketPrice]. *)
Definition updateMarketPrice (this : obj) (newPrice : float) : obj :=
  let this1 := <["lastTradedPrice" := VNum newPrice]> this in
  let this2 := <["profitLoss" := VNum (calculateProfitLoss this1)]> this1 in
  <["unrealizedProfitLoss" := VNum (calculateUnrealizedProfitLoss this2)]> this2.

(** The fields of a position under the names the schema requires, as
    handed to [new PositionsModel]. *)
Definition positionFields (uid sym prod : string) (q a ltp : float) : obj :=
  <["userId" := VStr uid]> (<["symbol" := VStr sym]> (<["product" := VStr prod]>
  (<["quantity" := VNum q]> (<["averagePrice" := VNum a]>
  (<["lastTradedPrice" := VNum ltp]> ∅))))).

End PositionsDoc.

(** ** Positions: the routes on one position *)

Module PositionsRoutes.
Import Js JsString Validator Mongoose PositionsDoc.

(** The body of an add or update request. *)
Record Body := {
  product : option string;
  name : option string;
  qty : option float;
  avg : option float;
  price : option float;
}.

Definition positionValidation (b : Body) : list string :=
  check (isIn ["CNC"; "MIS"; "NRML"] (product b)) "Invalid product type"
  ++ check (notEmptyTrimmed (name b)) "Stock name is required"
  ++ check (isInt (qty b)) "Quantity must be an integer"
  ++ check (isFloatMin 0.01 (avg b)) "Average price must be greater than 0"
  ++ check (isFloatMin 0.01 (price b)) "Current price must be greater than 0".

Inductive Response :=
  | ValidationErrors (errors : list string)
  | PositionExists
  | PositionAdded (id prod nm : string) (q a p net day : float) (isLoss : bool)
  | PositionNotFound
  | PositionUpdated (id : string) (prod nm : option string)
                    (q a p net day : float) (isLoss : bool)
  | PositionDeleted (id : string) (nm prod : option string)
  | SquaredOff (id : string) (nm prod : option string) (finalPnL pnlPercentage : float)
  | Failed (error : string).

Definition statusCode (r : Response) : Z :=
  match r with
  | ValidationErrors _ | PositionExists => 400
  | PositionAdded _ _ _ _ _ _ _ _ _ => 201
  | PositionNotFound => 404
  | PositionUpdated _ _ _ _ _ _ _ _ _ | PositionDeleted _ _ _
  | SquaredOff _ _ _ _ _ => 200
  | Failed _ => 500
  end.

(** [PositionsModel.findOne({ userId, name, product })], as a truth value. *)
Definition existsByName (st : gmap string obj) (uid nm prod : string) : bool :=
  existsb (λ kv, bool_decide (str kv.2 "userId" = Some uid)
                 && bool_decide (str kv.2 "name" = Some nm)
                 && bool_decide (str kv.2 "product" = Some prod))
          (map_to_list st).

(** The object literal handed to [new PositionsModel] by [POST /add]. *)
Definition addPayload (uid prod nm : string) (q a p : float) (now : Z) : obj :=
  let net := ((p - a) * q)%float in
  let day := (((p - a) / a) * 100)%float in
  <["userId" := VStr uid]> (<["product" := VStr (toUpperCase prod)]>
  (<["name" := VStr nm]> (<["qty" := VNum q]> (<["avg" := VNum a]>
  (<["price" := VNum p]> (<["net" := VNum net]> (<["day" := VNum day]>
  (<["isLoss" := VBool (lt net 0)]> (<["lastUpdated" := VDate now]> ∅))))))))).

(** [POST /add]. *)
Definition add (st : gmap string obj) (uid : string) (b : Body)
    (newId : string) (now : Z) : Response * gmap string obj :=
  match positionValidation b with
  | (_ :: _) as errors => (ValidationErrors errors, st)
  | [] =>
      let prod := show (product b) in
      let nm := trim (default "" (name b)) in
      let q := to_number (qty b) in
      let a := to_number (avg b) in
      let p := to_number (price b) in
      let net := ((p - a) * q)%float in
      let day := (((p - a) / a) * 100)%float in
      let isLoss := lt net 0 in
      if existsByName st uid nm prod then (PositionExists, st)
      else
        let newPosition :=
          construct (PositionsSchema now) (addPayload uid prod nm q a p now) in
        match save (PositionsSchema now) (preSave now) st newId newPosition with
        | inl _ => (Failed "Failed to add position", st)
        | inr st' =>
            (PositionAdded newId (show (str newPosition "product")) nm q a p net day
               isLoss, st')
        end
  end.

(** The assignments of [PUT /:positionId] on the document it found. *)
Definition assignUpdate (position : obj) (q a p : float) (now : Z) : obj :=
  let net := ((p - a) * q)%float in
  <["lastUpdated" := VDate now]> (
  <["isLoss" := VBool (lt net 0)]> (
  <["day" := VNum (((p - a) / a) * 100)%float]> (
  <["net" := VNum net]> (
  <["price" := VNum p]> (<["avg" := VNum a]> (<["qty" := VNum q]> position)))))).

(** [PUT /:positionId]. *)
Definition update (st : gmap string obj) (uid id : string) (b : Body) (now : Z)
    : Response * gmap string obj :=
  match positionValidation b with
  | (_ :: _) as errors => (ValidationErrors errors, st)
  | [] =>
      match findOne st id uid with
      | None => (PositionNotFound, st)
      | Some position =>
          let position' :=
            assignUpdate position (to_number (qty b)) (to_number (avg b))
                         (to_number (price b)) now in
          match save (PositionsSchema now) (preSave now) st id position' with
          | inl _ => (Failed "Failed to update position", st)
          | inr st' =>
              (PositionUpdated id (str position' "product") (str position' "name")
                 (to_number (num position' "qty")) (to_number (num position' "avg"))
                 (to_number (num position' "price")) (to_number (num position' "net"))
                 (to_number (num position' "day"))
                 (flag position' "isLoss"), st')
          end
      end
  end.

(** [DELETE /:positionId]. *)
Definition remove (st : gmap string obj) (uid id : string)
    : Response * gmap string obj :=
  match findOne st id uid with
  | None => (PositionNotFound, st)
  | Some position =>
      (PositionDeleted id (str position "name") (str position "product"),
       delete id st)
  end.

(** [POST /:positionId/square-off].  The figures are read before the
    position is deleted and rendered ([toFixed]) after it: rendering a
    figure that is not a number throws, and the handler's [catch]
    answers 500. *)
Definition squareOff (st : gmap string obj) (uid id : string)
    : Response * gmap string obj :=
  match findOne st id uid with
  | None => (PositionNotFound, st)
  | Some position =>
      let finalPnL := num position "net" in
      let pnlPercentage := num position "day" in
      let st' := delete id st in
      match finalPnL, pnlPercentage with
      | Some f, Some p =>
          (SquaredOff id (str position "name") (str position "product") f p, st')
      | _, _ => (Failed "Failed to square off position", st')
      end
  end.

(** The accumulator of the [reduce] of [GET /product/:type]. *)
Record Acc := {
  accInvestment : float;
  accValue : float;
  accDayPnL : float;
}.

(** The metrics of [GET /product/:type], over the positions the query
    returned. *)
Definition productMetrics (positions : list obj) : Positions.Metrics :=
  let metrics :=
    fold_left (λ acc pos,
      {| accInvestment :=
           (accInvestment acc
            + to_number (num pos "avg") * abs (to_number (num pos "qty")))%float;
         accValue :=
           (accValue acc
            + to_number (num pos "price") * abs (to_number (num pos "qty")))%float;
         accDayPnL := (accDayPnL acc + to_number (num pos "net"))%float |})
      positions
      {| accInvestment := 0; accValue := 0; accDayPnL := 0 |} in
  let totalPnL := (accValue metrics - accInvestment metrics)%float in
  {| Positions.totalInvestment := accInvestment metrics;
     Positions.currentValue := accValue metrics;
     Positions.dayPnL := accDayPnL metrics;
     Positions.totalPnL := totalPnL;
     Positions.totalPnLPercentage :=
       ((totalPnL / accInvestment metrics) * 100)%float |}.

End PositionsRoutes.

(** ** Holdings: schema methods and the routes on one holding *)

Module HoldingsDoc.
Import Js Validator Mongoose Holdings.

(** The virtual [availableQuantity]. *)
Definition availableQuantity (this : obj) : float :=
  (to_number (num this "quantity") - to_number (num this "pledgedQuantity")
   - to_number (num this "collateralQuantity"))%float.

(** The virtual [totalValue]. *)
Definition totalValue (this : obj) : float :=
  (to_number (num this "currentValue")
   + to_number (num this "t1Quantity") * to_number (num this "currentMarketPrice"))%float.

(** [HoldingsSchema.methods.canSell]. *)
Definition canSell (this : obj) (quantity : float) : bool :=
  ge (availableQuantity this) quantity.

(** [HoldingsSchema.methods.updateMarketPrice]. *)
Definition updateMarketPrice (this : obj) (newPrice : float) : obj :=
  let this1 := <["currentMarketPrice" := VNum newPrice]> this in
  let this2 :=
    <["currentValue" := VNum (to_number (num this1 "quantity") * newPrice)%float]>
      this1 in
  let this3 :=
    <["profitLoss" := VNum (to_number (num this2 "currentValue")
                            - to_number (num this2 "investedAmount"))%float]> this2 in
  <["profitLossPercentage" :=
      VNum ((to_number (num this3 "profitLoss")
             / to_number (num this3 "investedAmount")) * 100)%float]> this3.

(** The fields of a holding under the names the schema requires, as
    handed to [new HoldingsModel]. *)
Definition holdingFields (uid sym : string) (q a p : float) : obj :=
  <["userId" := VStr uid]> (<["symbol" := VStr sym]> (<["quantity" := VNum q]>
  (<["averageBuyPrice" := VNum a]> (<["currentMarketPrice" := VNum p]> ∅)))).

Inductive Response :=
  | HoldingNotFound
  | HoldingFound (holding : obj)
  | HoldingDeleted (id : string) (nm : option string).

Definition statusCode (r : Response) : Z :=
  match r with
  | HoldingNotFound => 404
  | HoldingFound _ | HoldingDeleted _ _ => 200
  end.


(** [DELETE /:holdingId]. *)
Definition remove (st : gmap string obj) (uid id : string)
    : Response * gmap string obj :=
  match findOne st id uid with
  | None => (HoldingNotFound, st)
  | Some holding => (HoldingDeleted id (str holding "name"), delete id st)
  end.

End HoldingsDoc.

(** ** Watchlists: schema methods, creation and deletion, the router *)

Module WatchlistsDoc.
Import Js Validator Watchlists Express.

(** [{ ...old, ...item }] on the fields of an entry: a field of [item]
    that is set wins. *)
Definition merge (old item : Stock) : Stock :=
  {| symbol := symbol item; exchange := exchange item;
     stockName := match stockName item with
                  | Some n => Some n
                  | None => stockName old
                  end |}.



(** [WatchlistSchema.statics.getDefaultWatchlist]: the first watchlist
    of the user, in the order the collection yields them, that is
    marked default. *)
Definition getDefaultWatchlist (st : gmap string Watchlist) (uid : string)
    : option (string * Watchlist) :=
  snd <$> list_find (λ kv, userId kv.2 = uid ∧ isDefault kv.2 = true) (map_to_list st).


Inductive Response :=
  | ValidationErrors (errors : list string)
  | WatchlistExists
  | WatchlistCreated (id nm : string)
  | WatchlistNotFound
  | WatchlistDeleted (id nm : string)
  | Failed (error : string).

Definition statusCode (r : Response) : Z :=
  match r with
  | ValidationErrors _ | WatchlistExists => 400
  | WatchlistCreated _ _ => 201
  | WatchlistNotFound => 404
  | WatchlistDeleted _ _ => 200
  | Failed _ => 500
  end.

(** [POST /create], the first handler registered for it. *)
Definition create (st : gmap string Watchlist) (uid : string) (nm : option string)
    (newId : string) : Response * gmap string Watchlist :=
  match check (notEmptyTrimmed nm) "Watchlist name is required" with
  | (_ :: _) as errors => (ValidationErrors errors, st)
  | [] =>
      let nm := trim (show nm) in
      match findByName st uid nm with
      | Some _ => (WatchlistExists, st)
      | None =>
          let newWatchlist :=
            {| userId := uid; name := nm; isDefault := false; items := [];
               stocks := None; lastUpdated := None |} in
          match save st newId newWatchlist with
          | (Some _, st1) => (Failed "Failed to create watchlist", st1)
          | (None, st') => (WatchlistCreated newId (name newWatchlist), st')
          end
      end
  end.

(** [DELETE /:watchlistId]. *)
Definition remove (st : gmap string Watchlist) (uid id : string)
    : Response * gmap string Watchlist :=
  match findOne st id uid with
  | None => (WatchlistNotFound, st)
  | Some watchlist => (WatchlistDeleted id (name watchlist), delete id st)
  end.

(** The handlers of the watchlist router. *)
Inductive Handler :=
  | GetWatchlists
  | GetWatchlist
  | CreateWatchlist
  | AddStock
  | SearchStocks
  | RemoveStock
  | DeleteWatchlist
  | ReorderStocks
  | GetDefault
  | CreateDefault
  | AddDefaultStock
  | RemoveDefaultStock
  | Initialize.

(** The routes of the watchlist router, in the order of registration. *)
Definition watchlistRoutes : list (Method * list Segment * Handler) := [
  (GET, [], GetWatchlists);
  (GET, [Param "watchlistId"], GetWatchlist);
  (POST, [Lit "create"], CreateWatchlist);
  (POST, [Param "watchlistId"; Lit "add"], AddStock);
  (GET, [Lit "search"], SearchStocks);
  (DELETE, [Param "watchlistId"; Lit "remove"; Param "symbol"], RemoveStock);
  (DELETE, [Param "watchlistId"], DeleteWatchlist);
  (PUT, [Param "watchlistId"; Lit "reorder"], ReorderStocks);
  (GET, [Lit "default"], GetDefault);
  (POST, [Lit "create"], CreateDefault);
  (POST, [Lit "default"; Lit "add"], AddDefaultStock);
  (DELETE, [Lit "default"; Lit "stocks"; Param "symbol"], RemoveDefaultStock);
  (POST, [Lit "initialize"], Initialize)
].

(** The handlers registered behind a route that catches their requests. *)
Definition shadowed : list Handler :=
  [SearchStocks; GetDefault; CreateDefault; AddDefaultStock].

End WatchlistsDoc.

(** ** Users: the login-attempt methods of the schema *)

Module Users.
Import Js JsString.

(** [UserSchema.methods.isAccountLocked], as a truth value. *)
Definition isAccountLocked (this : obj) : bool :=
  flag this "accountLocked" || ge (to_number (num this "loginAttempts")) 5.

(** [UserSchema.methods.incrementLoginAttempts]: the document it hands
    to [save]. *)
Definition incrementLoginAttempts (this : obj) : obj :=
  let this1 :=
    <["loginAttempts" := VNum (to_number (num this "loginAttempts") + 1)%float]> this in
  if ge (to_number (num this1 "loginAttempts")) 5
  then <["accountLocked" := VBool true]> this1
  else this1.

(** [UserSchema.methods.resetLoginAttempts]: the document it hands to
    [save]. *)
Definition resetLoginAttempts (this : obj) : obj :=
  <["accountLocked" := VBool false]> (<["loginAttempts" := VNum 0]> this).

End Users.

(** ** Sample data for the further routes *)

Module FurtherTerms.
Import Js JsString Mongoose Watchlists.

(** Two documents agree outside a set of paths. *)
Definition agreeOutside (ks : list string) (d d' : option obj) : Prop :=
  ∀ k, k ∉ ks → (d ≫= λ o, o !! k) = (d' ≫= λ o, o !! k).

(** The symbol and exchange of an entry. *)
Definition pair (s : Stock) : string * string := (symbol s, exchange s).

(** A stored position with the fields the schema requires and the
    figures the routes read. *)
Definition storedPosition : obj :=
  <["net" := VNum 200]> (<["day" := VNum 20]> (<["name" := VStr "INFY"]>
  (construct (PositionsDoc.PositionsSchema 0)
     (PositionsDoc.positionFields "u1" "INFY" "MIS" 10 100 120)))).

(** A stored position without those figures. *)
Definition bareStoredPosition : obj :=
  construct (PositionsDoc.PositionsSchema 0)
    (PositionsDoc.positionFields "u1" "INFY" "MIS" 10 100 120).

(** A stored holding with the fields the schema requires. *)
Definition storedHolding : obj :=
  construct (Holdings.HoldingsSchema 0) (HoldingsDoc.holdingFields "u1" "INFY" 10 100 120).

(** What a save leaves alone on the watchlists it does not write. *)
Definition content (w : Watchlist)
    : string * string * list Stock * option (list Stock) * option Z :=
  (userId w, name w, items w, stocks w, lastUpdated w).

(** The status path of [OrdersSchema]. *)
Definition statusPath : Path :=
  {| path := "status"; required := None; requiredMsg := "";
     defaultValue := const (VStr "PENDING");
     enumValues := Some ["PENDING"; "EXECUTED"; "CANCELLED"; "REJECTED"];
     minValue := None; validator := None |}.

(** The two properties of a user the login-attempt methods read and
    assign, and what one failed attempt does to them. *)
Definition view (this : obj) : float * bool :=
  (to_number (num this "loginAttempts"), flag this "accountLocked").

Definition attempt (s : float * bool) : float * bool :=
  ((s.1 + 1)%float, s.2 || ge (s.1 + 1)%float 5).

(** The collection after user u1 has created the watchlist Tech. *)
Definition listed_created : gmap string Watchlist :=
  {["w1" := {| userId := "u1"; name := "Tech"; isDefault := false; items := [];
               stocks := None; lastUpdated := None |}]}.

End FurtherTerms.

(** * Properties *)

(** ** Facts of binary64 arithmetic used below *)

Module Ieee.
Import Js.




(** NaN absorbs a product. *)
Lemma mul_nan_l (q : float) : (nan * q)%float = nan.
Proof.
  apply Prim2SF_inj. rewrite FloatAxioms.mul_spec.
  change (Prim2SF nan) with S754_nan. reflexivity.
Qed.


End Ieee.

(** ** Generic lemmas on lists and property maps *)

Module Aux.
Import Js Loop.

(** Reading a property back after a chain of assignments. *)
Ltac lookups :=
  unfold num, str;
  repeat first
    [ rewrite lookup_insert_eq
    | rewrite lookup_insert_ne by discriminate
    | rewrite lookup_delete_eq
    | rewrite lookup_delete_ne by discriminate ].


(** A filter keeps a list whose entries all pass. *)
Lemma filter_all {A} (P : A → Prop) `{!∀ x, Decision (P x)} (l : list A) :
  Forall P l → filter P l = l.
Proof.
  induction 1 as [|x l Hx _ IH]; [reflexivity|].
  rewrite filter_cons_True by done. by rewrite IH.
Qed.


End Aux.

(** ** Holdings *)

Module HoldingsProps.
Import Js Validator Mongoose Holdings Loop Aux HoldingsTerms.










Example payload_at_120 :
  num (addPayload "u1" "INFY" 10 100 120 0) "net" = Some 200%float
  ∧ num (addPayload "u1" "INFY" 10 100 120 0) "day" = Some 20%float.
Proof. split; vm_compute; reflexivity. Qed.

Example update_to_90 :
  fst (update {["h1" := infy]} "u1" "h1" (priced 90) 0)
  = HoldingUpdated "h1" (Some "INFY") 10 100 90 (-100) (-10).
Proof. vm_compute. reflexivity. Qed.

Example bulk_to_90 :
  bulkUpdate {["h1" := infy]} "u1"
    (Some [{| holdingId := Some "h1"; newPrice := Some 90%float |}]) 0
  = (HoldingsUpdated None,
     Some [{| filterId := "h1"; filterUserId := "u1"; setPrice := 90;
              setNet := -100; setDay := -10; setLastUpdated := 0 |}]).
Proof. vm_compute. reflexivity. Qed.

(** C10: a validated add request never reaches the 201 response.  The
    object handed to [new HoldingsModel] names its fields name, qty, avg,
    price, net and day, none of them a path of [HoldingsSchema]; the
    document built from it leaves symbol, quantity, averageBuyPrice and
    currentMarketPrice unset; validation reports the four required paths
    and the save is rejected.  When the duplicate check lets the request
    through, the answer is the generic 500 and nothing is stored. *)
Theorem add_is_never_created st uid (b : Body) newId now :
  holdingValidation b = [] →
  let payload :=
    addPayload uid (trim (default "" (name b))) (to_number (qty b))
               (to_number (avg b)) (to_number (price b)) now in
  let newHolding := construct (HoldingsSchema now) payload in
  Forall (λ k, is_Some (payload !! k) ∧ declared (HoldingsSchema now) k = false
               ∧ newHolding !! k = None)
         ["name"; "qty"; "avg"; "price"; "net"; "day"]
  ∧ Forall (λ k, newHolding !! k = None)
           ["symbol"; "quantity"; "averageBuyPrice"; "currentMarketPrice"]
  ∧ Forall (λ m, m ∈ validate (HoldingsSchema now) newHolding)
           ["Stock symbol is required"; "Quantity is required";
            "Average buy price is required"; "Current market price is required"]
  ∧ is_Some (head (validate (HoldingsSchema now) newHolding))
  ∧ bool_decide (statusCode (fst (add st uid b newId now)) = 201%Z) = false
  ∧ snd (add st uid b newId now) = st
  ∧ (existsByName st uid (trim (default "" (name b))) = false →
     add st uid b newId now = (Failed "Failed to add holding", st)).
Proof.
  intros Hv payload newHolding.
  assert (Hval : ∃ pre post, validate (HoldingsSchema now) newHolding
    = pre ++ ["Stock symbol is required"; "Quantity is required";
              "Average buy price is required"; "Current market price is required"]
          ++ post).
  { subst newHolding payload. destruct uid as [|c uid].
    - exists ["User ID is required"]. eexists. vm_compute. reflexivity.
    - exists []. eexists. vm_compute. reflexivity. }
  destruct Hval as (pre & post & Hval).
  assert (Hsave : ∃ e, save (HoldingsSchema now) (preSave now) st newId newHolding
                       = inl e).
  { unfold save. rewrite Hval. destruct pre; cbn; eauto. }
  destruct Hsave as [e Hsave].
  split; [|split; [|split; [|split]]].
  - repeat (apply Forall_cons_2; [split; [|split]|]); try apply Forall_nil_2;
      vm_compute; solve [reflexivity | eauto].
  - repeat (apply Forall_cons_2); try apply Forall_nil_2; vm_compute; reflexivity.
  - rewrite Hval. repeat (apply Forall_cons_2); try apply Forall_nil_2;
      apply elem_of_app; right; apply elem_of_app; left;
      repeat first [apply list_elem_of_here | apply list_elem_of_further].
  - rewrite Hval. destruct pre; cbn; eauto.
  - unfold add. rewrite Hv. cbn zeta. fold payload. fold newHolding.
    rewrite Hsave. destruct (existsByName _ _ _); cbn; repeat split; done.
Qed.

Lemma add_is_never_created_witness :
  holdingValidation (priced 120) = []
  ∧ add ∅ "u1" (priced 120) "h1" 0 = (Failed "Failed to add holding", ∅).
Proof.
  split; [vm_compute; reflexivity|].
  apply (add_is_never_created ∅ "u1" (priced 120) "h1" 0);
    vm_compute; reflexivity.
Defined.

End HoldingsProps.

(** ** Positions *)

Module PositionsProps.
Import Js Validator Mongoose Positions Loop Aux PositionsTerms.





End PositionsProps.

(** ** Portfolio metrics and bulk updates *)

Module PortfolioProps.
Import Js Mongoose Aux PortfolioTerms.


(** Three updates, the second for an id that does not exist. *)
Example one_bad_id_of_three :
  Positions.bulkUpdate threePositions "u1"
    (Some [ {| Positions.positionId := Some "p1"; Positions.newPrice := Some 110%float |};
            {| Positions.positionId := Some "p9"; Positions.newPrice := Some 5%float |};
            {| Positions.positionId := Some "p2"; Positions.newPrice := Some 9%float |} ]) 7
  = (Positions.PositionsUpdated (Some ["Position not found: p9"]),
     Some [ {| Positions.filterId := "p1"; Positions.filterUserId := "u1";
               Positions.setPrice := 110; Positions.setNet := 100;
               Positions.setDay := 10; Positions.setIsLoss := false;
               Positions.setLastUpdated := 7 |};
            {| Positions.filterId := "p2"; Positions.filterUserId := "u1";
               Positions.setPrice := 9; Positions.setNet := 5;
               Positions.setDay := -10; Positions.setIsLoss := false;
               Positions.setLastUpdated := 7 |} ]).
Proof. vm_compute. reflexivity. Qed.

(** Another caller's position counts as not found. *)
Example foreign_position_not_found :
  Positions.bulkUpdate threePositions "u1"
    (Some [ {| Positions.positionId := Some "p3"; Positions.newPrice := Some 1%float |} ]) 7
  = (Positions.PositionsUpdated (Some ["Position not found: p3"]), None).
Proof. vm_compute. reflexivity. Qed.



End PortfolioProps.

(** ** Orders *)

Module OrdersProps.
Import Js Validator Mongoose Orders Aux OrdersTerms.

Lemma order_validation_passed (b : Body) :
  orderValidation b = [] →
  notEmptyTrimmed (name b) = true
  ∧ (∃ q, qty b = Some q ∧ isIntMin 1 (Some q) = true)
  ∧ (∃ p, price b = Some p ∧ isFloatMin 0.01 (Some p) = true)
  ∧ (mode b = Some "BUY" ∨ mode b = Some "SELL")
  ∧ (orderType b = Some "MARKET" ∨ orderType b = Some "LIMIT")
  ∧ (validity b = Some "DAY" ∨ validity b = Some "IOC").
Proof.
  unfold orderValidation, check.
  destruct (notEmptyTrimmed (name b)); [|discriminate].
  destruct (isIntMin 1 (qty b)) eqn:Hq; [|discriminate].
  destruct (isFloatMin 0.01 (price b)) eqn:Hp; [|discriminate].
  destruct (isIn ["BUY"; "SELL"] (mode b)) eqn:Hm; [|discriminate].
  destruct (isIn ["MARKET"; "LIMIT"] (orderType b)) eqn:Ht; [|discriminate].
  destruct (isIn ["DAY"; "IOC"] (validity b)) eqn:Hl; [|discriminate].
  intros _. split; [reflexivity|].
  destruct (qty b) as [q|]; [|discriminate].
  destruct (price b) as [p|]; [|discriminate].
  unfold isIn in *.
  destruct (mode b) as [m|]; [|discriminate].
  destruct (orderType b) as [t|]; [|discriminate].
  destruct (validity b) as [l|]; [|discriminate].
  apply bool_decide_eq_true in Hm, Ht, Hl.
  rewrite !elem_of_cons, elem_of_nil in Hm, Ht, Hl.
  repeat split; eauto; intuition congruence.
Qed.

(** A failed check leaves its message in the list. *)
Lemma validation_failed (b : Body) :
  isFloatMin 0.01 (price b) = false
  ∨ isIn ["MARKET"; "LIMIT"] (orderType b) = false →
  ∃ e es, orderValidation b = e :: es.
Proof.
  intros H. destruct (orderValidation b) as [|e es] eqn:Hv; [|eauto].
  exfalso. unfold orderValidation, check in Hv.
  destruct (notEmptyTrimmed (name b)); [|discriminate].
  destruct (isIntMin 1 (qty b)); [|discriminate].
  destruct (isFloatMin 0.01 (price b)); [|discriminate].
  destruct (isIn ["BUY"; "SELL"] (mode b)); [|discriminate].
  destruct (isIn ["MARKET"; "LIMIT"] (orderType b)); [|discriminate].
  destruct H; discriminate.
Qed.

(** The pre-save hook refuses a document in exactly the three cases its
    messages name. *)
Lemma preSave_refuses (this : obj) :
  (∃ e, preSave this = inl e) ↔
  (orderTypeIs this ["LIMIT"; "SL"] = true ∧ falsy_num (num this "price") = true)
  ∨ (orderTypeIs this ["SL"; "SL-M"] = true
     ∧ falsy_num (num this "triggerPrice") = true)
  ∨ (orderTypeIs this ["SL"] = true
     ∧ ge (to_number (num this "triggerPrice")) (to_number (num this "price")) = true).
Proof.
  unfold preSave.
  destruct (orderTypeIs this ["LIMIT"; "SL"]), (falsy_num (num this "price"));
    destruct (orderTypeIs this ["SL"; "SL-M"]), (falsy_num (num this "triggerPrice"));
    destruct (orderTypeIs this ["SL"]),
      (ge (to_number (num this "triggerPrice")) (to_number (num this "price")));
    cbn; split; eauto; intros H; try (destruct H as [e He]; discriminate);
    destruct H as [[? ?]|[[? ?]|[? ?]]]; discriminate.
Qed.

Lemma preSave_accepts (this o : obj) : preSave this = inr o → o = this.
Proof.
  unfold preSave. repeat case_match; intros [= <-]; reflexivity.
Qed.

(** A save writes the declared paths of the document in memory. *)
Lemma persisted_declared (s : Schema) (old mem : obj) (k : string) :
  declared s k = true → persisted s old mem !! k = mem !! k.
Proof.
  intros Hk. unfold persisted, strict. rewrite lookup_union.
  rewrite !map_lookup_filter. cbn.
  destruct (mem !! k) as [v|]; cbn.
  - rewrite option_guard_True by done. by destruct (old !! k ≫= _).
  - destruct (old !! k) as [w|]; cbn; [|done].
    rewrite option_guard_False; [done|]. rewrite Hk. discriminate.
Qed.

Lemma order_save_cases s pre st id mem :
  (∃ e, save s pre st id mem = inl e)
  ∨ (∃ mem', validate s mem = [] ∧ pre mem = inr mem'
       ∧ save s pre st id mem = inr (<[id := persisted s (default ∅ (st !! id)) mem']> st)).
Proof.
  unfold save. destruct (validate s mem); [|eauto].
  destruct (pre mem); eauto 10.
Qed.

Lemma closed_of_terminal (order : obj) (s : string) :
  str order "status" = Some s →
  s ∈ ["EXECUTED"; "CANCELLED"; "REJECTED"] →
  openStatus order = false.
Proof.
  intros Hs Hin. unfold openStatus. rewrite Hs.
  set_unfold. destruct Hin as [->|[->|[->|[]]]]; reflexivity.
Qed.

Lemma findOne_lookup (st : gmap string obj) id uid order :
  findOne st id uid = Some order → st !! id = Some order.
Proof.
  unfold findOne. destruct (st !! id); [|discriminate].
  case_bool_decide; congruence.
Qed.

Lemma cancel_closed st uid id now order :
  findOne st id uid = Some order → openStatus order = false →
  cancel st uid id now
  = (InvalidOperation
       ("Cannot cancel order in " +:+ show (str order "status") +:+ " status"), st).
Proof. intros Hf Hc. unfold cancel. by rewrite Hf, Hc. Qed.

Lemma modify_closed st uid id b now order :
  findOne st id uid = Some order → openStatus order = false →
  (orderValidation b = [] →
   modify st uid id b now
   = (InvalidOperation
        ("Cannot modify order in " +:+ show (str order "status") +:+ " status"), st))
  ∧ snd (modify st uid id b now) = st
  ∧ statusCode (fst (modify st uid id b now)) = 400%Z.
Proof.
  intros Hf Hc. unfold modify. rewrite Hf, Hc. cbn.
  destruct (orderValidation b); cbn; repeat split; try done.
Qed.

(** A request changes at most the order it addresses, and does not
    change that one when it is closed. *)
Lemma step_keeps_closed st r id order :
  st !! id = Some order → openStatus order = false →
  step st r !! id = Some order.
Proof.
  intros Hl Hc.
  assert (Hopen : ∀ id' uid' o, findOne st id' uid' = Some o →
                    openStatus o = true → id' ≠ id).
  { intros id' uid' o Hf Ho ->. apply findOne_lookup in Hf. congruence. }
  destruct r as [uid' id' now|uid' id' b now]; cbn.
  - unfold cancel. destruct (findOne st id' uid') as [o|] eqn:Hf; [|done].
    destruct (openStatus o) eqn:Ho; [|done]. cbn.
    destruct (order_save_cases OrdersSchema preSave st id'
                (<["lastModified" := VDate now]> (<["status" := VStr "CANCELLED"]> o)))
      as [[e ->]|(m & _ & _ & ->)]; cbn; [done|].
    rewrite lookup_insert_ne; [done | eauto].
  - unfold modify. destruct (orderValidation b); [|done].
    destruct (findOne st id' uid') as [o|] eqn:Hf; [|done].
    destruct (openStatus o) eqn:Ho; [|done]. cbn.
    destruct (order_save_cases OrdersSchema preSave st id' (assignModify o b now))
      as [[e ->]|(m & _ & _ & ->)]; cbn; [done|].
    rewrite lookup_insert_ne; [done | eauto].
Qed.

Lemma run_keeps_closed st rs id order :
  st !! id = Some order → openStatus order = false →
  run st rs !! id = Some order.
Proof.
  revert st. unfold run.
  induction rs as [|r rs IH]; intros st Hl Hc; cbn; [done|].
  apply IH; [|done]. by apply step_keeps_closed.
Qed.

Lemma cancel_open st uid id now order :
  findOne st id uid = Some order → openStatus order = true →
  validate OrdersSchema (cancelled order now) = [] →
  (∀ e, preSave (cancelled order now) = inl e → False) →
  ∃ st',
    cancel st uid id now
    = (OrderCancelled id (str order "name") (Some "CANCELLED"), st')
    ∧ (st' !! id ≫= λ o, str o "status") = Some "CANCELLED"
    ∧ ∀ j, j ≠ id → st' !! j = st !! j.
Proof.
  intros Hf Ho Hv Hp. unfold cancel. rewrite Hf, Ho. cbn. fold (cancelled order now).
  destruct (order_save_cases OrdersSchema preSave st id (cancelled order now))
    as [[e He]|(m & _ & Hm & ->)].
  - exfalso. unfold save in He. rewrite Hv in He.
    destruct (preSave (cancelled order now)) eqn:Hpre; [|discriminate]. eauto.
  - apply preSave_accepts in Hm as ->. eexists. split; [|split].
    + f_equal. unfold cancelled. f_equal; by lookups.
    + rewrite lookup_insert_eq. cbn. unfold str.
      rewrite persisted_declared by (vm_compute; reflexivity).
      unfold cancelled. by lookups.
    + intros j Hj. by rewrite lookup_insert_ne.
Qed.

(** C2: an order whose status is EXECUTED, CANCELLED or REJECTED is
    refused by cancel and by modify with the 400 "Invalid operation"
    answer, the collection is left as it was, and no run of cancel and
    modify requests (by any caller, on any order) changes that order;
    cancel on an order whose status is PENDING or OPEN, when the save
    goes through, answers 200 and stores the order with status
    CANCELLED, all other orders untouched. *)
Theorem closed_orders_stay_closed st uid id order s :
  findOne st id uid = Some order →
  str order "status" = Some s →
  (s ∈ ["EXECUTED"; "CANCELLED"; "REJECTED"] →
     (∀ now, cancel st uid id now
             = (InvalidOperation ("Cannot cancel order in " +:+ s +:+ " status"), st))
     ∧ (∀ b now, orderValidation b = [] →
          modify st uid id b now
          = (InvalidOperation ("Cannot modify order in " +:+ s +:+ " status"), st))
     ∧ (∀ b now, snd (modify st uid id b now) = st
                 ∧ statusCode (fst (modify st uid id b now)) = 400%Z)
     ∧ (∀ rs, run st rs !! id = Some order))
  ∧ (s ∈ ["PENDING"; "OPEN"] →
     ∀ now,
       validate OrdersSchema (cancelled order now) = [] →
       (∀ e, preSave (cancelled order now) = inl e → False) →
       ∃ st',
         cancel st uid id now
         = (OrderCancelled id (str order "name") (Some "CANCELLED"), st')
         ∧ (st' !! id ≫= λ o, str o "status") = Some "CANCELLED"
         ∧ ∀ j, j ≠ id → st' !! j = st !! j).
Proof.
  intros Hf Hs. split.
  - intros Hin. pose proof (closed_of_terminal order s Hs Hin) as Hc.
    repeat split.
    + intros now. rewrite (cancel_closed st uid id now order Hf Hc), Hs. reflexivity.
    + intros b now Hv.
      destruct (modify_closed st uid id b now order Hf Hc) as (Hm & _).
      rewrite (Hm Hv), Hs. reflexivity.
    + apply (modify_closed st uid id b now order Hf Hc).
    + apply (modify_closed st uid id b now order Hf Hc).
    + intros rs. apply run_keeps_closed; [|done]. by apply findOne_lookup in Hf.
  - intros Hin now Hv Hp. apply cancel_open; try done.
    unfold openStatus. rewrite Hs. by apply bool_decide_eq_true.
Qed.

Lemma twoOrders_facts :
  findOne twoOrders "o1" "u1" = Some executedOrder
  ∧ str executedOrder "status" = Some "EXECUTED"
  ∧ findOne twoOrders "o2" "u1" = Some pendingOrder
  ∧ str pendingOrder "status" = Some "PENDING"
  ∧ validate OrdersSchema (cancelled pendingOrder 9) = []
  ∧ preSave (cancelled pendingOrder 9) = inr (cancelled pendingOrder 9)
  ∧ orderValidation (limitAt 101) = [].
Proof. repeat split; vm_compute; reflexivity. Qed.

Lemma closed_orders_stay_closed_witness :
  (cancel twoOrders "u1" "o1" 9
   = (InvalidOperation "Cannot cancel order in EXECUTED status", twoOrders)
   ∧ modify twoOrders "u1" "o1" (limitAt 101) 9
     = (InvalidOperation "Cannot modify order in EXECUTED status", twoOrders)
   ∧ run twoOrders [Cancel "u1" "o1" 9; Modify "u1" "o1" (limitAt 101) 10;
                    Cancel "u1" "o2" 11] !! "o1" = Some executedOrder)
  ∧ ∃ st', cancel twoOrders "u1" "o2" 9
           = (OrderCancelled "o2" None (Some "CANCELLED"), st')
           ∧ (st' !! "o2" ≫= λ o, str o "status") = Some "CANCELLED".
Proof.
  destruct twoOrders_facts as (F1 & S1 & F2 & S2 & V2 & P2 & VB).
  split.
  - destruct (closed_orders_stay_closed twoOrders "u1" "o1" executedOrder "EXECUTED"
                F1 S1) as [Hclosed _].
    destruct (Hclosed (list_elem_of_here _ _)) as (Hc & Hm & _ & Hr).
    split; [apply Hc | split; [apply (Hm _ _ VB) | apply Hr]].
  - destruct (closed_orders_stay_closed twoOrders "u1" "o2" pendingOrder "PENDING"
                F2 S2) as [_ Hopen].
    destruct (Hopen (list_elem_of_here _ _) 9%Z V2) as (st' & Hc & Hst & _).
    + intros e He. rewrite P2 in He. discriminate He.
    + exists st'. split; [exact Hc | exact Hst].
Defined.

(** A MARKET order without a price and a well-formed SL order are in
    none of the three cases, and both are refused by the request
    validation. *)
Lemma market_without_price_and_stop_loss_refused :
  claimedInvalid marketNoPrice = false
  ∧ placeOrder ∅ "u1" marketNoPrice "o1" 0
    = (ValidationErrors ["Price must be greater than 0"], ∅)
  ∧ claimedInvalid stopLoss = false
  ∧ placeOrder ∅ "u1" stopLoss "o1" 0
    = (ValidationErrors ["Order type must be either MARKET or LIMIT"], ∅).
Proof. split; [|split; [|split]]; vm_compute; reflexivity. Qed.

Lemma stop_types_not_accepted (t : option string) :
  isIn ["SL"; "SL-M"] t = true ∨ isIn ["SL"] t = true →
  isIn ["MARKET"; "LIMIT"] t = false.
Proof.
  destruct t as [t|]; cbn; [|tauto].
  rewrite !bool_decide_eq_true, bool_decide_eq_false, !elem_of_cons, !elem_of_nil.
  intros [[->|[->|[]]]|[->|[]]]; intros [?|[?|[]]]; discriminate.
Qed.

Lemma new_order_is_pending uid nm q p md ot vl tp now :
  str (construct OrdersSchema (newPayload uid nm q p md ot vl tp now)) "status"
  = Some "PENDING".
Proof. destruct tp; vm_compute; reflexivity. Qed.

(** The document [POST /new] builds has no symbol: the request's fields
    name, qty and mode are not paths of [OrdersSchema]. *)
Lemma new_order_lacks_symbol uid nm q p md ot vl tp now :
  construct OrdersSchema (newPayload uid nm q p md ot vl tp now) !! "symbol" = None.
Proof. destruct tp; vm_compute; reflexivity. Qed.

Lemma new_order_is_invalid uid nm q p md ot vl tp now :
  ∃ e es,
    validate OrdersSchema (construct OrdersSchema (newPayload uid nm q p md ot vl tp now))
    = e :: es.
Proof.
  set (d := construct OrdersSchema (newPayload uid nm q p md ot vl tp now)).
  assert (Hin : In "Stock symbol is required" (validate OrdersSchema d)).
  { unfold validate. apply in_flat_map.
    exists {| path := "symbol"; required := always;
              requiredMsg := "Stock symbol is required"; defaultValue := None;
              enumValues := None; minValue := None; validator := None |}.
    split; [right; left; reflexivity|].
    unfold validatePath, unset. cbn [path required requiredMsg always].
    subst d. rewrite new_order_lacks_symbol. left. reflexivity. }
  destruct (validate OrdersSchema d); [destruct Hin | eauto].
Qed.

(** No request to [POST /new] is answered 201: the save is refused for
    the missing required paths, as it is for holdings. *)
Lemma place_order_never_placed st uid b newId now :
  bool_decide (statusCode (fst (placeOrder st uid b newId now)) = 201%Z) = false
  ∧ snd (placeOrder st uid b newId now) = st.
Proof.
  unfold placeOrder. destruct (orderValidation b); [|done].
  destruct (_ && _); [done|].
  destruct (new_order_is_invalid uid (trim (default "" (name b))) (to_number (qty b))
              (to_number (price b)) (show (mode b)) (show (orderType b))
              (show (validity b)) (triggerPrice b) now) as (e & es & Hv).
  unfold save. rewrite Hv. split; reflexivity.
Qed.

(** C3, as the code has it: [POST /new] answers 400 with the validation
    errors, and stores nothing, whenever the price is absent (whatever
    the order type, MARKET included) or the order type is not MARKET or
    LIMIT; this covers the three cases of the specification, every SL
    and SL-M request being refused.  A request that passes validation
    builds its order with status PENDING, and a 201 answer carries
    that status.  The schema's pre-save hook, for its part, refuses a
    document in exactly the three cases, a price or trigger price of 0
    counting as absent. *)
Theorem place_order_validation st uid b newId now :
  (absent (price b) = true
   ∨ isIn ["MARKET"; "LIMIT"] (orderType b) = false
   ∨ claimedInvalid b = true →
   ∃ e es, placeOrder st uid b newId now = (ValidationErrors (e :: es), st))
  ∧ (orderValidation b = [] →
     str (construct OrdersSchema
            (newPayload uid (trim (default "" (name b))) (to_number (qty b))
               (to_number (price b)) (show (mode b)) (show (orderType b))
               (show (validity b)) (triggerPrice b) now)) "status"
     = Some "PENDING")
  ∧ match fst (placeOrder st uid b newId now) with
    | OrderPlaced _ _ _ _ _ _ status => status = Some "PENDING"
    | _ => True
    end
  ∧ (∀ this : obj,
       (∃ e, preSave this = inl e) ↔
       (orderTypeIs this ["LIMIT"; "SL"] = true
        ∧ falsy_num (num this "price") = true)
       ∨ (orderTypeIs this ["SL"; "SL-M"] = true
          ∧ falsy_num (num this "triggerPrice") = true)
       ∨ (orderTypeIs this ["SL"] = true
          ∧ ge (to_number (num this "triggerPrice")) (to_number (num this "price"))
            = true)).
Proof.
  split; [|split; [|split; [|apply preSave_refuses]]].
  - intros H.
    assert (Hfail : isFloatMin 0.01 (price b) = false
                    ∨ isIn ["MARKET"; "LIMIT"] (orderType b) = false).
    { destruct H as [H|[H|H]].
      - left. destruct (price b); [discriminate | reflexivity].
      - by right.
      - unfold claimedInvalid in H.
        apply orb_true_iff in H as [H|H]; [apply orb_true_iff in H as [H|H]|];
          apply andb_true_iff in H as [Ht Hc].
        + left. destruct (price b); [discriminate | reflexivity].
        + right. apply stop_types_not_accepted. by left.
        + right. apply stop_types_not_accepted. by right. }
    destruct (validation_failed b Hfail) as (e & es & Hv).
    exists e, es. unfold placeOrder. by rewrite Hv.
  - intros _. apply new_order_is_pending.
  - unfold placeOrder. destruct (orderValidation b); [|exact I].
    destruct (_ && _); [exact I|].
    destruct (save _ _ _ _ _); [exact I|]. cbn [fst]. apply new_order_is_pending.
Qed.

(** The LIMIT order of the specification's example, at price 100: its
    document is built PENDING. *)
Example limit_order_is_built_pending :
  orderValidation (limitAt 100) = []
  ∧ str (construct OrdersSchema
           (newPayload "u1" "INFY" 10 100 "BUY" "LIMIT" "DAY" None 0)) "status"
    = Some "PENDING".
Proof. split; vm_compute; reflexivity. Qed.

(** The defaults of a new order: status PENDING, remainingQuantity the
    quantity, orderValue the product [this.price * this.quantity]. *)
Lemma created_defaults uid sym tt ot q p tp :
  str (construct OrdersSchema (orderFields uid sym tt ot q p tp)) "status"
  = Some "PENDING"
  ∧ num (construct OrdersSchema (orderFields uid sym tt ot q p tp)) "remainingQuantity"
    = Some q
  ∧ num (construct OrdersSchema (orderFields uid sym tt ot q p tp)) "orderValue"
    = Some (to_number p * q)%float.
Proof. destruct p, tp; (split; [|split]); vm_compute; reflexivity. Qed.

(** Without a price the product is [undefined * quantity], which is NaN
    whatever the quantity. *)
Lemma order_value_without_price uid sym tt ot q tp :
  num (construct OrdersSchema (orderFields uid sym tt ot q None tp)) "orderValue"
  = Some nan.
Proof.
  destruct (created_defaults uid sym tt ot q None tp) as (_ & _ & ->).
  cbn. by rewrite Ieee.mul_nan_l.
Qed.

(** A path that holds NaN makes the document invalid. *)
Lemma nan_path_is_invalid (s : Schema) (d : obj) (p : Path) :
  In p s → d !! path p = Some (VNum nan) →
  In (path p +:+ ": Cast to Number failed for value NaN") (validate s d).
Proof.
  intros Hp Hd. unfold validate. apply in_flat_map. exists p. split; [exact Hp|].
  unfold validatePath. rewrite Hd. left. reflexivity.
Qed.

Lemma order_value_path :
  In {| path := "orderValue"; required := None; requiredMsg := "";
        defaultValue := Some (λ this, Some (VNum
          (to_number (num this "price") * to_number (num this "quantity"))%float));
        enumValues := None; minValue := None; validator := None |}
     OrdersSchema.
Proof. do 14 right. left. reflexivity. Qed.

(** An order without a price is not created: the NaN of its orderValue
    fails the cast. *)
Lemma priceless_order_value uid sym tt ot q tp :
  construct OrdersSchema (orderFields uid sym tt ot q None tp) !! "orderValue"
  = Some (VNum nan).
Proof.
  assert (H : construct OrdersSchema (orderFields uid sym tt ot q None tp) !! "orderValue"
              = Some (VNum (nan * q)%float))
    by (destruct tp; vm_compute; reflexivity).
  by rewrite H, Ieee.mul_nan_l.
Qed.

Lemma priceless_order_is_invalid uid sym tt ot q tp :
  In "orderValue: Cast to Number failed for value NaN"
     (validate OrdersSchema (construct OrdersSchema (orderFields uid sym tt ot q None tp))).
Proof.
  exact (nan_path_is_invalid OrdersSchema _ _ order_value_path
           (priceless_order_value uid sym tt ot q tp)).
Qed.

(** An order that is created from its fields has a price; its
    remainingQuantity is its quantity and its orderValue is price *
    quantity. *)
Lemma created_order_values st id uid sym tt ot q p tp st' :
  createOrder st id (orderFields uid sym tt ot q p tp) = inr st' →
  ∃ pv, p = Some pv
    ∧ (st' !! id ≫= λ o, str o "status") = Some "PENDING"
    ∧ (st' !! id ≫= λ o, num o "remainingQuantity") = Some q
    ∧ (st' !! id ≫= λ o, num o "orderValue") = Some (pv * q)%float.
Proof.
  unfold createOrder, save.
  destruct p as [pv|].
  - destruct (created_defaults uid sym tt ot q (Some pv) tp) as (Hs & Hr & Ho).
    revert Hs Hr Ho.
    generalize (construct OrdersSchema (orderFields uid sym tt ot q (Some pv) tp)).
    intros d Hs Hr Ho.
    destruct (validate OrdersSchema d); [|discriminate].
    destruct (preSave d) as [e|d'] eqn:Hm; [discriminate|].
    apply preSave_accepts in Hm as ->. intros [= <-].
    exists pv. split; [reflexivity|].
    rewrite lookup_insert_eq. cbn [mbind option_bind]. unfold num, str in *.
    rewrite !persisted_declared by (vm_compute; reflexivity). auto.
  - pose proof (priceless_order_is_invalid uid sym tt ot q tp) as Hin. revert Hin.
    generalize (construct OrdersSchema (orderFields uid sym tt ot q None tp)).
    intros d Hin. destruct (validate OrdersSchema d); [destruct Hin | discriminate].
Qed.


(** With a price the same creation gives price * quantity. *)
Example limit_order_value :
  match createOrder ∅ "o1"
          (orderFields "u1" "INFY" "BUY" "LIMIT" 10 (Some 100%float) None) with
  | inr st' => (st' !! "o1" ≫= λ o, num o "remainingQuantity",
                st' !! "o1" ≫= λ o, num o "orderValue")
  | inl _ => (None, None)
  end = (Some 10%float, Some 1000%float).
Proof. vm_compute. reflexivity. Qed.

End OrdersProps.

(** ** Watchlists *)

Module WatchlistsProps.
Import Js Validator Watchlists Aux WatchlistsTerms.

Lemma clearOtherDefaults_lookup st uid id k :
  clearOtherDefaults st uid id !! k
  = (λ w, if bool_decide (userId w = uid) && negb (bool_decide (k = id))
          then setIsDefault false w else w) <$> st !! k.
Proof.
  unfold clearOtherDefaults. rewrite map_lookup_imap. by destruct (st !! k).
Qed.

(** What is left of a watchlist after the hook's [updateMany]: its
    owner, and its default flag only if it is the saved one or belongs
    to another user. *)
Lemma cleared_watchlist st uid id k w' :
  clearOtherDefaults st uid id !! k = Some w' →
  ∃ w, st !! k = Some w ∧ userId w' = userId w
    ∧ (isDefault w' = true → isDefault w = true ∧ (userId w ≠ uid ∨ k = id)).
Proof.
  rewrite clearOtherDefaults_lookup. destruct (st !! k) as [w|]; [|discriminate].
  cbn. intros [= <-]. exists w. split; [reflexivity|].
  case_bool_decide as Hu; cbn [andb]; [|by auto].
  case_bool_decide as Hk; cbn [negb]; [by auto|].
  cbn. split; [reflexivity | discriminate].
Qed.

Lemma preSave_singleDefault st id this :
  singleDefault st → singleDefault (preSave st id this).
Proof.
  intros Hst. unfold preSave. destruct (isDefault this); [|exact Hst].
  intros i j wi wj Hi Hj Hu Hdi Hdj.
  apply cleared_watchlist in Hi as (wi0 & Hi0 & Hui & Hi1).
  apply cleared_watchlist in Hj as (wj0 & Hj0 & Huj & Hj1).
  destruct (Hi1 Hdi) as [Hdi0 _], (Hj1 Hdj) as [Hdj0 _].
  apply (Hst i j wi0 wj0); congruence.
Qed.

Lemma watchlist_save_cases st id this :
  snd (save st id this) = st
  ∨ snd (save st id this) = preSave st id this
  ∨ (fst (save st id this) = None
     ∧ snd (save st id this)
       = <[id := persisted (preSave st id this !! id) this]> (preSave st id this)).
Proof.
  unfold save. destruct (validate this); [|by left].
  destruct (duplicateName _ _ _); cbn; auto.
Qed.

Lemma save_written st id this :
  fst (save st id this) = None →
  snd (save st id this)
  = <[id := persisted (preSave st id this !! id) this]> (preSave st id this).
Proof.
  unfold save. destruct (validate this); [|discriminate].
  destruct (duplicateName _ _ _); [discriminate | reflexivity].
Qed.

(** After a watchlist marked default is written, no other watchlist of
    its owner is a default one. *)
Lemma written_default_is_alone st id this j w :
  isDefault this = true →
  (<[id := persisted (preSave st id this !! id) this]> (preSave st id this)) !! j
  = Some w →
  j ≠ id → userId w = userId this → isDefault w = false.
Proof.
  intros Hd Hj Hne Hu. rewrite lookup_insert_ne in Hj by done.
  unfold preSave in Hj. rewrite Hd in Hj.
  apply cleared_watchlist in Hj as (w0 & _ & Hu0 & Hflag).
  destruct (isDefault w) eqn:Hw; [|reflexivity].
  destruct (Hflag eq_refl) as [_ [Hother|Hsame]]; [|done].
  exfalso. apply Hother. congruence.
Qed.

Lemma save_singleDefault st id this :
  singleDefault st → singleDefault (snd (save st id this)).
Proof.
  intros Hst.
  destruct (watchlist_save_cases st id this) as [->|[->|[_ ->]]];
    [exact Hst | by apply preSave_singleDefault |].
  pose proof (preSave_singleDefault st id this Hst) as Hst1.
  intros i j wi wj Hi Hj Hu Hdi Hdj.
  destruct (decide (i = id)) as [->|Hi'], (decide (j = id)) as [->|Hj'];
    [reflexivity | | |].
  - exfalso. rewrite lookup_insert_eq in Hi. injection Hi as <-.
    cbn in Hu, Hdi.
    pose proof (written_default_is_alone st id this j wj Hdi Hj Hj') as Hf.
    rewrite Hf in Hdj; [discriminate | congruence].
  - exfalso. rewrite lookup_insert_eq in Hj. injection Hj as <-.
    cbn in Hu, Hdj.
    pose proof (written_default_is_alone st id this i wi Hdj Hi Hi') as Hf.
    rewrite Hf in Hdi; [discriminate | congruence].
  - rewrite lookup_insert_ne in Hi, Hj by done. by apply (Hst1 i j wi wj).
Qed.

Lemma saves_singleDefault st l : singleDefault st → singleDefault (saves st l).
Proof.
  revert st. unfold saves. induction l as [|[id w] l IH]; intros st Hst; cbn.
  - exact Hst.
  - apply IH. by apply save_singleDefault.
Qed.

Lemma initialize_singleDefault st uid newId :
  singleDefault st → singleDefault (snd (initialize st uid newId)).
Proof.
  intros Hst. unfold initialize. destruct (hasDefault st uid); [exact Hst|].
  pose proof (save_singleDefault st newId
    {| userId := uid; name := "Default Watchlist"; isDefault := true;
       items := defaultStocks; stocks := None; lastUpdated := None |} Hst) as H.
  destruct (save st newId _) as [[e|] st']; exact H.
Qed.

(** C6: at most one watchlist of a user has [isDefault] set, in the
    empty collection and after any sequence of saves, whether a save is
    written or refused; a save that writes a watchlist marked default
    leaves every other watchlist of the same owner with the flag
    cleared; the [/initialize] route keeps the invariant as well. *)
Theorem single_default_invariant :
  singleDefault ∅
  ∧ (∀ st id this, singleDefault st → singleDefault (snd (save st id this)))
  ∧ (∀ st l, singleDefault st → singleDefault (saves st l))
  ∧ (∀ l, singleDefault (saves ∅ l))
  ∧ (∀ st id this j w,
       isDefault this = true → fst (save st id this) = None →
       snd (save st id this) !! j = Some w → j ≠ id →
       userId w = userId this → isDefault w = false)
  ∧ (∀ st uid newId, singleDefault st → singleDefault (snd (initialize st uid newId))).
Proof.
  assert (H0 : singleDefault ∅) by (intros i j wi wj Hi; by rewrite lookup_empty in Hi).
  split; [exact H0|]. split; [apply save_singleDefault|].
  split; [apply saves_singleDefault|]. split; [intros; by apply saves_singleDefault|].
  split; [|apply initialize_singleDefault].
  intros st id this j w Hd Hok Hj Hne Hu.
  rewrite (save_written st id this Hok) in Hj.
  by apply (written_default_is_alone st id this j w).
Qed.

(** Two watchlists of one user saved as default in turn: the second
    save clears the first. *)
Example second_default_clears_first :
  isDefault <$> saves ∅ [("w1", named "u1" "A" true); ("w2", named "u1" "B" true);
                         ("w3", named "u2" "A" true)] !! "w1" = Some false
  ∧ isDefault <$> saves ∅ [("w1", named "u1" "A" true); ("w2", named "u1" "B" true);
                           ("w3", named "u2" "A" true)] !! "w2" = Some true
  ∧ isDefault <$> saves ∅ [("w1", named "u1" "A" true); ("w2", named "u1" "B" true);
                           ("w3", named "u2" "A" true)] !! "w3" = Some true.
Proof. split; [|split]; vm_compute; reflexivity. Qed.




(** A permutation is accepted, a list that misses an entry or names a
    foreign one is refused; adding a stock refuses a repeated entry. *)
Example reorder_examples :
  fst (reorder (listed [infy; tcs; wipro]) "u1" "w1" (Some [wipro; infy; tcs]) 5)
  = Reordered "w1" "Tech" [wipro; infy; tcs]
  ∧ fst (reorder (listed [infy; tcs; wipro]) "u1" "w1" (Some [wipro; infy]) 5)
    = InvalidStocks
  ∧ fst (reorder (listed [infy; tcs]) "u1" "w1" (Some [infy; wipro]) 5)
    = InvalidStock "Stock WIPRO:NSE is not in the watchlist"
  ∧ fst (addStock (listed [infy; tcs]) "u1" "w1" (Some "Infosys") (Some "INFY")
           (Some "NSE") 5)
    = StockExists.
Proof. split; [|split; [|split]]; vm_compute; reflexivity. Qed.


(** The sibling route on the default watchlist, which is given the
    exchange, removes by the pair. *)
Lemma default_route_removes_by_pair st uid sym e now id w cur :
  e ≠ "" →
  findByName st uid "Default" = Some (id, w) → stocks w = Some cur →
  let kept := filter (λ s, ¬ (symbol s = sym ∧ exchange s = e)) cur in
  sublist kept cur
  ∧ (Forall (λ s, ¬ (symbol s = sym ∧ exchange s = e)) cur →
     removeDefaultStock st uid sym (Some e) now = (StockNotFound, st))
  ∧ (Exists (λ s, symbol s = sym ∧ exchange s = e) cur →
     fst (removeDefaultStock st uid sym (Some e) now) = StockRemoved id (name w) kept
     ∨ ∃ err, fst (removeDefaultStock st uid sym (Some e) now) = Failed err).
Proof.
  intros He Hf Hs kept. split; [apply sublist_filter|].
  unfold removeDefaultStock. cbn [falsy_str].
  rewrite bool_decide_eq_false_2 by done. rewrite Hf, Hs. cbn [show].
  fold kept. split.
  - intros Hall. rewrite bool_decide_eq_true_2; [reflexivity|].
    unfold kept. f_equal. by apply filter_all.
  - intros Hex. rewrite bool_decide_eq_false_2.
    + destruct (save st id (assignStocks kept now w)) as [[err|] st']; cbn [fst].
      * right. eexists. reflexivity.
      * left. reflexivity.
    + apply Exists_exists in Hex as (s & Hin & Hm).
      pose proof (length_filter_lt (λ s, ¬ (symbol s = sym ∧ exchange s = e))
                    cur s Hin) as Hlt.
      unfold kept. intros Heq. rewrite Heq in Hlt. apply (Nat.lt_irrefl (length cur)).
      apply Hlt. tauto.
Qed.

(** The schema's own method filters by the pair as well. *)
Lemma removeItem_removes_by_pair (this : Watchlist) sym e :
  items (removeItem this sym (Some e))
  = filter (λ s, ¬ (symbol s = sym ∧ exchange s = e)) (items this)
  ∧ sublist (items (removeItem this sym (Some e))) (items this).
Proof. split; [reflexivity | apply sublist_filter]. Qed.

End WatchlistsProps.
(** * Properties of the further routes, hooks and methods *)

(** ** What a save writes *)

Module SaveProps.
Import Js Mongoose FurtherTerms OrdersProps.

(** An equation between closed terms, settled by evaluation when the
    proof is checked. *)
Ltac evaluated :=
  match goal with |- _ = ?r => vm_cast_no_check (@eq_refl _ r) end.

Lemma persisted_lookup (s : Schema) (old mem : obj) (k : string) :
  persisted s old mem !! k = if declared s k then mem !! k else old !! k.
Proof.
  destruct (declared s k) eqn:Hk.
  { by apply persisted_declared. }
  unfold persisted, strict. rewrite lookup_union, !map_lookup_filter. cbn.
  destruct (mem !! k) as [v|]; cbn.
  - rewrite option_guard_False by (rewrite Hk; discriminate). cbn.
    destruct (old !! k) as [w|]; cbn; [|done].
    rewrite option_guard_True; [done | by rewrite Hk].
  - destruct (old !! k) as [w|]; cbn; [|done].
    rewrite option_guard_True; [done | by rewrite Hk].
Qed.

Lemma findOne_owner (st : gmap string obj) id uid d :
  findOne st id uid = Some d → st !! id = Some d ∧ str d "userId" = Some uid.
Proof.
  unfold findOne. destruct (st !! id) as [o|]; [|done].
  case_bool_decide; [|done]. by intros [= ->].
Qed.

(** A save either fails or writes, at the document's id, its declared
    paths as the hook left them and the other properties as stored. *)
Lemma save_cases s pre st id old mem :
  st !! id = Some old →
  (∃ e, save s pre st id mem = inl e)
  ∨ (∃ mem', validate s mem = [] ∧ pre mem = inr mem'
       ∧ save s pre st id mem = inr (<[id := persisted s old mem']> st)).
Proof.
  intros Hold. unfold save. rewrite Hold. cbn.
  destruct (validate s mem); [|eauto].
  destruct (pre mem); eauto 10.
Qed.

(** A document saved over the stored one agrees with it outside the
    declared paths the route and the hook assigned. *)
Lemma saved_agrees s old mem' ks :
  (∀ k, declared s k = true → k ∉ ks → mem' !! k = old !! k) →
  agreeOutside ks (Some (persisted s old mem')) (Some old).
Proof.
  intros H k Hk. cbn. rewrite persisted_lookup.
  destruct (declared s k) eqn:Hd; [|done]. by apply H.
Qed.

Lemma validate_path (s : Schema) (d : obj) (p : Path) :
  In p s → validate s d = [] → validatePath d p = [].
Proof.
  unfold validate. induction s as [|q s IH]; [done|].
  cbn. intros [->|Hin] H; apply app_eq_nil in H as [H1 H2]; [done|]. by apply IH.
Qed.

End SaveProps.

(** ** What the update routes store *)

Module FootprintProps.
Import Js Validator Mongoose FurtherTerms SaveProps Aux.

(** Declared paths are none of the names the routes assign. *)
Ltac undeclared Hd :=
  let E := fresh in
  intros E; first [rewrite <- E in Hd | rewrite E in Hd];
  vm_compute in Hd; discriminate.

Ltac skip_inserts Hd :=
  repeat (rewrite lookup_insert_ne; [|first [undeclared Hd | set_solver]]).


Example holding_update_keeps_the_stored_price :
  fst (Holdings.update {["h1" := storedHolding]} "u1" "h1" (HoldingsTerms.priced 90) 5)
  = Holdings.HoldingUpdated "h1" None 10 100 90 (-100) (-10)
  ∧ (snd (Holdings.update {["h1" := storedHolding]} "u1" "h1" (HoldingsTerms.priced 90) 5)
       !! "h1" ≫= λ o, num o "currentMarketPrice") = Some 120%float
  ∧ (snd (Holdings.update {["h1" := storedHolding]} "u1" "h1" (HoldingsTerms.priced 90) 5)
       !! "h1" ≫= λ o, o !! "price") = None.
Proof. vm_compute. split; [|split]; reflexivity. Qed.

(** X2.  [PUT /positions/:positionId] assigns qty, avg, price, net, day,
    isLoss and lastUpdated, none of them a path of [PositionsSchema]:
    what a save stores of it is what the pre-save hook sets, the paths
    profitLoss, unrealizedProfitLoss and lastUpdateTime.  Every stored
    position keeps all its other properties, while the answer carries
    the figures of the request. *)
Theorem position_update_stores_only_the_hook_paths st uid id b now j :
  agreeOutside ["profitLoss"; "unrealizedProfitLoss"; "lastUpdateTime"]
    (snd (PositionsRoutes.update st uid id b now) !! j) (st !! j)
  ∧ (is_Some (snd (PositionsRoutes.update st uid id b now) !! j) ↔ is_Some (st !! j))
  ∧ match fst (PositionsRoutes.update st uid id b now) with
    | PositionsRoutes.PositionUpdated _ _ _ q a p net day isLoss =>
        PositionsRoutes.qty b = Some q ∧ PositionsRoutes.avg b = Some a
        ∧ PositionsRoutes.price b = Some p
        ∧ net = ((p - a) * q)%float ∧ day = (((p - a) / a) * 100)%float
        ∧ isLoss = lt net 0
    | _ => True
    end.
Proof.
  unfold PositionsRoutes.update.
  destruct (PositionsRoutes.positionValidation b) eqn:Hv; [|by cbn].
  destruct (findOne st id uid) as [position|] eqn:Hf; [|by cbn].
  apply findOne_owner in Hf as [Hl _].
  set (mem := PositionsRoutes.assignUpdate _ _ _ _ _).
  destruct (save_cases (PositionsDoc.PositionsSchema now) (PositionsDoc.preSave now)
              st id position mem Hl) as [[e ->]|(mem' & _ & Hpre & ->)]; [by cbn|].
  cbn [fst snd]. injection Hpre as <-.
  split; [|split].
  - destruct (decide (j = id)) as [->|Hj].
    + rewrite lookup_insert_eq, Hl. apply saved_agrees. intros k Hd Hk.
      subst mem. unfold PositionsRoutes.assignUpdate. cbn zeta.
      do 3 (rewrite lookup_insert_ne by set_solver). by skip_inserts Hd.
    + rewrite lookup_insert_ne by congruence. done.
  - destruct (decide (j = id)) as [->|Hj].
    + rewrite lookup_insert_eq, Hl. split; eauto.
    + rewrite lookup_insert_ne by congruence. done.
  - unfold PositionsRoutes.positionValidation, check in Hv.
    destruct (PositionsRoutes.qty b) as [q|]; [|by repeat case_match].
    destruct (PositionsRoutes.avg b) as [a|]; [|by repeat case_match].
    destruct (PositionsRoutes.price b) as [p|]; [|by repeat case_match].
    subst mem. unfold PositionsRoutes.assignUpdate, JsString.flag. cbn [to_number].
    by lookups.
Qed.





End FootprintProps.

(** ** Requests and the documents of other users *)

Module IsolationProps.
Import Js Validator Mongoose FurtherTerms SaveProps.

Lemma not_the_found_one (st : gmap string obj) id uid o j d :
  findOne st id uid = Some o → st !! j = Some d → str d "userId" ≠ Some uid →
  id ≠ j.
Proof.
  intros [Hl Ho]%findOne_owner Hj Hd ->. congruence.
Qed.

Lemma saved_elsewhere s pre (st : gmap string obj) id mem j :
  id ≠ j →
  match save s pre st id mem with inr st' => st' !! j | inl _ => st !! j end = st !! j.
Proof.
  intros Hj. unfold save. destruct (validate s mem); [|done].
  destruct (pre mem); [done|]. by rewrite lookup_insert_ne.
Qed.

(** X4.  The routes on one holding, position or order look the document
    up by [_id] and the caller's id together: a document that belongs
    to another user comes through every update, delete, square-off,
    cancel and modify request unchanged, whatever id the request
    names. *)
Theorem requests_leave_the_documents_of_others (st : gmap string obj) uid id j d :
  st !! j = Some d → str d "userId" ≠ Some uid →
  (∀ b now, snd (Holdings.update st uid id b now) !! j = Some d)
  ∧ snd (HoldingsDoc.remove st uid id) !! j = Some d
  ∧ (∀ b now, snd (PositionsRoutes.update st uid id b now) !! j = Some d)
  ∧ snd (PositionsRoutes.remove st uid id) !! j = Some d
  ∧ snd (PositionsRoutes.squareOff st uid id) !! j = Some d
  ∧ (∀ now, snd (Orders.cancel st uid id now) !! j = Some d)
  ∧ (∀ b now, snd (Orders.modify st uid id b now) !! j = Some d).
Proof.
  intros Hj Hd.
  assert (Hne : ∀ o, findOne st id uid = Some o → id ≠ j)
    by (intros o Ho; eapply not_the_found_one; eauto).
  repeat split; intros.
  - unfold Holdings.update. destruct (Holdings.holdingValidation b); [|done].
    destruct (findOne st id uid) as [o|] eqn:Hf; [|done].
    pose proof (saved_elsewhere (Holdings.HoldingsSchema now) (Holdings.preSave now)
                  st id (Holdings.assignUpdate o (to_number (Holdings.qty b))
                           (to_number (Holdings.avg b)) (to_number (Holdings.price b)) now)
                  j (Hne o eq_refl)) as H.
    cbn zeta. destruct (save _ _ _ _ _); cbn; congruence.
  - unfold HoldingsDoc.remove. destruct (findOne st id uid) as [o|] eqn:Hf; [|done].
    cbn. rewrite lookup_delete_ne by eauto. done.
  - unfold PositionsRoutes.update.
    destruct (PositionsRoutes.positionValidation b); [|done].
    destruct (findOne st id uid) as [o|] eqn:Hf; [|done].
    pose proof (saved_elsewhere (PositionsDoc.PositionsSchema now)
                  (PositionsDoc.preSave now) st id
                  (PositionsRoutes.assignUpdate o (to_number (PositionsRoutes.qty b))
                     (to_number (PositionsRoutes.avg b))
                     (to_number (PositionsRoutes.price b)) now)
                  j (Hne o eq_refl)) as H.
    cbn zeta. destruct (save _ _ _ _ _); cbn; congruence.
  - unfold PositionsRoutes.remove. destruct (findOne st id uid) as [o|] eqn:Hf; [|done].
    cbn. rewrite lookup_delete_ne by eauto. done.
  - unfold PositionsRoutes.squareOff.
    destruct (findOne st id uid) as [o|] eqn:Hf; [|done].
    cbn zeta. destruct (num o "net"), (num o "day"); cbn;
      rewrite lookup_delete_ne by eauto; done.
  - unfold Orders.cancel. destruct (findOne st id uid) as [o|] eqn:Hf; [|done].
    destruct (negb (Orders.openStatus o)); [done|].
    pose proof (saved_elsewhere Orders.OrdersSchema Orders.preSave st id
                  (<["lastModified" := VDate now]> (<["status" := VStr "CANCELLED"]> o))
                  j (Hne o eq_refl)) as H.
    cbn zeta. destruct (save _ _ _ _ _); cbn; congruence.
  - unfold Orders.modify. destruct (Orders.orderValidation b); [|done].
    destruct (findOne st id uid) as [o|] eqn:Hf; [|done].
    destruct (negb (Orders.openStatus o)); [done|].
    pose proof (saved_elsewhere Orders.OrdersSchema Orders.preSave st id
                  (Orders.assignModify o b now) j (Hne o eq_refl)) as H.
    cbn zeta. destruct (save _ _ _ _ _); cbn; congruence.
Qed.

Lemma requests_leave_the_documents_of_others_witness :
  PortfolioTerms.threePositions !! "p3" = Some (PortfolioTerms.position "u2" 1 50 50)
  ∧ snd (PositionsRoutes.squareOff PortfolioTerms.threePositions "u1" "p3") !! "p3"
    = Some (PortfolioTerms.position "u2" 1 50 50)
  ∧ snd (PositionsRoutes.remove PortfolioTerms.threePositions "u1" "p3") !! "p3"
    = Some (PortfolioTerms.position "u2" 1 50 50).
Proof.
  assert (H1 : PortfolioTerms.threePositions !! "p3"
               = Some (PortfolioTerms.position "u2" 1 50 50))
    by (vm_compute; reflexivity).
  assert (H2 : str (PortfolioTerms.position "u2" 1 50 50) "userId" ≠ Some "u1")
    by (vm_compute; discriminate).
  split; [exact H1|].
  split;
    apply (requests_leave_the_documents_of_others PortfolioTerms.threePositions
             "u1" "p3" "p3" (PortfolioTerms.position "u2" 1 50 50) H1 H2).
Defined.

End IsolationProps.

(** ** Positions: the routes on one position, the hook, the metrics *)

Module PositionsRoutesProps.
Import Js JsString Validator Mongoose PositionsDoc PositionsRoutes FurtherTerms SaveProps Aux.

Lemma position_validation_passed (b : Body) :
  positionValidation b = [] →
  (product b = Some "CNC" ∨ product b = Some "MIS" ∨ product b = Some "NRML")
  ∧ notEmptyTrimmed (name b) = true
  ∧ (∃ q, qty b = Some q) ∧ (∃ a, avg b = Some a) ∧ (∃ p, price b = Some p).
Proof.
  unfold positionValidation, check. intros H.
  destruct (isIn _ (product b)) eqn:Hp; [|discriminate].
  destruct (notEmptyTrimmed (name b)) eqn:Hn; [|discriminate].
  destruct (isInt (qty b)) eqn:Hq; [|discriminate].
  destruct (isFloatMin _ (avg b)) eqn:Ha; [|discriminate].
  destruct (isFloatMin _ (price b)) eqn:Hpr; [|discriminate].
  split; [|split; [done|split; [|split]]].
  - unfold isIn in Hp. destruct (product b) as [s|]; [|discriminate].
    apply bool_decide_eq_true in Hp. set_unfold.
    destruct Hp as [-> | [-> | [-> | []]]]; eauto.
  - destruct (qty b); [eauto | discriminate].
  - destruct (avg b); [eauto | discriminate].
  - destruct (price b); [eauto | discriminate].
Qed.

(** X5.  [POST /positions/add] never answers 201.  Of the object it
    hands to [new PositionsModel] only userId and product are paths of
    [PositionsSchema]; symbol, quantity, averagePrice and
    lastTradedPrice stay unset, validation reports them, and a request
    that passed the route's own checks is answered 400 "Position
    exists" or the generic 500, with nothing stored.  For such a request
    [product.toUpperCase()] returns the product as it was sent. *)
Theorem position_add_is_never_created st uid (b : Body) newId now :
  bool_decide (statusCode (fst (add st uid b newId now)) = 201%Z) = false
  ∧ snd (add st uid b newId now) = st
  ∧ (positionValidation b = [] →
     let payload :=
       addPayload uid (show (product b)) (trim (default "" (name b)))
         (to_number (qty b)) (to_number (avg b)) (to_number (price b)) now in
     toUpperCase (show (product b)) = show (product b)
     ∧ Forall (λ k, construct (PositionsSchema now) payload !! k = None)
         ["symbol"; "quantity"; "averagePrice"; "lastTradedPrice";
          "name"; "qty"; "avg"; "price"; "net"; "day"; "isLoss"]
     ∧ Forall (λ m, m ∈ validate (PositionsSchema now)
                          (construct (PositionsSchema now) payload))
         ["Stock symbol is required"; "Quantity is required";
          "Average price is required"; "Last traded price is required"]
     ∧ (existsByName st uid (trim (default "" (name b))) (show (product b)) = false →
        add st uid b newId now = (Failed "Failed to add position", st))).
Proof.
  assert (Hmain : positionValidation b = [] →
    let payload :=
      addPayload uid (show (product b)) (trim (default "" (name b)))
        (to_number (qty b)) (to_number (avg b)) (to_number (price b)) now in
    toUpperCase (show (product b)) = show (product b)
    ∧ Forall (λ k, construct (PositionsSchema now) payload !! k = None)
        ["symbol"; "quantity"; "averagePrice"; "lastTradedPrice";
         "name"; "qty"; "avg"; "price"; "net"; "day"; "isLoss"]
    ∧ ∃ pre post, validate (PositionsSchema now) (construct (PositionsSchema now) payload)
        = pre ++ ["Stock symbol is required"; "Quantity is required";
                  "Average price is required"; "Last traded price is required"]
              ++ post).
  { intros Hv payload. subst payload.
    apply position_validation_passed in Hv as (Hp & _).
    generalize (trim (default "" (name b))) (to_number (qty b)) (to_number (avg b))
               (to_number (price b)).
    intros nm q a p.
    assert (Hprod : show (product b) ∈ ["CNC"; "MIS"; "NRML"])
      by (destruct Hp as [-> | [-> | ->]]; cbn; set_solver).
    generalize dependent (show (product b)). intros prod Hprod.
    split; [|split].
    - set_unfold. destruct Hprod as [-> | [-> | [-> | []]]]; reflexivity.
    - set_unfold in Hprod.
      destruct Hprod as [-> | [-> | [-> | []]]];
        repeat (apply Forall_cons_2); try apply Forall_nil_2; vm_compute; reflexivity.
    - set_unfold in Hprod.
      destruct uid as [|c uid];
        [exists ["User ID is required"] | exists []];
        destruct Hprod as [-> | [-> | [-> | []]]]; eexists; vm_compute; reflexivity. }
  assert (Hadd : bool_decide (statusCode (fst (add st uid b newId now)) = 201%Z) = false
                 ∧ snd (add st uid b newId now) = st
                 ∧ (positionValidation b = [] →
                    existsByName st uid (trim (default "" (name b))) (show (product b))
                    = false →
                    add st uid b newId now = (Failed "Failed to add position", st))).
  { unfold add. destruct (positionValidation b) eqn:Hv;
      [|split; [reflexivity|split; [reflexivity|intros [=]]]].
    destruct (Hmain eq_refl) as (_ & _ & pre & post & Hval). cbv zeta in Hval |- *.
    destruct (existsByName _ _ _ _);
      [split; [reflexivity|split; [reflexivity|intros _ [=]]]|].
    match goal with
    | |- context [save ?s ?p st newId ?d] =>
        assert (Hsave : ∃ e, save s p st newId d = inl e)
          by (unfold save; rewrite Hval; destruct pre; cbn; eauto)
    end.
    destruct Hsave as [e ->]. split; [reflexivity|split; reflexivity]. }
  destruct Hadd as (H1 & H2 & H3).
  split; [done|split; [done|]]. intros Hv payload.
  destruct (Hmain Hv) as (Hu & Hk & pre & post & Hval).
  fold payload in Hk, Hval.
  split; [done|split; [done|split; [|by apply H3]]].
  rewrite Hval. repeat (apply Forall_cons_2); try apply Forall_nil_2;
    apply elem_of_app; right; apply elem_of_app; left;
    repeat first [apply list_elem_of_here | apply list_elem_of_further].
Qed.

Example position_add_answers_500 :
  add ∅ "u1" {| product := Some "MIS"; name := Some "INFY"; qty := Some 10%float;
                avg := Some 100%float; price := Some 120%float |} "p1" 0
  = (Failed "Failed to add position", ∅).
Proof. vm_compute. reflexivity. Qed.


Example square_off_of_a_position_without_figures :
  squareOff {["p1" := bareStoredPosition]} "u1" "p1"
  = (Failed "Failed to square off position", ∅)
  ∧ squareOff {["p1" := storedPosition]} "u1" "p1"
    = (SquaredOff "p1" (Some "INFY") (Some "MIS") 200 20, ∅).
Proof. vm_compute. split; reflexivity. Qed.

Lemma product_fold (ps : list obj) (acc : Acc) :
  fold_left (λ acc pos,
      {| accInvestment :=
           (accInvestment acc
            + to_number (num pos "avg") * abs (to_number (num pos "qty")))%float;
         accValue :=
           (accValue acc
            + to_number (num pos "price") * abs (to_number (num pos "qty")))%float;
         accDayPnL := (accDayPnL acc + to_number (num pos "net"))%float |}) ps acc
  = {| accInvestment :=
         fold_left (λ sum p, (sum + to_number (num p "avg")
                                    * abs (to_number (num p "qty")))%float)
                   ps (accInvestment acc);
       accValue :=
         fold_left (λ sum p, (sum + to_number (num p "price")
                                    * abs (to_number (num p "qty")))%float)
                   ps (accValue acc);
       accDayPnL :=
         fold_left (λ sum p, (sum + to_number (num p "net"))%float) ps (accDayPnL acc) |}.
Proof.
  revert acc. induction ps as [|p ps IH]; intros acc; [by destruct acc|].
  cbn [fold_left]. by rewrite IH.
Qed.

(** X7.  The metrics of [GET /positions/product/:type], accumulated in
    one pass over an object, are the metrics [GET /positions] computes
    with its three separate sums over the same positions: same totals,
    same P&L, same unguarded percentage. *)
Theorem product_metrics_are_the_day_metrics (positions : list obj) :
  productMetrics positions = Positions.dayMetrics positions.
Proof.
  unfold productMetrics, Positions.dayMetrics. rewrite product_fold. reflexivity.
Qed.

Lemma preSave_runs now (this : obj) :
  preSave now this
  = inr (<["lastUpdateTime" := VDate now]>
           (<["unrealizedProfitLoss" :=
                VNum (calculateUnrealizedProfitLoss
                        (<["profitLoss" := VNum (calculateProfitLoss this)]> this))]>
              (<["profitLoss" := VNum (calculateProfitLoss this)]> this))).
Proof. reflexivity. Qed.

(** X8.  The pre-save hook of [PositionsSchema] and [updateMarketPrice]
    both leave profitLoss = realizedProfitLoss + unrealizedProfitLoss,
    the unrealized part computed from the document as it is then (for
    [updateMarketPrice]: at the new price).  The profit is computed from
    the buy and sell quantities only: a position built from quantity,
    averagePrice and lastTradedPrice alone has buyQuantity =
    sellQuantity = 0, and the hook stores a profit of 0 for it whatever
    its prices are. *)
Theorem position_profit_is_realized_plus_unrealized :
  (∀ this now this', preSave now this = inr this' →
     num this' "unrealizedProfitLoss" = Some (calculateUnrealizedProfitLoss this')
     ∧ num this' "profitLoss"
       = Some (to_number (num this' "realizedProfitLoss")
               + to_number (num this' "unrealizedProfitLoss"))%float
     ∧ calculateUnrealizedProfitLoss this' = calculateUnrealizedProfitLoss this)
  ∧ (∀ this newPrice,
       let this' := updateMarketPrice this newPrice in
       num this' "lastTradedPrice" = Some newPrice
       ∧ num this' "unrealizedProfitLoss" = Some (calculateUnrealizedProfitLoss this')
       ∧ num this' "profitLoss"
         = Some (to_number (num this' "realizedProfitLoss")
                 + to_number (num this' "unrealizedProfitLoss"))%float)
  ∧ (∀ this, (netQuantity this =? 0)%float = true →
       calculateUnrealizedProfitLoss this = 0%float)
  ∧ (∀ uid sym prod q a ltp now this',
       preSave now (construct (PositionsSchema now) (positionFields uid sym prod q a ltp))
       = inr this' →
       num this' "profitLoss" = Some 0%float
       ∧ num this' "unrealizedProfitLoss" = Some 0%float).
Proof.
  assert (Hcalc : ∀ (this : obj) k v,
            k ∈ ["profitLoss"; "unrealizedProfitLoss"; "lastUpdateTime"] →
            calculateUnrealizedProfitLoss (<[k := v]> this)
            = calculateUnrealizedProfitLoss this).
  { intros this k v Hk.
    unfold calculateUnrealizedProfitLoss, averageBuySellPrice, netQuantity, num.
    set_unfold. destruct Hk as [-> | [-> | [-> | []]]];
      by rewrite !lookup_insert_ne by discriminate. }
  assert (Hreal : ∀ (this : obj) k v,
            k ∈ ["profitLoss"; "unrealizedProfitLoss"; "lastUpdateTime"] →
            num (<[k := v]> this) "realizedProfitLoss" = num this "realizedProfitLoss").
  { intros this k v Hk. unfold num.
    set_unfold. destruct Hk as [-> | [-> | [-> | []]]];
      by rewrite !lookup_insert_ne by discriminate. }
  split; [|split; [|split]].
  - intros this now this' [= <-].
    rewrite !Hcalc by set_solver.
    split; [|split; [|done]].
    + by lookups.
    + rewrite !Hreal by set_solver. unfold calculateProfitLoss. by lookups.
  - intros this newPrice this'. subst this'. unfold updateMarketPrice.
    rewrite !Hcalc by set_solver.
    split; [|split].
    + by lookups.
    + lookups.
      by rewrite (Hcalc _ "unrealizedProfitLoss"), (Hcalc _ "profitLoss") by set_solver.
    + rewrite !Hreal by set_solver. unfold calculateProfitLoss. by lookups.
  - intros this H. unfold calculateUnrealizedProfitLoss. by rewrite H.
  - intros uid sym prod q a ltp now this' H.
    rewrite preSave_runs in H. apply (inj inr) in H as <-.
    split; vm_compute; reflexivity.
Qed.

End PositionsRoutesProps.

(** ** Further facts of binary64 arithmetic *)

Module IeeeProps.
Import Js.

(** Subtracting zero changes no number. *)
Lemma sub_zero_r (x : float) : (x - 0)%float = x.
Proof.
  apply Prim2SF_inj. rewrite FloatAxioms.sub_spec.
  change (Prim2SF 0) with (S754_zero false).
  destruct (Prim2SF x) as [s|s| |s m e]; try reflexivity.
  destruct s; reflexivity.
Qed.

(** A number that is at least 0.01 is truthy. *)
Lemma at_least_a_cent_is_truthy (p : float) :
  (0.01 <=? p)%float = true → falsy_num (Some p) = false.
Proof.
  unfold falsy_num, is_nan.
  rewrite FloatAxioms.leb_spec, !FloatAxioms.eqb_spec.
  change (Prim2SF 0) with (S754_zero false).
  assert (H : ∃ m e, Prim2SF 0.01 = S754_finite false m e)
    by (do 2 eexists; vm_compute; reflexivity).
  destruct H as (m0 & e0 & ->).
  unfold SFleb, SFeqb.
  destruct (Prim2SF p) as [sp|sp| |sp mp ep]; cbn [SFcompare]; try discriminate.
  - destruct sp; [discriminate | reflexivity].
  - destruct sp; [discriminate|]. intros _.
    by rewrite Z.compare_refl, Pos.compare_cont_refl.
Qed.

End IeeeProps.

(** ** Orders: the OPEN status and the answers of POST /new *)

Module OrdersRoutesProps.
Import Js Validator Mongoose Orders FurtherTerms SaveProps Aux.

Lemma statusPath_declared : In statusPath OrdersSchema.
Proof. unfold OrdersSchema, statusPath. cbn. tauto. Qed.

Lemma valid_status (order : obj) s :
  validate OrdersSchema order = [] → str order "status" = Some s →
  s ∈ ["PENDING"; "EXECUTED"; "CANCELLED"; "REJECTED"].
Proof.
  intros Hv Hs. apply (validate_path _ _ _ statusPath_declared) in Hv.
  unfold str in Hs. unfold validatePath, statusPath in Hv. cbn in Hv.
  destruct (order !! "status") as [[| s' | |]|]; try discriminate.
  injection Hs as ->. cbn in Hv. by case_bool_decide.
Qed.

(** X9.  The routes let an order be cancelled or modified when its
    status is PENDING or OPEN; the schema's [isModifiable] says PENDING
    only, and OPEN is no value of the status enum.  On an order that
    passes the schema's validation the two tests agree, and a modify
    request for a stored order whose status is OPEN passes the route's
    test, fails the validation of the save and is answered 500 with
    nothing stored. *)
Theorem open_is_no_status_of_a_valid_order :
  (∀ order, validate OrdersSchema order = [] → openStatus order = isModifiable order)
  ∧ (∀ st uid id b now order,
       findOne st id uid = Some order → str order "status" = Some "OPEN" →
       orderValidation b = [] →
       openStatus order = true ∧ isModifiable order = false
       ∧ modify st uid id b now = (Failed "Failed to modify order", st)).
Proof.
  split.
  - intros order Hv. unfold openStatus, isModifiable.
    destruct (str order "status") as [s|] eqn:Hs; [|done].
    pose proof (valid_status order s Hv Hs) as Hin.
    set_unfold. destruct Hin as [-> | [-> | [-> | [-> | []]]]]; reflexivity.
  - intros st uid id b now order Hf Hs Hv.
    assert (Ho : openStatus order = true) by (unfold openStatus; by rewrite Hs).
    split; [done|]. split; [unfold isModifiable; by rewrite Hs|].
    unfold modify. rewrite Hv, Hf, Ho. cbn [negb].
    assert (Hs' : str (assignModify order b now) "status" = Some "OPEN").
    { rewrite <- Hs. unfold assignModify, assignNum, str.
      destruct (triggerPrice b), (price b), (qty b);
        by repeat first [ rewrite lookup_insert_ne by discriminate
                        | rewrite lookup_delete_ne by discriminate ]. }
    destruct (validate OrdersSchema (assignModify order b now)) as [|e es] eqn:Hval.
    + apply (valid_status _ _ Hval) in Hs'. set_unfold in Hs'.
      destruct Hs' as [? | [? | [? | [? | []]]]]; discriminate.
    + unfold save. by rewrite Hval.
Qed.

Example open_order_cannot_be_modified :
  modify {["o1" := <["status" := VStr "OPEN"]> OrdersTerms.pendingOrder]} "u1" "o1"
         (OrdersTerms.limitAt 101) 9
  = (Failed "Failed to modify order",
     {["o1" := <["status" := VStr "OPEN"]> OrdersTerms.pendingOrder]}).
Proof. evaluated. Qed.

(** X10.  [POST /orders/new] has two answers only.  A request that
    fails the route's checks gets 400 with the messages; every other
    request gets the generic 500 and nothing is stored, because the
    order is built under the names name, qty and mode and fails the
    schema's validation.  The route's own "Price is required for LIMIT
    orders" answer cannot occur: the checks before it demand a price of
    at least 0.01. *)
Theorem place_order_answers_400_or_500 st uid b newId now :
  (orderValidation b = [] →
   placeOrder st uid b newId now = (Failed "Failed to place order", st))
  ∧ (∀ e es, orderValidation b = e :: es →
     placeOrder st uid b newId now = (ValidationErrors (e :: es), st))
  ∧ fst (placeOrder st uid b newId now) ≠ PriceRequired.
Proof.
  assert (H1 : orderValidation b = [] →
               placeOrder st uid b newId now = (Failed "Failed to place order", st)).
  { intros Hv. unfold placeOrder. rewrite Hv.
    destruct (OrdersProps.order_validation_passed b Hv)
      as (_ & _ & (p & Hp & Hmin) & _).
    rewrite Hp. unfold isFloatMin in Hmin. apply andb_prop in Hmin as [_ Hmin].
    rewrite (IeeeProps.at_least_a_cent_is_truthy p Hmin), andb_false_r. cbv zeta.
    match goal with
    | |- context [construct OrdersSchema (newPayload ?a ?b ?c ?d ?e ?f ?g ?h ?i)] =>
        destruct (OrdersProps.new_order_is_invalid a b c d e f g h i) as (e' & es & He)
    end.
    unfold save. by rewrite He. }
  split; [done|]. split.
  - intros e es Hv. unfold placeOrder. by rewrite Hv.
  - destruct (orderValidation b) as [|e es] eqn:Hv.
    + by rewrite (H1 eq_refl).
    + unfold placeOrder. by rewrite Hv.
Qed.

Example limit_order_answers_500 :
  placeOrder ∅ "u1" (OrdersTerms.limitAt 100) "o1" 0
  = (Failed "Failed to place order", ∅).
Proof. vm_compute. reflexivity. Qed.

End OrdersRoutesProps.

(** ** Holdings: schema methods, deletion *)

Module HoldingsDocProps.
Import Js Validator Mongoose Holdings HoldingsDoc FurtherTerms SaveProps Aux.

(** X11.  [updateMarketPrice] recomputes what the schema's defaults
    compute at construction: a new holding whose price is then updated
    is, path by path, the holding that would have been built at the new
    price, but for collateralValue, which [updateMarketPrice] leaves at
    its value for the old price. *)
Theorem update_market_price_agrees_with_the_defaults uid sym q a p0 p now :
  agreeOutside ["collateralValue"]
    (Some (updateMarketPrice
             (construct (HoldingsSchema now) (holdingFields uid sym q a p0)) p))
    (Some (construct (HoldingsSchema now) (holdingFields uid sym q a p)))
  ∧ num (updateMarketPrice
           (construct (HoldingsSchema now) (holdingFields uid sym q a p0)) p)
        "collateralValue"
    = num (construct (HoldingsSchema now) (holdingFields uid sym q a p0))
          "collateralValue"
  ∧ num (updateMarketPrice
           (construct (HoldingsSchema now) (holdingFields uid sym q a p0)) p)
        "currentValue" = Some (q * p)%float
  ∧ num (updateMarketPrice
           (construct (HoldingsSchema now) (holdingFields uid sym q a p0)) p)
        "profitLoss" = Some (q * p - q * a)%float
  ∧ num (updateMarketPrice
           (construct (HoldingsSchema now) (holdingFields uid sym q a p0)) p)
        "profitLossPercentage" = Some ((q * p - q * a) / (q * a) * 100)%float.
Proof.
  split; [|repeat split; evaluated].
  assert (H : delete "collateralValue"
                (updateMarketPrice
                   (construct (HoldingsSchema now) (holdingFields uid sym q a p0)) p)
              = delete "collateralValue"
                  (construct (HoldingsSchema now) (holdingFields uid sym q a p)))
    by evaluated.
  intros k Hk.
  assert (Hne : "collateralValue" ≠ k) by (intros <-; apply Hk, list_elem_of_here).
  match goal with
  | |- (Some ?d ≫= _) = (Some ?d' ≫= _) => change (d !! k = d' !! k)
  end.
  rewrite <- (lookup_delete_ne (updateMarketPrice _ _) "collateralValue" k Hne).
  rewrite H. by rewrite lookup_delete_ne.
Qed.

(** X12.  Nothing of a new holding is pledged or held as collateral:
    its [availableQuantity] is its quantity, and [canSell] accepts
    exactly the quantities that do not exceed it. *)
Theorem new_holding_can_sell_its_quantity uid sym q a p now n :
  availableQuantity (construct (HoldingsSchema now) (holdingFields uid sym q a p)) = q
  ∧ canSell (construct (HoldingsSchema now) (holdingFields uid sym q a p)) n
    = (n <=? q)%float.
Proof.
  assert (H : availableQuantity
                (construct (HoldingsSchema now) (holdingFields uid sym q a p))
              = (q - 0 - 0)%float) by (vm_compute; reflexivity).
  split; [by rewrite H, !IeeeProps.sub_zero_r|].
  unfold canSell, Js.ge. by rewrite H, !IeeeProps.sub_zero_r.
Qed.


End HoldingsDocProps.

(** ** Watchlists: what the routes store, and what they leave alone *)

Module WatchlistsRoutesProps.
Import Js Validator Watchlists WatchlistsDoc WatchlistsTerms FurtherTerms WatchlistsProps.

Lemma preSave_content st id this j :
  content <$> preSave st id this !! j = content <$> st !! j.
Proof.
  unfold preSave. destruct (isDefault this); [|done].
  rewrite clearOtherDefaults_lookup. destruct (st !! j) as [w|]; [|done].
  cbn. by destruct (_ && _).
Qed.

Lemma preSave_foreign st id this j w :
  st !! j = Some w → userId w ≠ userId this → preSave st id this !! j = Some w.
Proof.
  intros Hj Hu. unfold preSave. destruct (isDefault this); [|done].
  rewrite clearOtherDefaults_lookup, Hj. cbn.
  by rewrite bool_decide_eq_false_2.
Qed.

Lemma found_watchlist_owner st id uid w :
  findOne st id uid = Some w → st !! id = Some w ∧ userId w = uid.
Proof.
  unfold findOne. destruct (st !! id) as [o|]; [|done].
  case_bool_decide; [|done]. by intros [= ->].
Qed.

Lemma findByName_owner st uid nm id w :
  findByName st uid nm = Some (id, w) →
  st !! id = Some w ∧ userId w = uid ∧ name w = nm.
Proof.
  unfold findByName.
  destruct (list_find _ (map_to_list st)) as [[i [k o]]|] eqn:Hfind; [|done].
  cbn. intros [= -> ->].
  apply list_find_Some in Hfind as (Hi & [Hu Hn] & _).
  apply list_elem_of_lookup_2, elem_of_map_to_list in Hi. by cbn in *.
Qed.

(** A save of a stored watchlist under its own owner and items writes
    back its stored stocks, items, owner and time stamp. *)
Lemma save_content st id this old j :
  st !! id = Some old → userId this = userId old → items this = items old →
  (λ w, (userId w, items w, stocks w, lastUpdated w)) <$> snd (save st id this) !! j
  = (λ w, (userId w, items w, stocks w, lastUpdated w)) <$> st !! j.
Proof.
  intros Hold Hu Hi.
  assert (Hpre : ∀ k, (λ w, (userId w, items w, stocks w, lastUpdated w))
                        <$> preSave st id this !! k
                      = (λ w, (userId w, items w, stocks w, lastUpdated w)) <$> st !! k).
  { intros k. pose proof (preSave_content st id this k) as H.
    destruct (preSave st id this !! k) as [w1|], (st !! k) as [w2|];
      cbn in *; try done. unfold content in H. congruence. }
  destruct (watchlist_save_cases st id this) as [-> | [-> | [_ ->]]]; [done | apply Hpre |].
  destruct (decide (j = id)) as [->|Hj].
  - rewrite lookup_insert_eq, Hold. cbn.
    specialize (Hpre id). rewrite Hold in Hpre.
    destruct (preSave st id this !! id) as [w1|]; [|done]. cbn in *.
    rewrite Hu, Hi. congruence.
  - rewrite lookup_insert_ne by congruence. apply Hpre.
Qed.

Ltac saved_route Hl :=
  match goal with
  | |- context [save ?st ?id (assignStocks ?l ?now ?w)] =>
      let H := fresh in
      pose proof (λ j, save_content st id (assignStocks l now w) w j Hl
                         eq_refl eq_refl) as H;
      destruct (save st id (assignStocks l now w)) as [[e|] st']; cbn [fst snd] in *;
      apply H
  end.

(** X14.  The stock routes read and assign [watchlist.stocks], which is
    no path of [WatchlistSchema] (the schema's array is [items]).
    Whatever they answer, "Stock added" with 201 included, the add,
    remove, reorder and default-remove routes leave the stocks, the
    items, the owner and the time stamp of every stored watchlist as
    they were. *)
Theorem stock_routes_store_no_stocks st uid id j :
  let kept (st' : gmap string Watchlist) :=
    (λ w, (userId w, items w, stocks w, lastUpdated w)) <$> st' !! j in
  (∀ nm sym exch now, kept (snd (addStock st uid id nm sym exch now)) = kept st)
  ∧ (∀ sym now, kept (snd (removeStock st uid id sym now)) = kept st)
  ∧ (∀ new now, kept (snd (reorder st uid id new now)) = kept st)
  ∧ (∀ sym exch now, kept (snd (removeDefaultStock st uid sym exch now)) = kept st).
Proof.
  intros kept. subst kept. cbv beta. split; [|split; [|split]].
  - intros nm sym exch now. unfold addStock.
    destruct (check _ _ ++ _); [|done].
    destruct (findOne st id uid) as [w|] eqn:Hf; [|done].
    apply found_watchlist_owner in Hf as [Hl _].
    destruct (stocks w) as [cur|]; [|done].
    destruct (existsb _ cur); [done|]. cbv zeta. saved_route Hl.
  - intros sym now. unfold removeStock.
    destruct (findOne st id uid) as [w|] eqn:Hf; [|done].
    apply found_watchlist_owner in Hf as [Hl _].
    destruct (stocks w) as [cur|]; [|done].
    destruct (list_find _ cur) as [[i s]|]; [|done]. cbv zeta. saved_route Hl.
  - intros new now. unfold reorder. destruct new as [new|]; [|done].
    destruct (findOne st id uid) as [w|] eqn:Hf; [|done].
    apply found_watchlist_owner in Hf as [Hl _].
    destruct (stocks w) as [cur|]; [|done]. cbv zeta.
    destruct (negb _); [done|].
    destruct (list_find _ new) as [[i s]|]; [done|]. saved_route Hl.
  - intros sym exch now. unfold removeDefaultStock.
    destruct (falsy_str exch); [done|].
    destruct (findByName st uid "Default") as [[id' w]|] eqn:Hf; [|done].
    apply findByName_owner in Hf as (Hl & _ & _).
    destruct (stocks w) as [cur|]; [|done]. cbv zeta.
    case_bool_decide; [done|]. saved_route Hl.
Qed.

Example added_stock_is_not_stored :
  fst (addStock (listed [infy; tcs]) "u1" "w1" (Some "Wipro") (Some "WIPRO")
         (Some "NSE") 5)
  = StockAdded "w1" "Tech"
      [infy; tcs; {| symbol := "WIPRO"; exchange := "NSE"; stockName := Some "Wipro" |}]
  ∧ stocks <$> snd (addStock (listed [infy; tcs]) "u1" "w1" (Some "Wipro")
                      (Some "WIPRO") (Some "NSE") 5) !! "w1"
    = Some (Some [infy; tcs]).
Proof. vm_compute. split; reflexivity. Qed.

(** What a watchlist looks like once [save] has written it under a
    fresh id. *)
Lemma save_fresh st id this st' :
  st !! id = None → save st id this = (None, st') →
  st' !! id = Some {| userId := userId this; name := trim (name this);
                      isDefault := isDefault this; items := items this;
                      stocks := None; lastUpdated := None |}.
Proof.
  intros Hfresh Hs.
  pose proof (save_written st id this) as Hw. rewrite Hs in Hw.
  cbn [fst snd] in Hw. rewrite Hw by done. rewrite lookup_insert_eq.
  assert (Hnone : preSave st id this !! id = None).
  { pose proof (preSave_content st id this id) as H. rewrite Hfresh in H.
    by destruct (preSave st id this !! id). }
  by rewrite Hnone.
Qed.

Lemma no_stocks_no_route st uid id w :
  st !! id = Some w → userId w = uid → stocks w = None →
  (∀ nm sym exch now,
     (∃ es, addStock st uid id nm sym exch now = (Watchlists.ValidationErrors es, st))
     ∨ addStock st uid id nm sym exch now = (Watchlists.Failed "Failed to add stock", st))
  ∧ (∀ sym now, removeStock st uid id sym now
                = (Watchlists.Failed "Failed to remove stock", st))
  ∧ (∀ new now, reorder st uid id (Some new) now
                = (Watchlists.Failed "Failed to reorder watchlist", st)).
Proof.
  intros Hl Hu Hs.
  assert (Hf : findOne st id uid = Some w)
    by (unfold findOne; rewrite Hl; by rewrite bool_decide_eq_true_2).
  split; [|split].
  - intros nm sym exch now. unfold addStock.
    destruct (check _ _ ++ _); [|eauto]. right. by rewrite Hf, Hs.
  - intros sym now. unfold removeStock. by rewrite Hf, Hs.
  - intros new now. unfold reorder. by rewrite Hf, Hs.
Qed.

(** X15.  [POST /watchlist/create] builds the watchlist with
    [stocks: []], which the schema drops, and [POST /watchlist/initialize]
    fills [items]: a watchlist either route has stored (under a fresh
    id) has no [stocks], and the routes that read [watchlist.stocks]
    fail on it. Every add request that passes the route's checks, every
    remove and every reorder request for it is answered 500, and the
    collection stays as it is. *)
Theorem created_watchlist_takes_no_stock st uid newId st' :
  st !! newId = None →
  (∃ nm nm', create st uid nm newId = (WatchlistCreated newId nm', st'))
  ∨ (∃ nm' l, initialize st uid newId = (Initialized newId nm' l, st')) →
  (stocks <$> st' !! newId) = Some None
  ∧ (∀ nm sym exch now,
       (∃ es, addStock st' uid newId nm sym exch now
              = (Watchlists.ValidationErrors es, st'))
       ∨ addStock st' uid newId nm sym exch now
         = (Watchlists.Failed "Failed to add stock", st'))
  ∧ (∀ sym now, removeStock st' uid newId sym now
                = (Watchlists.Failed "Failed to remove stock", st'))
  ∧ (∀ new now, reorder st' uid newId (Some new) now
                = (Watchlists.Failed "Failed to reorder watchlist", st')).
Proof.
  intros Hfresh Hroute.
  assert (Hw : ∃ w, st' !! newId = Some w ∧ userId w = uid ∧ stocks w = None).
  { destruct Hroute as [(nm & nm' & Hc)|(nm' & l & Hi)].
    - unfold create in Hc. destruct (check _ _); [|discriminate].
      destruct (findByName _ _ _); [discriminate|]. cbv zeta in Hc.
      destruct (save st newId _) as [[e|] st1] eqn:Hs; [discriminate|].
      injection Hc as _ <-. apply (save_fresh _ _ _ _ Hfresh) in Hs. eauto.
    - unfold initialize in Hi. destruct (hasDefault st uid); [discriminate|].
      cbv zeta in Hi.
      destruct (save st newId _) as [[e|] st1] eqn:Hs; [discriminate|].
      injection Hi as _ _ <-. apply (save_fresh _ _ _ _ Hfresh) in Hs. eauto. }
  destruct Hw as (w & Hl & Hu & Hs).
  split; [by rewrite Hl; cbn; rewrite Hs|].
  by apply (no_stocks_no_route st' uid newId w).
Qed.

Lemma created_watchlist_takes_no_stock_witness :
  create ∅ "u1" (Some "Tech") "w1" = (WatchlistCreated "w1" "Tech", listed_created)
  ∧ addStock listed_created "u1" "w1" (Some "Infosys") (Some "INFY") (Some "NSE") 5
    = (Watchlists.Failed "Failed to add stock", listed_created)
  ∧ removeStock listed_created "u1" "w1" "INFY" 5
    = (Watchlists.Failed "Failed to remove stock", listed_created).
Proof.
  assert (Hc : create ∅ "u1" (Some "Tech") "w1"
               = (WatchlistCreated "w1" "Tech", listed_created))
    by (vm_compute; reflexivity).
  pose proof (created_watchlist_takes_no_stock ∅ "u1" "w1" listed_created
                (lookup_empty "w1")
                (or_introl (ex_intro _ (Some "Tech") (ex_intro _ "Tech" Hc))))
    as (_ & Hadd & Hrem & _).
  split; [exact Hc|]. split; [|apply Hrem].
  destruct (Hadd (Some "Infosys") (Some "INFY") (Some "NSE") 5%Z) as [[es H]|H];
    [|exact H].
  exfalso. vm_compute in H. discriminate.
Defined.

Lemma delete_singleDefault (st : gmap string Watchlist) id :
  singleDefault st → singleDefault (delete id st).
Proof.
  intros Hst i j wi wj Hi Hj. apply lookup_delete_Some in Hi as [_ Hi].
  apply lookup_delete_Some in Hj as [_ Hj]. by apply (Hst i j wi wj).
Qed.

(** X16.  Every route of the watchlist router that writes keeps the
    collection at one default watchlist per user at most: the add,
    remove, reorder and default-remove routes, creation, deletion and
    initialisation. *)
Theorem every_watchlist_route_keeps_one_default st uid :
  singleDefault st →
  (∀ nm newId, singleDefault (snd (create st uid nm newId)))
  ∧ (∀ id, singleDefault (snd (remove st uid id)))
  ∧ (∀ id nm sym exch now, singleDefault (snd (addStock st uid id nm sym exch now)))
  ∧ (∀ id sym now, singleDefault (snd (removeStock st uid id sym now)))
  ∧ (∀ id new now, singleDefault (snd (reorder st uid id new now)))
  ∧ (∀ sym exch now, singleDefault (snd (removeDefaultStock st uid sym exch now)))
  ∧ (∀ newId, singleDefault (snd (initialize st uid newId))).
Proof.
  intros Hst.
  repeat split.
  - intros nm newId. unfold create. destruct (check _ _); [|done].
    destruct (findByName _ _ _); [done|]. cbv zeta.
    pose proof (save_singleDefault st newId
                  {| userId := uid; name := trim (show nm); isDefault := false;
                     items := []; stocks := None; lastUpdated := None |} Hst) as H.
    by destruct (save st newId _) as [[e|] st1].
  - intros id. unfold remove. destruct (findOne st id uid); [|done].
    by apply delete_singleDefault.
  - intros id nm sym exch now. unfold addStock.
    destruct (check _ _ ++ _); [|done].
    destruct (findOne st id uid) as [w|]; [|done].
    destruct (stocks w) as [cur|]; [|done].
    destruct (existsb _ cur); [done|]. cbv zeta.
    match goal with |- context [save st id ?this] =>
      pose proof (save_singleDefault st id this Hst) as H;
      by destruct (save st id this) as [[e|] st1] end.
  - intros id sym now. unfold removeStock.
    destruct (findOne st id uid) as [w|]; [|done].
    destruct (stocks w) as [cur|]; [|done].
    destruct (list_find _ cur) as [[i s]|]; [|done]. cbv zeta.
    match goal with |- context [save st id ?this] =>
      pose proof (save_singleDefault st id this Hst) as H;
      by destruct (save st id this) as [[e|] st1] end.
  - intros id new now. unfold reorder. destruct new as [new|]; [|done].
    destruct (findOne st id uid) as [w|]; [|done].
    destruct (stocks w) as [cur|]; [|done]. cbv zeta.
    destruct (negb _); [done|].
    destruct (list_find _ new) as [[i s]|]; [done|].
    match goal with |- context [save st id ?this] =>
      pose proof (save_singleDefault st id this Hst) as H;
      by destruct (save st id this) as [[e|] st1] end.
  - intros sym exch now. unfold removeDefaultStock.
    destruct (falsy_str exch); [done|].
    destruct (findByName st uid "Default") as [[id' w]|]; [|done].
    destruct (stocks w) as [cur|]; [|done]. cbv zeta.
    case_bool_decide; [done|].
    match goal with |- context [save st id' ?this] =>
      pose proof (save_singleDefault st id' this Hst) as Hsd;
      by destruct (save st id' this) as [[e|] st1] end.
  - intros newId. by apply initialize_singleDefault.
Qed.

Lemma every_watchlist_route_keeps_one_default_witness :
  singleDefault (listed [infy; tcs])
  ∧ singleDefault (snd (initialize (listed [infy; tcs]) "u1" "w2"))
  ∧ singleDefault (snd (remove (listed [infy; tcs]) "u1" "w1")).
Proof.
  assert (H : singleDefault (listed [infy; tcs])).
  { intros i j wi wj Hi Hj _ _ _. unfold listed in Hi, Hj.
    apply lookup_singleton_Some in Hi as [<- _].
    by apply lookup_singleton_Some in Hj as [<- _]. }
  split; [exact H|]. split.
  - apply (every_watchlist_route_keeps_one_default (listed [infy; tcs]) "u1" H).
  - apply (every_watchlist_route_keeps_one_default (listed [infy; tcs]) "u1" H).
Defined.

Lemma save_foreign st id this j w :
  st !! j = Some w → userId w ≠ userId this → id ≠ j →
  snd (save st id this) !! j = Some w.
Proof.
  intros Hj Hu Hne.
  pose proof (preSave_foreign st id this j w Hj Hu) as Hpre.
  destruct (watchlist_save_cases st id this) as [-> | [-> | [_ ->]]]; [done..|].
  by rewrite lookup_insert_ne.
Qed.

(** X17.  A watchlist of another user comes through every request
    unchanged: the routes look a watchlist up together with the
    caller's id, and the [updateMany] of the pre-save hook is
    restricted to the owner of the saved watchlist.  (Creation and
    initialisation write under a fresh id.) *)
Theorem watchlist_requests_leave_the_watchlists_of_others st uid j w :
  st !! j = Some w → userId w ≠ uid →
  (∀ id nm sym exch now, snd (addStock st uid id nm sym exch now) !! j = Some w)
  ∧ (∀ id sym now, snd (removeStock st uid id sym now) !! j = Some w)
  ∧ (∀ id new now, snd (reorder st uid id new now) !! j = Some w)
  ∧ (∀ sym exch now, snd (removeDefaultStock st uid sym exch now) !! j = Some w)
  ∧ (∀ id, snd (remove st uid id) !! j = Some w)
  ∧ (∀ nm newId, st !! newId = None → snd (create st uid nm newId) !! j = Some w)
  ∧ (∀ newId, st !! newId = None → snd (initialize st uid newId) !! j = Some w).
Proof.
  intros Hj Hu.
  assert (Hfound : ∀ id o, st !! id = Some o → userId o = uid → id ≠ j)
    by (intros id o Ho Huo ->; congruence).
  assert (Hsave : ∀ id l now o, st !! id = Some o → userId o = uid →
            snd (save st id (assignStocks l now o)) !! j = Some w).
  { intros id l now o Ho Huo. apply save_foreign; [done| |by eauto].
    cbn. congruence. }
  repeat split.
  - intros id nm sym exch now. unfold addStock.
    destruct (check _ _ ++ _); [|done].
    destruct (findOne st id uid) as [o|] eqn:Hf; [|done].
    apply found_watchlist_owner in Hf as [Hl Ho].
    destruct (stocks o) as [cur|]; [|done].
    destruct (existsb _ cur); [done|]. cbv zeta.
    match goal with |- context [save st ?i (assignStocks ?l ?n ?o')] =>
      specialize (Hsave i l n o' Hl Ho); by destruct (save st i _) as [[e|] st1] end.
  - intros id sym now. unfold removeStock.
    destruct (findOne st id uid) as [o|] eqn:Hf; [|done].
    apply found_watchlist_owner in Hf as [Hl Ho].
    destruct (stocks o) as [cur|]; [|done].
    destruct (list_find _ cur) as [[i s]|]; [|done]. cbv zeta.
    match goal with |- context [save st ?i (assignStocks ?l ?n ?o')] =>
      specialize (Hsave i l n o' Hl Ho); by destruct (save st i _) as [[e|] st1] end.
  - intros id new now. unfold reorder. destruct new as [new|]; [|done].
    destruct (findOne st id uid) as [o|] eqn:Hf; [|done].
    apply found_watchlist_owner in Hf as [Hl Ho].
    destruct (stocks o) as [cur|]; [|done]. cbv zeta.
    destruct (negb _); [done|].
    destruct (list_find _ new) as [[i s]|]; [done|].
    match goal with |- context [save st ?i (assignStocks ?l ?n ?o')] =>
      specialize (Hsave i l n o' Hl Ho); by destruct (save st i _) as [[e|] st1] end.
  - intros sym exch now. unfold removeDefaultStock.
    destruct (falsy_str exch); [done|].
    destruct (findByName st uid "Default") as [[id' o]|] eqn:Hf; [|done].
    apply findByName_owner in Hf as (Hl & Ho & _).
    destruct (stocks o) as [cur|]; [|done]. cbv zeta.
    case_bool_decide; [done|].
    match goal with |- context [save st ?i (assignStocks ?l ?n ?o')] =>
      specialize (Hsave i l n o' Hl Ho); by destruct (save st i _) as [[e|] st1] end.
  - intros id. unfold remove.
    destruct (findOne st id uid) as [o|] eqn:Hf; [|done].
    apply found_watchlist_owner in Hf as [Hl Ho]. cbn.
    rewrite lookup_delete_ne by eauto. done.
  - intros nm newId Hfresh. unfold create. destruct (check _ _); [|done].
    destruct (findByName _ _ _); [done|]. cbv zeta.
    pose proof (save_foreign st newId
                  {| userId := uid; name := trim (show nm); isDefault := false;
                     items := []; stocks := None; lastUpdated := None |} j w Hj Hu) as H.
    destruct (save st newId _) as [[e|] st1]; apply H; congruence.
  - intros newId Hfresh. unfold initialize. destruct (hasDefault st uid); [done|].
    cbv zeta.
    pose proof (save_foreign st newId
                  {| userId := uid; name := "Default Watchlist"; isDefault := true;
                     items := defaultStocks; stocks := None; lastUpdated := None |}
                  j w Hj Hu) as H.
    destruct (save st newId _) as [[e|] st1]; apply H; congruence.
Qed.

Lemma watchlist_requests_leave_the_watchlists_of_others_witness :
  isDefault <$> (snd (initialize {["w9" := named "u2" "Mine" true]} "u1" "w1") !! "w9")
  = Some true
  ∧ snd (remove {["w9" := named "u2" "Mine" true]} "u1" "w9") !! "w9"
    = Some (named "u2" "Mine" true).
Proof.
  assert (H1 : ({["w9" := named "u2" "Mine" true]} : gmap string Watchlist) !! "w9"
               = Some (named "u2" "Mine" true)) by (vm_compute; reflexivity).
  assert (H2 : userId (named "u2" "Mine" true) ≠ "u1") by discriminate.
  pose proof (watchlist_requests_leave_the_watchlists_of_others _ "u1" "w9" _ H1 H2)
    as (_ & _ & _ & _ & Hrem & _ & Hinit).
  split; [|apply Hrem].
  rewrite Hinit; [reflexivity | vm_compute; reflexivity].
Defined.





Lemma findByName_None st uid nm :
  findByName st uid nm = None ↔
  ∀ k w, st !! k = Some w → ¬ (userId w = uid ∧ name w = nm).
Proof.
  unfold findByName. split.
  - intros H k w Hk Hw.
    destruct (list_find _ (map_to_list st)) as [r|] eqn:Hfind; [discriminate|].
    apply list_find_None in Hfind. rewrite Forall_forall in Hfind.
    apply (Hfind (k, w)); [by apply elem_of_map_to_list | done].
  - intros H. destruct (list_find _ (map_to_list st)) as [[i [k w]]|] eqn:Hfind; [|done].
    apply list_find_Some in Hfind as (Hi & Hw & _).
    apply list_elem_of_lookup_2, elem_of_map_to_list in Hi.
    exfalso. by apply (H k w).
Qed.

(** X20.  [DELETE /watchlist/default/stocks/:symbol] addresses the
    caller's watchlist named "Default"; [POST /watchlist/initialize]
    stores the default watchlist under the name "Default Watchlist".
    For a user without a watchlist named "Default", the default
    watchlist that initialisation has stored is not found by the
    default-remove route: it answers 400 when no exchange is given and
    404 "Watchlist not found" otherwise. *)
Theorem initialized_default_is_not_the_default_addressed st uid newId :
  st !! newId = None → findByName st uid "Default" = None →
  let st' := snd (initialize st uid newId) in
  (∀ l nm, fst (initialize st uid newId) = Initialized newId nm l →
     (name <$> st' !! newId) = Some "Default Watchlist"
     ∧ (isDefault <$> st' !! newId) = Some true)
  ∧ findByName st' uid "Default" = None
  ∧ (∀ sym exch now,
       removeDefaultStock st' uid sym exch now
       = (if falsy_str exch then MissingParameter else Watchlists.WatchlistNotFound, st')).
Proof.
  intros Hfresh Hnone st'.
  assert (Hnone' : findByName st' uid "Default" = None).
  { apply findByName_None. intros k w Hk [Hu Hn].
    rewrite findByName_None in Hnone.
    subst st'. unfold initialize in Hk.
    destruct (hasDefault st uid); [by apply (Hnone k w)|]. cbv zeta in Hk.
    set (this := {| userId := uid; name := "Default Watchlist"; isDefault := true;
                    items := defaultStocks; stocks := None; lastUpdated := None |}) in *.
    assert (Hpre : ∀ k w, preSave st newId this !! k = Some w →
                          ¬ (userId w = uid ∧ name w = "Default")).
    { intros k' w' Hk' [Hu' Hn'].
      pose proof (preSave_content st newId this k') as Hc. rewrite Hk' in Hc.
      destruct (st !! k') as [w0|] eqn:H0; [|discriminate].
      cbn in Hc. unfold content in Hc. apply (Hnone k' w0 H0).
      split; congruence. }
    assert (Hcases : snd (save st newId this) !! k = Some w).
    { by destruct (save st newId this) as [[e|] st1]. }
    destruct (watchlist_save_cases st newId this) as [E | [E | [_ E]]];
      rewrite E in Hcases.
    - by apply (Hnone k w).
    - by apply (Hpre k w).
    - destruct (decide (k = newId)) as [->|Hne].
      + rewrite lookup_insert_eq in Hcases. injection Hcases as <-.
        cbn in Hn. discriminate.
      + rewrite lookup_insert_ne in Hcases by congruence. by apply (Hpre k w). }
  split; [|split; [done|]].
  - intros l nm Hi. subst st'. unfold initialize in *.
    destruct (hasDefault st uid); [discriminate|]. cbv zeta in *.
    destruct (save st newId _) as [[e|] st1] eqn:Hs; [discriminate|].
    cbn [snd]. apply (save_fresh _ _ _ _ Hfresh) in Hs. by rewrite Hs.
  - intros sym exch now. unfold removeDefaultStock.
    destruct (falsy_str exch); [done|]. by rewrite Hnone'.
Qed.

Lemma initialized_default_is_not_the_default_addressed_witness :
  fst (initialize ∅ "u1" "w1") = Initialized "w1" "Default Watchlist" defaultStocks
  ∧ fst (removeDefaultStock (snd (initialize ∅ "u1" "w1")) "u1" "INFY" (Some "NSE") 5)
    = Watchlists.WatchlistNotFound.
Proof.
  split; [vm_compute; reflexivity|].
  pose proof (initialized_default_is_not_the_default_addressed ∅ "u1" "w1"
                (lookup_empty "w1") eq_refl) as (_ & _ & H).
  by rewrite H.
Defined.

End WatchlistsRoutesProps.

(** ** Watchlists: the methods of the schema *)

Module WatchlistsDocProps.
Import Js Validator Watchlists WatchlistsDoc WatchlistsTerms FurtherTerms.


Lemma merge_pair (old item : Stock) : pair (merge old item) = pair item.
Proof. reflexivity. Qed.






End WatchlistsDocProps.

(** ** The watchlist router *)

Module RouterProps.
Import JsString Express WatchlistsDoc.

Lemma literal_is_not_empty (l s : string) :
  l ≠ "" → segmentMatches (Lit l) s = true → segmentMatches (Param "p") s = true.
Proof.
  unfold segmentMatches. intros Hl H. apply bool_decide_eq_true in H.
  apply negb_true_iff, bool_decide_eq_false. intros ->.
  destruct l; [done | discriminate].
Qed.

Ltac literal H :=
  apply literal_is_not_empty in H; [|discriminate].

(** X23.  Four handlers of the watchlist router are never reached.  The
    router tries its routes in the order of registration, and
    [GET /:watchlistId], [POST /create] and [POST /:watchlistId/add]
    are registered before [GET /search], [GET /default], the second
    [POST /create] and [POST /default/add]: every request the later
    routes match is answered by the earlier one.  Each of the other
    nine handlers answers some request. *)
Theorem four_watchlist_handlers_are_shadowed :
  (∀ m path h, dispatch watchlistRoutes m path = Some h → h ∉ shadowed)
  ∧ (∀ h, h ∉ shadowed → ∃ m path, dispatch watchlistRoutes m path = Some h)
  ∧ (∀ s, s ≠ "" → dispatch watchlistRoutes GET [s] = Some GetWatchlist)
  ∧ (∀ s, s ≠ "" → dispatch watchlistRoutes POST [s; "add"] = Some AddStock)
  ∧ dispatch watchlistRoutes GET ["search"] = Some GetWatchlist
  ∧ dispatch watchlistRoutes GET ["default"] = Some GetWatchlist
  ∧ dispatch watchlistRoutes POST ["default"; "add"] = Some AddStock
  ∧ dispatch watchlistRoutes POST ["create"] = Some CreateWatchlist.
Proof.
  assert (Hshadow : ∀ h, h ∈ [GetWatchlists; GetWatchlist; CreateWatchlist; AddStock;
                              RemoveStock; DeleteWatchlist; ReorderStocks;
                              RemoveDefaultStock; Initialize] → h ∉ shadowed).
  { intros h Hh Hs. unfold shadowed in Hs. set_unfold.
    repeat (destruct Hh as [-> | Hh];
            [repeat (destruct Hs as [Hs | Hs]; [discriminate|]); done|]).
    done. }
  assert (Hparam : ∀ s, s ≠ "" → segmentMatches (Param "watchlistId") s = true)
    by (intros s Hs; unfold segmentMatches; by rewrite bool_decide_eq_false_2).
  split; [|split; [|split; [|split]]].
  - intros m path h. unfold dispatch, watchlistRoutes.
    destruct m, path as [|s1 [|s2 [|s3 [|s4 path]]]];
      cbn [find fst snd sameMethod matches andb fmap option_fmap option_map];
      repeat match goal with
             | |- context [segmentMatches ?p ?s] =>
                 let E := fresh "E" in destruct (segmentMatches p s) eqn:E;
                 cbn [find fst snd sameMethod matches andb fmap option_fmap option_map]
             end;
      intros [= <-];
      try (apply Hshadow; repeat first [apply list_elem_of_here | apply list_elem_of_further]);
      exfalso;
      repeat match goal with
             | H : segmentMatches (Lit _) _ = true |- _ => literal H
             end;
      unfold segmentMatches in *; congruence.
  - intros h Hh. unfold shadowed in Hh.
    destruct h;
      try solve [exfalso; apply Hh;
                 repeat first [apply list_elem_of_here | apply list_elem_of_further]].
    + exists GET, []. reflexivity.
    + exists GET, ["w1"]. reflexivity.
    + exists POST, ["create"]. reflexivity.
    + exists POST, ["w1"; "add"]. reflexivity.
    + exists DELETE, ["w1"; "remove"; "INFY"]. reflexivity.
    + exists DELETE, ["w1"]. reflexivity.
    + exists PUT, ["w1"; "reorder"]. reflexivity.
    + exists DELETE, ["default"; "stocks"; "INFY"]. reflexivity.
    + exists POST, ["initialize"]. reflexivity.
  - intros s Hs. unfold dispatch, watchlistRoutes. cbn [find fst snd sameMethod matches].
    by rewrite (Hparam s Hs).
  - intros s Hs. unfold dispatch, watchlistRoutes.
    cbn [find fst snd sameMethod matches andb].
    rewrite (Hparam s Hs).
    destruct (segmentMatches (Lit "create") s); reflexivity.
  - repeat split; reflexivity.
Qed.

End RouterProps.

(** ** The authentication middleware *)

Module AuthProps.
Import Js JsString Auth.

Lemma split_word (w : string) :
  Forall (λ c, c ≠ " "%char) (chars w) → split " " w = [w].
Proof.
  unfold chars. induction w as [|c w IH]; [done|].
  cbn [list_ascii_of_string]. intros [Hc Hw]%Forall_cons.
  cbn [split]. rewrite (proj2 (Ascii.eqb_neq c " ") Hc), (IH Hw). done.
Qed.

Lemma split_words (a b : string) :
  Forall (λ c, c ≠ " "%char) (chars a) →
  split " " (a +:+ " " +:+ b) = a :: split " " b.
Proof.
  unfold chars. induction a as [|c a IH]; [done|].
  cbn [list_ascii_of_string]. intros [Hc Ha]%Forall_cons.
  change (String c a +:+ " " +:+ b) with (String c (a +:+ " " +:+ b)).
  cbn [split]. by rewrite (proj2 (Ascii.eqb_neq c " ") Hc), (IH Ha).
Qed.

(** X24.  [authenticateToken] verifies the second word of the
    Authorization header and nothing else: whatever stands before the
    first space, "Bearer" or not, a header made of that word, a space
    and a token without spaces is answered by what [jwt.verify] says of
    the token (401 for an expired token, 403 for any other error, the
    payload as [req.user] otherwise).  A header that is missing or has
    no second word is answered 401 without the verifier being asked. *)
Theorem only_the_second_word_is_verified (verify : string → Verified) :
  (∀ scheme token,
     Forall (λ c, c ≠ " "%char) (chars scheme) →
     Forall (λ c, c ≠ " "%char) (chars token) → token ≠ "" →
     tokenOf (Some (scheme +:+ " " +:+ token)) = Some token
     ∧ authenticateToken verify (Some (scheme +:+ " " +:+ token))
       = match verify token with
         | VerifyError name =>
             if bool_decide (name = "TokenExpiredError") then TokenExpired
             else InvalidToken
         | Decoded user => Next user
         end)
  ∧ authenticateToken verify None = AuthenticationRequired
  ∧ (∀ word, Forall (λ c, c ≠ " "%char) (chars word) →
       authenticateToken verify (Some word) = AuthenticationRequired)
  ∧ (∀ scheme, Forall (λ c, c ≠ " "%char) (chars scheme) →
       authenticateToken verify (Some (scheme +:+ " ")) = AuthenticationRequired).
Proof.
  split; [|split; [done|split]].
  - intros scheme token Hs Ht Hne.
    assert (Htok : tokenOf (Some (scheme +:+ " " +:+ token)) = Some token).
    { unfold tokenOf. rewrite bool_decide_eq_false_2 by (by destruct scheme).
      by rewrite (split_words _ _ Hs), (split_word _ Ht). }
    split; [done|]. unfold authenticateToken. rewrite Htok. cbn [falsy_str show].
    by rewrite bool_decide_eq_false_2.
  - intros word Hw. unfold authenticateToken, tokenOf.
    case_bool_decide; [done|]. by rewrite (split_word _ Hw).
  - intros scheme Hs. unfold authenticateToken, tokenOf.
    case_bool_decide; [done|].
    change (scheme +:+ " ") with (scheme +:+ " " +:+ "").
    by rewrite (split_words _ _ Hs).
Qed.

Example bearer_is_not_required :
  ∀ verify, authenticateToken verify (Some "Basic abc.def.ghi")
            = authenticateToken verify (Some "Bearer abc.def.ghi").
Proof. reflexivity. Qed.

End AuthProps.

(** ** Users: the login-attempt methods *)

Module UsersProps.
Import Js JsString Users FurtherTerms.

Lemma increment_view (this : obj) :
  view (incrementLoginAttempts this) = attempt (view this).
Proof.
  unfold incrementLoginAttempts, attempt, view. cbv zeta. cbn [fst snd].
  assert (Hn : num (<["loginAttempts" :=
                        VNum (to_number (num this "loginAttempts") + 1)%float]> this)
                   "loginAttempts"
               = Some (to_number (num this "loginAttempts") + 1)%float)
    by (unfold num; by rewrite lookup_insert_eq).
  rewrite Hn. cbn [to_number].
  destruct (ge _ 5).
  - unfold num, flag. rewrite lookup_insert_eq.
    rewrite lookup_insert_ne by discriminate. rewrite lookup_insert_eq.
    by rewrite orb_true_r.
  - rewrite Hn. unfold flag. rewrite lookup_insert_ne by discriminate.
    by rewrite orb_false_r.
Qed.

Lemma increments_view (n : nat) (this : obj) :
  view (Nat.iter n incrementLoginAttempts this) = Nat.iter n attempt (view this).
Proof.
  induction n as [|n IH]; [done|].
  change (Nat.iter (S n) ?f ?x) with (f (Nat.iter n f x)).
  by rewrite increment_view, IH.
Qed.

Lemma reset_view (this : obj) : view (resetLoginAttempts this) = (0%float, false).
Proof.
  unfold view, resetLoginAttempts, num, flag.
  rewrite lookup_insert_eq, lookup_insert_ne by discriminate.
  by rewrite lookup_insert_eq.
Qed.

Lemma attempts_keep_the_lock (n : nat) (s : float * bool) :
  s.2 = true → (Nat.iter n attempt s).2 = true.
Proof.
  intros H. induction n as [|n IH]; [done|].
  change (Nat.iter (S n) ?f ?x) with (f (Nat.iter n f x)).
  unfold attempt at 1. cbn [snd]. by rewrite IH.
Qed.

(** X25.  The login-attempt methods of [UserSchema]: after
    [resetLoginAttempts] an account is locked by the fifth
    [incrementLoginAttempts] and by no earlier one, and it stays locked
    under every further one.  After an increment the accountLocked
    flag alone says what [isAccountLocked] answers; an increment never
    clears the flag, and a reset always unlocks. *)
Theorem five_failed_attempts_lock_the_account (this : obj) :
  (∀ n, isAccountLocked (Nat.iter n incrementLoginAttempts (resetLoginAttempts this))
        = bool_decide (5 ≤ n)%nat)
  ∧ isAccountLocked (incrementLoginAttempts this)
    = flag (incrementLoginAttempts this) "accountLocked"
  ∧ (flag this "accountLocked" = true →
     isAccountLocked (incrementLoginAttempts this) = true)
  ∧ isAccountLocked (resetLoginAttempts this) = false.
Proof.
  assert (Hlocked : ∀ d, isAccountLocked d = (view d).2 || ge (view d).1 5) by done.
  split; [|split; [|split]].
  - intros n. rewrite Hlocked, increments_view, reset_view.
    destruct (decide (5 ≤ n)%nat) as [Hn|Hn].
    + rewrite bool_decide_eq_true_2 by done.
      replace n with (n - 5 + 5)%nat by lia. rewrite Nat.iter_add.
      rewrite attempts_keep_the_lock; [done|]. vm_compute. reflexivity.
    + rewrite bool_decide_eq_false_2 by done.
      do 5 (destruct n as [|n]; [vm_compute; reflexivity|]). lia.
  - rewrite Hlocked, increment_view. unfold attempt. cbn [fst snd].
    fold (flag (incrementLoginAttempts this) "accountLocked").
    change (flag (incrementLoginAttempts this) "accountLocked")
      with (view (incrementLoginAttempts this)).2.
    rewrite increment_view. unfold attempt. cbn [fst snd].
    by rewrite <- orb_assoc, orb_diag.
  - intros H. rewrite Hlocked, increment_view. unfold attempt, view. cbn [fst snd].
    by rewrite H.
  - rewrite Hlocked, reset_view. vm_compute. reflexivity.
Qed.

End UsersProps.

(** ** The caller's id, the default watchlist, the order value *)

Module CompositionProps.
Import Js JsString Validator Mongoose Auth Watchlists WatchlistsDoc WatchlistsTerms
  FurtherTerms.

(** X26.  [authenticateToken] calls [next()] only with a payload that
    [jwt.verify] decoded from the second word of the header.  The
    handlers read the caller's id as [req.user.id]; the access tokens
    that login and refresh-token sign carry the user's [_id] under
    [userId] and have no [id]: with such a token every handler runs
    with an undefined caller id. *)
Theorem handlers_read_an_id_the_tokens_lack (verify : string → Verified) :
  (∀ header u, authenticateToken verify header = Next u →
     ∃ token, tokenOf header = Some token ∧ token ≠ "" ∧ verify token = Decoded u)
  ∧ (∀ user iat exp,
       callerId (issued (accessPayload user) iat exp) = None
       ∧ issued (accessPayload user) iat exp !! "userId" = user !! "_id")
  ∧ (∀ header user iat exp,
       authenticateToken verify header = Next (issued (accessPayload user) iat exp) →
       callerId (issued (accessPayload user) iat exp) = None).
Proof.
  assert (Hid : ∀ user iat exp,
            callerId (issued (accessPayload user) iat exp) = None
            ∧ issued (accessPayload user) iat exp !! "userId" = user !! "_id").
  { intros user iat exp. unfold callerId, issued, accessPayload.
    destruct (user !! "_id"), (user !! "email"), (user !! "role");
      split; by repeat first [ rewrite lookup_insert_eq
                             | rewrite lookup_insert_ne by discriminate
                             | rewrite lookup_empty ]. }
  split; [|split; [done|]].
  - intros header u. unfold authenticateToken.
    destruct (tokenOf header) as [token|] eqn:Ht; cbn [falsy_str show]; [|done].
    case_bool_decide as Hne; [done|].
    destruct (verify token) as [name|user] eqn:Hv.
    + by case_bool_decide.
    + intros [= <-]. eauto.
  - intros. apply Hid.
Qed.

Lemma getDefaultWatchlist_Some st uid id w :
  getDefaultWatchlist st uid = Some (id, w) →
  st !! id = Some w ∧ userId w = uid ∧ isDefault w = true.
Proof.
  unfold getDefaultWatchlist.
  destruct (list_find _ (map_to_list st)) as [[i [k o]]|] eqn:Hfind; [|done].
  cbn. intros [= -> ->].
  apply list_find_Some in Hfind as (Hi & [Hu Hd] & _).
  apply list_elem_of_lookup_2, elem_of_map_to_list in Hi. by cbn in *.
Qed.

(** X27.  While at most one watchlist per user is the default one,
    [getDefaultWatchlist] does not depend on the order in which the
    collection yields its documents: it returns a watchlist exactly
    when that watchlist is stored, belongs to the user and is marked
    default, and it returns nothing exactly when the check of
    [POST /watchlist/initialize] finds no default watchlist. *)
Theorem the_default_watchlist_is_well_defined st uid :
  singleDefault st →
  (∀ id w, getDefaultWatchlist st uid = Some (id, w)
           ↔ st !! id = Some w ∧ userId w = uid ∧ isDefault w = true)
  ∧ (getDefaultWatchlist st uid = None ↔ hasDefault st uid = false).
Proof.
  intros Hst. split.
  - intros id w. split; [apply getDefaultWatchlist_Some|].
    intros (Hl & Hu & Hd).
    destruct (getDefaultWatchlist st uid) as [[id' w']|] eqn:Hg.
    + apply getDefaultWatchlist_Some in Hg as (Hl' & Hu' & Hd').
      assert (id' = id) as -> by (apply (Hst id' id w' w); congruence).
      congruence.
    + exfalso. unfold getDefaultWatchlist in Hg.
      destruct (list_find _ (map_to_list st)) as [r|] eqn:Hfind; [discriminate|].
      apply list_find_None in Hfind. rewrite Forall_forall in Hfind.
      apply (Hfind (id, w)); [by apply elem_of_map_to_list | done].
  - unfold getDefaultWatchlist, hasDefault. split.
    + intros Hg. apply not_true_iff_false. intros (kv & Hin & Hkv)%existsb_exists.
      destruct (list_find _ (map_to_list st)) as [r|] eqn:Hfind; [discriminate|].
      apply list_find_None in Hfind. rewrite Forall_forall in Hfind.
      apply (Hfind kv); [by apply list_elem_of_In|].
      apply andb_prop in Hkv as [Hu Hd]. apply bool_decide_eq_true in Hu. done.
    + intros Hh. destruct (list_find _ (map_to_list st)) as [[i kv]|] eqn:Hfind; [|done].
      apply list_find_Some in Hfind as (Hi & [Hu Hd] & _).
      apply not_true_iff_false in Hh. exfalso. apply Hh.
      apply existsb_exists. exists kv.
      split; [apply list_elem_of_In; by eapply list_elem_of_lookup_2|].
      by rewrite Hd, bool_decide_eq_true_2.
Qed.

Lemma the_default_watchlist_is_well_defined_witness :
  getDefaultWatchlist {["w9" := named "u2" "Mine" true]} "u2"
  = Some ("w9", named "u2" "Mine" true)
  ∧ getDefaultWatchlist {["w9" := named "u2" "Mine" true]} "u1" = None.
Proof.
  assert (H : singleDefault {["w9" := named "u2" "Mine" true]}).
  { intros i j wi wj Hi Hj _ _ _.
    apply lookup_singleton_Some in Hi as [<- _].
    by apply lookup_singleton_Some in Hj as [<- _]. }
  split.
  - apply (the_default_watchlist_is_well_defined _ "u2" H). by vm_compute.
  - apply (the_default_watchlist_is_well_defined _ "u1" H). by vm_compute.
Defined.




End CompositionProps.
